(** * three-cad-viewer: camera, grid, raycaster and measurement tools

    A shallow embedding of [src/camera.js] (the [Camera] wrapper, the
    [Raycaster] picking filters and the [Grid] tick computation) and of
    [src/cad_tools/measure.js] / [src/cad_tools/tools.js] (the measurement
    modes and their dispatcher), together with the properties the
    specification states about them.

    JavaScript numbers are modelled twice. The modules [JSNum], [Three],
    [Camera] and [Grid] compute with real numbers extended with the three
    non-finite values of IEEE-754 ([Infinity], [-Infinity], [NaN]), the
    arithmetic on finite values being exact; they carry the properties that
    are stated for real arithmetic or that involve no rounding. The modules
    [Doubles] and [GridDoubles] embed the camera and the tick computation
    over IEEE-754 doubles; they carry the properties of the values the
    program computes. *)

From Stdlib Require Import Reals Lra Lia ZArith List String Ascii Bool Psatz.
From Stdlib Require Floats.
Import ListNotations.

(** ** JavaScript numbers over the reals *)

Module JSNum.
#[local] Open Scope R_scope.

(** A number is a finite real or one of the IEEE specials. The sign of zero
    is not tracked: the only zeros that reach a division in the modelled code
    come from [x - x] and from [Math.sqrt], both of which are [+0]. *)
Inductive num : Type :=
| Fin (r : R)
| PInf
| NInf
| NaN.

Definition Rltb (a b : R) : bool := if Rlt_dec a b then true else false.
Definition Rleb (a b : R) : bool := if Rle_dec a b then true else false.
Definition Reqb (a b : R) : bool := if Req_dec_T a b then true else false.

(** [a < b] *)
Definition lt (a b : num) : bool :=
  match a, b with
  | NaN, _ | _, NaN => false
  | Fin x, Fin y => Rltb x y
  | _, NInf => false
  | PInf, _ => false
  | NInf, _ => true
  | Fin _, PInf => true
  end.

(** [a <= b] *)
Definition le (a b : num) : bool :=
  match a, b with
  | NaN, _ | _, NaN => false
  | Fin x, Fin y => Rleb x y
  | NInf, _ => true
  | _, PInf => true
  | PInf, _ => false
  | Fin _, NInf => false
  end.

(** [a == 0] for a number [a]. *)
Definition is_zero (a : num) : bool :=
  match a with
  | Fin x => Reqb x 0
  | _ => false
  end.

(** ToBoolean: [0] and [NaN] are falsy. *)
Definition truthy (a : num) : bool :=
  match a with
  | Fin x => negb (Reqb x 0)
  | NaN => false
  | PInf | NInf => true
  end.

Definition neg (a : num) : num :=
  match a with
  | Fin x => Fin (- x)
  | PInf => NInf
  | NInf => PInf
  | NaN => NaN
  end.

Definition add (a b : num) : num :=
  match a, b with
  | NaN, _ | _, NaN => NaN
  | Fin x, Fin y => Fin (x + y)
  | PInf, NInf | NInf, PInf => NaN
  | PInf, _ | _, PInf => PInf
  | NInf, _ | _, NInf => NInf
  end.

Definition sub (a b : num) : num := add a (neg b).

(** The sign of an infinite product or quotient. *)
Definition signed_inf (positive : bool) : num := if positive then PInf else NInf.

Definition mul (a b : num) : num :=
  match a, b with
  | NaN, _ | _, NaN => NaN
  | Fin x, Fin y => Fin (x * y)
  | Fin x, PInf | PInf, Fin x =>
      if Reqb x 0 then NaN else signed_inf (Rltb 0 x)
  | Fin x, NInf | NInf, Fin x =>
      if Reqb x 0 then NaN else signed_inf (Rltb x 0)
  | PInf, PInf | NInf, NInf => PInf
  | PInf, NInf | NInf, PInf => NInf
  end.

Definition div (a b : num) : num :=
  match a, b with
  | NaN, _ | _, NaN => NaN
  | Fin x, Fin y =>
      if Reqb y 0
      then if Reqb x 0 then NaN else signed_inf (Rltb 0 x)
      else Fin (x / y)
  | Fin _, (PInf | NInf) => Fin 0
  | PInf, Fin y => signed_inf (Rleb 0 y)
  | NInf, Fin y => signed_inf (Rltb y 0)
  | (PInf | NInf), (PInf | NInf) => NaN
  end.

(** [Math.sqrt] *)
Definition sqrt (a : num) : num :=
  match a with
  | Fin x => if Rltb x 0 then NaN else Fin (R_sqrt.sqrt x)
  | PInf => PInf
  | NInf | NaN => NaN
  end.

(** [Math.sin], [Math.cos] *)
Definition sin (a : num) : num :=
  match a with Fin x => Fin (Rtrigo_def.sin x) | _ => NaN end.
Definition cos (a : num) : num :=
  match a with Fin x => Fin (Rtrigo_def.cos x) | _ => NaN end.

(** The decimal logarithm of a positive real. *)
Definition Rlog10 (x : R) : R := ln x / ln 10.

(** [Math.log10] *)
Definition log10 (a : num) : num :=
  match a with
  | Fin x => if Rltb 0 x then Fin (Rlog10 x)
             else if Reqb x 0 then NInf else NaN
  | PInf => PInf
  | NInf | NaN => NaN
  end.

(** [Math.floor], [Math.ceil] *)
Definition floor (a : num) : num :=
  match a with Fin x => Fin (IZR (Zfloor x)) | _ => a end.
Definition ceil (a : num) : num :=
  match a with Fin x => Fin (IZR (Zceil x)) | _ => a end.

(** [10 ** e] *)
Definition pow10 (e : num) : num :=
  match e with
  | Fin x => Fin (Rpower 10 x)
  | PInf => PInf
  | NInf => Fin 0
  | NaN => NaN
  end.

(** [a || b] on numbers. *)
Definition or_else (a b : num) : num := if truthy a then a else b.

End JSNum.

(** ** The parts of three.js the camera relies on

    [THREE.Vector3] and [THREE.Quaternion] with the methods the repository
    calls, following the library's definitions ([normalize] divides by
    [length() || 1], [divideScalar s] multiplies by [1 / s], [setLength l]
    is [normalize().multiplyScalar(l)]). *)

Module Three.
Import JSNum.
#[local] Open Scope R_scope.

Record Vector3 : Type := V3 { vx : num; vy : num; vz : num }.

Record Quaternion : Type := Q4 { qx : num; qy : num; qz : num; qw : num }.

(** [new THREE.Vector3(...a)]: missing components default to 0. *)
Definition Vector3_of_list (a : list num) : Vector3 :=
  V3 (nth 0 a (Fin 0)) (nth 1 a (Fin 0)) (nth 2 a (Fin 0)).

(** [new THREE.Quaternion(...a)]: defaults are [0, 0, 0, 1]. *)
Definition Quaternion_of_list (a : list num) : Quaternion :=
  Q4 (nth 0 a (Fin 0)) (nth 1 a (Fin 0)) (nth 2 a (Fin 0)) (nth 3 a (Fin 1)).

Definition toArray (v : Vector3) : list num := [vx v; vy v; vz v].

Definition v_add (a b : Vector3) : Vector3 :=
  V3 (add (vx a) (vx b)) (add (vy a) (vy b)) (add (vz a) (vz b)).

Definition v_sub (a b : Vector3) : Vector3 :=
  V3 (sub (vx a) (vx b)) (sub (vy a) (vy b)) (sub (vz a) (vz b)).

Definition multiplyScalar (v : Vector3) (s : num) : Vector3 :=
  V3 (mul (vx v) s) (mul (vy v) s) (mul (vz v) s).

Definition divideScalar (v : Vector3) (s : num) : Vector3 :=
  multiplyScalar v (div (Fin 1) s).

Definition length (v : Vector3) : num :=
  sqrt (add (add (mul (vx v) (vx v)) (mul (vy v) (vy v))) (mul (vz v) (vz v))).

Definition normalize (v : Vector3) : Vector3 :=
  divideScalar v (or_else (length v) (Fin 1)).

Definition setLength (v : Vector3) (l : num) : Vector3 :=
  multiplyScalar (normalize v) l.

(** [new THREE.Quaternion()] *)
Definition q_identity : Quaternion := Q4 (Fin 0) (Fin 0) (Fin 0) (Fin 1).

(** [q.setFromAxisAngle(axis, angle)]; the axis is assumed normalised. *)
Definition setFromAxisAngle (axis : Vector3) (angle : num) : Quaternion :=
  let halfAngle := div angle (Fin 2) in
  let s := sin halfAngle in
  Q4 (mul (vx axis) s) (mul (vy axis) s) (mul (vz axis) s) (cos halfAngle).

(** [a.multiply(b)], the Hamilton product [a * b]. *)
Definition q_multiply (a b : Quaternion) : Quaternion :=
  let '(Q4 qax qay qaz qaw) := a in
  let '(Q4 qbx qby qbz qbw) := b in
  Q4 (sub (add (add (mul qax qbw) (mul qaw qbx)) (mul qay qbz)) (mul qaz qby))
     (sub (add (add (mul qay qbw) (mul qaw qby)) (mul qaz qbx)) (mul qax qbz))
     (sub (add (add (mul qaz qbw) (mul qaw qbz)) (mul qax qby)) (mul qay qbx))
     (sub (sub (sub (mul qaw qbw) (mul qax qbx)) (mul qay qby)) (mul qaz qbz)).

(** The Euclidean norm of a real triple. *)
Definition norm3 (a b c : R) : R := R_sqrt.sqrt (a * a + b * b + c * c).

(** A vector all of whose components are finite. *)
Definition fin3 (x y z : R) : Vector3 := V3 (Fin x) (Fin y) (Fin z).

End Three.

(** ** Camera *)

Module Camera.
Import JSNum Three.
#[local] Open Scope R_scope.
#[local] Open Scope string_scope.

Inductive UpConvention : Type := y_up | z_up | legacy.

Inductive Direction : Type := iso | front | rear | left | right | top | bottom.

Record Preset : Type := { pos : Vector3; z_rot : num }.

Definition defaultDirections (up : UpConvention) (dir : Direction) : Preset :=
  match up, dir with
  | y_up, iso => {| pos := fin3 1 1 1; z_rot := Fin 0 |}
  | y_up, front => {| pos := fin3 0 0 1; z_rot := Fin 0 |}
  | y_up, rear => {| pos := fin3 0 0 (-1); z_rot := Fin 0 |}
  | y_up, left => {| pos := fin3 (-1) 0 0; z_rot := Fin 0 |}
  | y_up, right => {| pos := fin3 1 0 0; z_rot := Fin 0 |}
  | y_up, top => {| pos := fin3 0 1 0; z_rot := Fin 0 |}
  | y_up, bottom => {| pos := fin3 0 (-1) 0; z_rot := Fin 0 |}
  | z_up, iso => {| pos := fin3 1 (-1) 1; z_rot := Fin 0 |}
  | z_up, front => {| pos := fin3 0 (-1) 0; z_rot := Fin 0 |}
  | z_up, rear => {| pos := fin3 0 1 0; z_rot := Fin 0 |}
  | z_up, left => {| pos := fin3 (-1) 0 0; z_rot := Fin 0 |}
  | z_up, right => {| pos := fin3 1 0 0; z_rot := Fin 0 |}
  | z_up, top => {| pos := fin3 0 0 1; z_rot := Fin (- PI / 2) |}
  | z_up, bottom => {| pos := fin3 0 0 (-1); z_rot := Fin (- PI / 2) |}
  | legacy, iso => {| pos := fin3 1 1 1; z_rot := Fin 0 |}
  | legacy, front => {| pos := fin3 1 0 0; z_rot := Fin 0 |}
  | legacy, rear => {| pos := fin3 (-1) 0 0; z_rot := Fin 0 |}
  | legacy, left => {| pos := fin3 0 1 0; z_rot := Fin 0 |}
  | legacy, right => {| pos := fin3 0 (-1) 0; z_rot := Fin 0 |}
  | legacy, top => {| pos := fin3 0 0 1; z_rot := Fin 0 |}
  | legacy, bottom => {| pos := fin3 0 0 (-1); z_rot := Fin 0 |}
  end.

Definition cameraUp (up : UpConvention) : Vector3 :=
  match up with
  | y_up => fin3 0 1 0
  | z_up => fin3 0 0 1
  | legacy => fin3 0 0 1
  end.

(** The constructor's [mapping]; any other key is [undefined]. *)
Definition mapping (up : string) : option UpConvention :=
  if String.eqb up "Y" then Some y_up
  else if String.eqb up "Z" then Some z_up
  else if String.eqb up "L" then Some legacy
  else None.

(** The own keys of a [defaultDirections] entry. *)
Definition direction_of_string (dir : string) : option Direction :=
  if String.eqb dir "iso" then Some iso
  else if String.eqb dir "front" then Some front
  else if String.eqb dir "rear" then Some rear
  else if String.eqb dir "left" then Some left
  else if String.eqb dir "right" then Some right
  else if String.eqb dir "top" then Some top
  else if String.eqb dir "bottom" then Some bottom
  else None.

Definition direction_name (d : Direction) : string :=
  match d with
  | iso => "iso" | front => "front" | rear => "rear" | left => "left"
  | right => "right" | top => "top" | bottom => "bottom"
  end.

(** The names an object literal inherits from [Object.prototype]. *)
Definition inherited_keys : list string :=
  ["constructor"; "hasOwnProperty"; "isPrototypeOf"; "propertyIsEnumerable";
   "toLocaleString"; "toString"; "valueOf"; "__proto__";
   "__defineGetter__"; "__defineSetter__"; "__lookupGetter__"; "__lookupSetter__"].

(** What [defaultDirections[this.up][dir]] evaluates to: one of the seven
    presets, a member inherited from [Object.prototype] (a function, or the
    prototype itself for ["__proto__"]; its [pos] and [z_rot] are
    [undefined]), or [undefined]. *)
Inductive Entry : Type :=
| own (d : Direction)
| inherited
| missing.

Definition lookup_direction (dir : string) : Entry :=
  match direction_of_string dir with
  | Some d => own d
  | None => if existsb (String.eqb dir) inherited_keys then inherited else missing
  end.

(** The state of a [THREE.Camera] the wrapper reads and writes. *)
Record ThreeCamera : Type := {
  position : Vector3;
  quaternion : Quaternion;
  zoom : num;
  cam_up : Vector3
}.

(** The [Camera] object. [this.camera] always aliases the camera selected by
    [this.ortho] (both are assigned together in the constructor and in
    [switchCamera]), so it is read and written through [ortho]. *)
Record Camera : Type := {
  target : Vector3;
  ortho : bool;
  up : UpConvention;
  camera_distance : num;
  pCamera : ThreeCamera;
  oCamera : ThreeCamera
}.

Definition camera (c : Camera) : ThreeCamera :=
  if ortho c then oCamera c else pCamera c.

Definition with_camera (f : ThreeCamera -> ThreeCamera) (c : Camera) : Camera :=
  if ortho c
  then {| target := target c; ortho := ortho c; up := up c;
          camera_distance := camera_distance c;
          pCamera := pCamera c; oCamera := f (oCamera c) |}
  else {| target := target c; ortho := ortho c; up := up c;
          camera_distance := camera_distance c;
          pCamera := f (pCamera c); oCamera := oCamera c |}.

Definition set_position (p : Vector3) (t : ThreeCamera) : ThreeCamera :=
  {| position := p; quaternion := quaternion t; zoom := zoom t; cam_up := cam_up t |}.

Definition set_quaternion (q : Quaternion) (t : ThreeCamera) : ThreeCamera :=
  {| position := position t; quaternion := q; zoom := zoom t; cam_up := cam_up t |}.

Definition set_zoom (z : num) (t : ThreeCamera) : ThreeCamera :=
  {| position := position t; quaternion := quaternion t; zoom := z; cam_up := cam_up t |}.

Definition set_ortho (flag : bool) (c : Camera) : Camera :=
  {| target := target c; ortho := flag; up := up c;
     camera_distance := camera_distance c;
     pCamera := pCamera c; oCamera := oCamera c |}.

(** Arguments of [setPosition] and [setQuaternion]: an array, an instance of
    the three.js class, or anything else. *)
Inductive PositionArg : Type :=
| PosArray (a : list num)
| PosVector3 (v : Vector3)
| PosOther.

Inductive QuaternionArg : Type :=
| QuatArray (a : list num)
| QuatQuaternion (q : Quaternion)
| QuatOther.

Section WithLookAt.

(** [Object3D.lookAt] of three.js for a camera without parent: the
    orientation of a camera at [eye] with the given [up] vector that looks at
    the target. It is library code; the wrapper only stores its result. *)
Variable lookAt : forall (eye target up : Vector3), Quaternion.

(** [new Camera(width, height, distance, target, ortho, up)]; [None] when the
    constructor throws (an [up] key outside the mapping). The projection
    parameters derived from [width], [height] and [distance] are not part of
    the state modelled here. *)
Definition constructor (width height distance : num) (tgt : list num)
  (ortho_flag : bool) (up_key : string) : option Camera :=
  match mapping up_key with
  | None => None
  | Some u =>
      let t := Vector3_of_list tgt in
      let fresh :=
        {| position := fin3 0 0 0;
           quaternion := lookAt (fin3 0 0 0) t (cameraUp u);
           zoom := Fin 1;
           cam_up := cameraUp u |} in
      Some {| target := t; ortho := ortho_flag; up := u;
              camera_distance := mul (Fin 5) distance;
              pCamera := fresh; oCamera := fresh |}
  end.

Definition getCamera (c : Camera) : ThreeCamera := camera c.

Definition lookAtTarget (c : Camera) : Camera :=
  with_camera
    (fun t => set_quaternion (lookAt (position t) (target c) (cam_up t)) t) c.

Definition getZoom (c : Camera) : num :=
  if ortho c then zoom (camera c)
  else
    let p := v_sub (position (camera c)) (target c) in
    div (camera_distance c) (length p).

Definition setZoom (c : Camera) (val : num) : Camera :=
  if ortho c then with_camera (set_zoom val) c
  else
    with_camera
      (fun t =>
         set_position
           (v_add (setLength (v_sub (position t) (target c))
                             (div (camera_distance c) val))
                  (target c)) t) c.

Definition setupCamera (c : Camera) (relative : bool)
  (position : option Vector3) (quaternion : option Quaternion)
  (zoom : option num) : Camera :=
  let c1 :=
    match position with
    | Some p =>
        let cameraPosition :=
          if relative
          then v_add (multiplyScalar (normalize p) (camera_distance c)) (target c)
          else p in
        with_camera (set_position (Vector3_of_list (toArray cameraPosition))) c
    | None => c
    end in
  let c2 :=
    match quaternion with
    | Some q => with_camera (set_quaternion q) c1
    | None => c1
    end in
  match zoom with
  | Some z => setZoom c2 z
  | None => c2
  end.

Definition getPosition (c : Camera) : Vector3 := position (camera c).

Definition getQuaternion (c : Camera) : Quaternion := quaternion (camera c).

Definition setPosition (c : Camera) (position : PositionArg) (relative : bool)
  : Camera :=
  match position with
  | PosArray a =>
      if Nat.eqb (List.length a) 3
      then setupCamera c relative (Some (Vector3_of_list a)) None None
      else c
  | PosVector3 v => setupCamera c relative (Some v) None None
  | PosOther => c
  end.

Definition setQuaternion (c : Camera) (quaternion : QuaternionArg) : Camera :=
  match quaternion with
  | QuatArray a =>
      if Nat.eqb (List.length a) 4
      then setupCamera c false None (Some (Quaternion_of_list a)) None
      else c
  | QuatQuaternion q => setupCamera c false None (Some q) None
  | QuatOther => c
  end.

(** [presetCamera(dir, zoom)]; [None] when it throws: [dir] names nothing,
    and reading [pos] of [undefined] is a [TypeError]. For an inherited
    member [pos] is [undefined], so [setupCamera] takes the default [null]
    for its position, and [z_rot] is [undefined]: [undefined != 0] holds and
    the angle of the rotation is [NaN]. *)
Definition presetCamera (c : Camera) (dir : string) (zoom_arg : option num)
  : option Camera :=
  let z := match zoom_arg with Some z => z | None => zoom (camera c) end in
  match lookup_direction dir with
  | missing => None
  | own d =>
      let preset := defaultDirections (up c) d in
      let c1 := setupCamera c true (Some (pos preset)) None (Some z) in
      let c2 := lookAtTarget c1 in
      if negb (is_zero (z_rot preset))
      then
        let q := setFromAxisAngle (fin3 0 0 1) (z_rot preset) in
        let q := q_multiply q (getQuaternion c2) in
        Some (setQuaternion c2 (QuatQuaternion q))
      else Some c2
  | inherited =>
      let c1 := setupCamera c true None None (Some z) in
      let c2 := lookAtTarget c1 in
      let q := setFromAxisAngle (fin3 0 0 1) NaN in
      let q := q_multiply q (getQuaternion c2) in
      Some (setQuaternion c2 (QuatQuaternion q))
  end.

Definition switchCamera (c : Camera) (ortho_flag : bool) : Camera :=
  let p0 := getPosition c in
  let z0 := getZoom c in
  let q0 := getQuaternion c in
  let c1 := set_ortho ortho_flag c in
  let c2 := setPosition c1 (PosVector3 p0) false in
  let c3 := setZoom c2 z0 in
  setQuaternion c3 (QuatQuaternion q0).

End WithLookAt.

(** The current camera has been placed: its position and the target are
    finite and distinct, and the camera distance is positive. *)
Definition placed (c : Camera) : Prop :=
  exists px py pz tx ty tz k,
    position (camera c) = fin3 px py pz /\ target c = fin3 tx ty tz /\
    (px, py, pz) <> (tx, ty, tz) /\ camera_distance c = Fin k /\ 0 < k.

(** A stand-in for [lookAt] used to run the model on concrete inputs. *)
Definition lookAt_identity (eye target up : Vector3) : Quaternion := q_identity.

(** *** Sample cameras *)

(** The perspective camera right after construction with the target at the
    origin. *)
Definition fresh_perspective : Camera :=
  {| target := fin3 0 0 0; ortho := false; up := z_up;
     camera_distance := mul (Fin 5) (Fin 1);
     pCamera := {| position := fin3 0 0 0; quaternion := q_identity;
                   zoom := Fin 1; cam_up := fin3 0 0 1 |};
     oCamera := {| position := fin3 0 0 0; quaternion := q_identity;
                   zoom := Fin 1; cam_up := fin3 0 0 1 |} |}.

(** The orthographic camera right after construction with the target at the
    origin. *)
Definition fresh_orthographic : Camera :=
  {| target := fin3 0 0 0; ortho := true; up := z_up;
     camera_distance := mul (Fin 5) (Fin 1);
     pCamera := {| position := fin3 0 0 0; quaternion := q_identity;
                   zoom := Fin 1; cam_up := fin3 0 0 1 |};
     oCamera := {| position := fin3 0 0 0; quaternion := q_identity;
                   zoom := Fin 1; cam_up := fin3 0 0 1 |} |}.

(** A perspective camera at (10, 0, 0) looking at the origin. *)
Definition placed_perspective : Camera :=
  {| target := fin3 0 0 0; ortho := false; up := z_up;
     camera_distance := Fin 5;
     pCamera := {| position := fin3 10 0 0; quaternion := q_identity;
                   zoom := Fin 1; cam_up := fin3 0 0 1 |};
     oCamera := {| position := fin3 0 0 0; quaternion := q_identity;
                   zoom := Fin 1; cam_up := fin3 0 0 1 |} |}.

(** An orthographic camera at (10, 0, 0) with zoom 2 looking at the origin. *)
Definition placed_orthographic : Camera :=
  {| target := fin3 0 0 0; ortho := true; up := z_up;
     camera_distance := Fin 5;
     pCamera := {| position := fin3 0 0 0; quaternion := q_identity;
                   zoom := Fin 1; cam_up := fin3 0 0 1 |};
     oCamera := {| position := fin3 10 0 0; quaternion := q_identity;
                   zoom := Fin 2; cam_up := fin3 0 0 1 |} |}.

End Camera.

(** ** Raycaster: picking filters *)

Module Raycaster.
Import JSNum.
#[local] Open Scope string_scope.

(** A filter entry is [null] ([None]) or a string. *)
Module TopoFilter.
Definition none : option string := None.
Definition vertex : option string := Some "vertex".
Definition edge : option string := Some "edge".
Definition face : option string := Some "face".
Definition solid : option string := Some "solid".
End TopoFilter.

Module GeomFilter.
Definition none : option string := None.
Definition plane : option string := Some "plane".
Definition circle : option string := Some "circle".
End GeomFilter.

(** [objectGroup.geomtype] *)
Record GeomType : Type := { topo : string; geomtype : string }.

(** One entry of [raycaster.intersectObjects]: the visibility of the hit
    object's material, [distanceToRay] ([None] when absent) and the parent
    [ObjectGroup] ([None] when [null]), of which only [geomtype] is read. *)
Record Intersection : Type := {
  material_visible : bool;
  distanceToRay : option num;
  parent : option GeomType
}.

Record Filters : Type := {
  topoFilter : list (option string);
  geomFilter : list (option string)
}.

(** The constructor's filters. *)
Definition initial_filters : Filters :=
  {| topoFilter := [TopoFilter.none]; geomFilter := [GeomFilter.none] |}.

Definition value_eqb (a b : option string) : bool :=
  match a, b with
  | None, None => true
  | Some x, Some y => String.eqb x y
  | _, _ => false
  end.

(** [Array.prototype.includes] *)
Definition includes (l : list (option string)) (x : option string) : bool :=
  existsb (value_eqb x) l.

(** The loop body's first test: a visible material and a hit close enough to
    the ray. *)
Definition examined (object : Intersection) : bool :=
  material_visible object &&
  match distanceToRay object with
  | None => true
  | Some d => lt d (Fin 0.03)
  end.

(** The two filter tests of the loop body on a parent with the given
    [geomtype]. *)
Definition passes_filters (filters : Filters) (g : GeomType) : bool :=
  let valid :=
    includes (topoFilter filters) TopoFilter.solid
    || includes (topoFilter filters) TopoFilter.none
    || includes (topoFilter filters) (Some (topo g)) in
  if negb valid then false
  else
    negb (includes (topoFilter filters) TopoFilter.solid)
    && (includes (geomFilter filters) GeomFilter.none
        || includes (geomFilter filters) (Some (geomtype g))).

(** The [for] loop over the intersections, pushing the valid ones. *)
Fixpoint collect (filters : Filters) (objects validObjs : list Intersection)
  : list Intersection :=
  match objects with
  | [] => validObjs
  | object :: rest =>
      if examined object then
        match parent object with
        | None => collect filters rest validObjs
        | Some g =>
            if passes_filters filters g
            then collect filters rest (validObjs ++ [object])%list
            else collect filters rest validObjs
        end
      else collect filters rest validObjs
  end.

(** [getValidIntersectedObjs()], given the flag [mouseMoved], the filters and
    the intersections the three.js raycaster reports. *)
Definition getValidIntersectedObjs (mouseMoved : bool) (filters : Filters)
  (objects : list Intersection) : list Intersection :=
  if mouseMoved then collect filters objects [] else [].

(** The two filters as the specification words them. *)
Definition spec_topology_allowed (filters : Filters) (g : GeomType) : bool :=
  includes (topoFilter filters) TopoFilter.none
  || includes (topoFilter filters) TopoFilter.solid
  || includes (topoFilter filters) (Some (topo g)).

Definition spec_geometry_allowed (filters : Filters) (g : GeomType) : bool :=
  includes (geomFilter filters) GeomFilter.none
  || includes (geomFilter filters) (Some (geomtype g)).

(** A visible face of a plane, hit by the ray. *)
Definition plane_face_hit : Intersection :=
  {| material_visible := true; distanceToRay := None;
     parent := Some {| topo := "face"; geomtype := "plane" |} |}.

(** Picking solids, any geometry. *)
Definition solid_filters : Filters :=
  {| topoFilter := [TopoFilter.solid]; geomFilter := [GeomFilter.none] |}.

End Raycaster.

(** ** Measurement tools *)

Module Measure.
Import JSNum Three.
#[local] Open Scope string_scope.
#[local] Open Scope list_scope.

Definition DEBUG : bool := true.

(** Exceptions thrown by the modelled code. *)
Inductive Exn : Type :=
| TypeError (msg : string)
| Error (msg : string).

(** Values of the fields of a backend response: absent, [null], a boolean, a
    number or an array of numbers. *)
Inductive JSVal : Type :=
| JUndefined
| JNull
| JBool (b : bool)
| JNum (n : num)
| JArr (a : list num).

(** ToBoolean *)
Definition js_truthy (v : JSVal) : bool :=
  match v with
  | JUndefined | JNull => false
  | JBool b => b
  | JNum n => truthy n
  | JArr _ => true
  end.

(** The elements of [...v] in an argument list; [None] when [v] is not
    iterable. *)
Definition spread (v : JSVal) : option (list num) :=
  match v with
  | JArr a => Some a
  | _ => None
  end.

(** A picked [ObjectGroup] is an object of the scene graph, compared by
    identity; it is represented by its reference. *)
Definition ObjectGroup : Type := nat.

(** What the measurement code reads from an [ObjectGroup]: its [name] and
    [children[0].geometry.boundingSphere.center] ([None] when a link of that
    chain is missing). *)
Record ShapeInfo : Type := {
  name : string;
  center : option Vector3
}.

Inductive Display : Type := display_unset | display_none | display_block.

(** What is assigned to a [textContent]: [n.toFixed(2)], a value converted by
    the DOM, or a string. *)
Inductive PanelText : Type :=
| Fixed2 (n : num)
| Raw (v : JSVal)
| Str (s : string).

(** The floating panel: [style.display], the texts and row displays written
    to its descendants (by selector, latest first) and the world point at
    which [_movePanel] last placed it. *)
Record Panel : Type := {
  style_display : Display;
  texts : list (string * PanelText);
  rows : list (string * Display);
  placed_at : option Vector3
}.

(** An arrow of the overlay scene: a [DistanceLineArrow], or a
    [CurvedLineArrow] with its arc centre and radius. *)
Inductive ArrowKind : Type :=
| Straight
| Curved (arcCenter : Vector3) (radius : num).

Record LineArrow : Type := {
  kind : ArrowKind;
  a_point1 : Vector3;
  a_point2 : Vector3;
  linewidth : num;
  color : N;
  arrowStart : bool;
  arrowEnd : bool
}.

(** The three concrete subclasses of [Measurement]. *)
Inductive Mode : Type :=
| DistanceMeasurement
| PropertiesMeasurement
| AngleMeasurement.

(** The measured field kept by [PropertiesMeasurement.handleResponse]. *)
Inductive PropertyField : Type :=
| f_vertex_coords (v : Vector3)
| f_length (v : JSVal)
| f_area (v : JSVal)
| f_volume (v : JSVal).

(** The object stored in [responseData]. *)
Inductive ResponseData : Type :=
| DistanceData (distance : JSVal) (point1 point2 : Vector3)
| PropertiesData (field : PropertyField) (center : Vector3)
| AngleData (angle : JSVal) (point1 point2 planeNormal : Vector3).

(** A backend response. *)
Record Response : Type := {
  r_distance : JSVal;
  r_angle : JSVal;
  r_point1 : JSVal;
  r_point2 : JSVal;
  r_plane_normal : JSVal;
  r_vertex_coords : JSVal;
  r_length : JSVal;
  r_area : JSVal;
  r_volume : JSVal;
  r_center : JSVal
}.

(** A [Measurement] instance. [shapes] is the scene graph behind
    [this.viewer]; [notified] records the calls of [viewer.checkChanges]
    (the [selectedShapeIDs] passed, latest first) and [cleared] the objects
    whose [clearHighlights] was called (latest first). *)
Record Measurement : Type := {
  mode : Mode;
  shapes : ObjectGroup -> ShapeInfo;
  selectedShapes : list ObjectGroup;
  point1 : option Vector3;
  point2 : option Vector3;
  contextEnabled : bool;
  scene : list LineArrow;
  panel : Panel;
  panelCenter : option Vector3;
  responseData : option ResponseData;
  notified : list (list string);
  cleared : list ObjectGroup
}.

Definition set_selectedShapes (l : list ObjectGroup) (m : Measurement) :=
  {| mode := mode m; shapes := shapes m; selectedShapes := l;
     point1 := point1 m; point2 := point2 m;
     contextEnabled := contextEnabled m; scene := scene m; panel := panel m;
     panelCenter := panelCenter m; responseData := responseData m;
     notified := notified m; cleared := cleared m |}.

Definition set_point1 (p : option Vector3) (m : Measurement) :=
  {| mode := mode m; shapes := shapes m; selectedShapes := selectedShapes m;
     point1 := p; point2 := point2 m;
     contextEnabled := contextEnabled m; scene := scene m; panel := panel m;
     panelCenter := panelCenter m; responseData := responseData m;
     notified := notified m; cleared := cleared m |}.

Definition set_point2 (p : option Vector3) (m : Measurement) :=
  {| mode := mode m; shapes := shapes m; selectedShapes := selectedShapes m;
     point1 := point1 m; point2 := p;
     contextEnabled := contextEnabled m; scene := scene m; panel := panel m;
     panelCenter := panelCenter m; responseData := responseData m;
     notified := notified m; cleared := cleared m |}.

Definition set_contextEnabled (b : bool) (m : Measurement) :=
  {| mode := mode m; shapes := shapes m; selectedShapes := selectedShapes m;
     point1 := point1 m; point2 := point2 m;
     contextEnabled := b; scene := scene m; panel := panel m;
     panelCenter := panelCenter m; responseData := responseData m;
     notified := notified m; cleared := cleared m |}.

Definition set_scene (sc : list LineArrow) (m : Measurement) :=
  {| mode := mode m; shapes := shapes m; selectedShapes := selectedShapes m;
     point1 := point1 m; point2 := point2 m;
     contextEnabled := contextEnabled m; scene := sc; panel := panel m;
     panelCenter := panelCenter m; responseData := responseData m;
     notified := notified m; cleared := cleared m |}.

Definition set_panel (p : Panel) (m : Measurement) :=
  {| mode := mode m; shapes := shapes m; selectedShapes := selectedShapes m;
     point1 := point1 m; point2 := point2 m;
     contextEnabled := contextEnabled m; scene := scene m; panel := p;
     panelCenter := panelCenter m; responseData := responseData m;
     notified := notified m; cleared := cleared m |}.

Definition set_panelCenter (p : option Vector3) (m : Measurement) :=
  {| mode := mode m; shapes := shapes m; selectedShapes := selectedShapes m;
     point1 := point1 m; point2 := point2 m;
     contextEnabled := contextEnabled m; scene := scene m; panel := panel m;
     panelCenter := p; responseData := responseData m;
     notified := notified m; cleared := cleared m |}.

Definition set_responseData (d : option ResponseData) (m : Measurement) :=
  {| mode := mode m; shapes := shapes m; selectedShapes := selectedShapes m;
     point1 := point1 m; point2 := point2 m;
     contextEnabled := contextEnabled m; scene := scene m; panel := panel m;
     panelCenter := panelCenter m; responseData := d;
     notified := notified m; cleared := cleared m |}.

Definition add_notified (ids : list string) (m : Measurement) :=
  {| mode := mode m; shapes := shapes m; selectedShapes := selectedShapes m;
     point1 := point1 m; point2 := point2 m;
     contextEnabled := contextEnabled m; scene := scene m; panel := panel m;
     panelCenter := panelCenter m; responseData := responseData m;
     notified := ids :: notified m; cleared := cleared m |}.

Definition add_cleared (o : ObjectGroup) (m : Measurement) :=
  {| mode := mode m; shapes := shapes m; selectedShapes := selectedShapes m;
     point1 := point1 m; point2 := point2 m;
     contextEnabled := contextEnabled m; scene := scene m; panel := panel m;
     panelCenter := panelCenter m; responseData := responseData m;
     notified := notified m; cleared := o :: cleared m |}.

Definition set_style_display (d : Display) (p : Panel) : Panel :=
  {| style_display := d; texts := texts p; rows := rows p;
     placed_at := placed_at p |}.

Definition set_text (selector : string) (t : PanelText) (p : Panel) : Panel :=
  {| style_display := style_display p; texts := (selector, t) :: texts p;
     rows := rows p; placed_at := placed_at p |}.

Definition set_row (selector : string) (d : Display) (p : Panel) : Panel :=
  {| style_display := style_display p; texts := texts p;
     rows := (selector, d) :: rows p; placed_at := placed_at p |}.

Definition set_placed_at (v : option Vector3) (p : Panel) : Panel :=
  {| style_display := style_display p; texts := texts p; rows := rows p;
     placed_at := v |}.

(** *** State and exceptions

    A method is a function from the instance to a result that carries the
    instance as the method left it, whether it returned or threw. *)

Inductive Res (A : Type) : Type :=
| Ok (a : A) (m : Measurement)
| Throw (e : Exn) (m : Measurement).
Arguments Ok {A} a m.
Arguments Throw {A} e m.

Definition M (A : Type) : Type := Measurement -> Res A.

Definition ret {A} (a : A) : M A := fun m => Ok a m.

Definition bind {A B} (c : M A) (k : A -> M B) : M B :=
  fun m => match c m with
           | Ok a m' => k a m'
           | Throw e m' => Throw e m'
           end.

Definition throw {A} (e : Exn) : M A := fun m => Throw e m.

Definition get : M Measurement := fun m => Ok m m.

Definition modify (f : Measurement -> Measurement) : M unit :=
  fun m => Ok tt (f m).

Definition state_of {A} (r : Res A) : Measurement :=
  match r with Ok _ m => m | Throw _ m => m end.

Definition returned {A} (r : Res A) : bool :=
  match r with Ok _ _ => true | Throw _ _ => false end.

Notation "x <- c1 ;; c2" := (bind c1 (fun x => c2))
  (at level 61, c1 at next level, right associativity).
Notation "c1 ;;; c2" := (bind c1 (fun _ => c2))
  (at level 61, right associativity).

(** Reading a property of a value that may be [undefined] or [null]. *)
Definition require {A} (o : option A) (msg : string) : M A :=
  match o with
  | Some a => ret a
  | None => throw (TypeError msg)
  end.

(** [new Vector3(...v)] *)
Definition new_Vector3_spread (v : JSVal) : M Vector3 :=
  a <- require (spread v) "is not iterable" ;;
  ret (Vector3_of_list a).

(** *** Strings *)

(** [s.replaceAll("|", "/")] *)
Fixpoint replace_bars (s : string) : string :=
  match s with
  | EmptyString => EmptyString
  | String c rest =>
      String (if Ascii.eqb c "|"%char then "/"%char else c) (replace_bars rest)
  end.

(** The line terminators, which [.] does not match: LF, CR and, strings
    being sequences of UTF-8 bytes here, the three bytes of U+2028 and of
    U+2029. *)
Definition is_line_terminator (c : ascii) : bool :=
  Ascii.eqb c "010"%char || Ascii.eqb c "013"%char.

Definition line_separator : string :=
  String "226"%char (String "128"%char (String "168"%char EmptyString)).

Definition paragraph_separator : string :=
  String "226"%char (String "128"%char (String "169"%char EmptyString)).

Definition starts_with_line_terminator (s : string) : bool :=
  match s with
  | EmptyString => false
  | String c _ => is_line_terminator c
  end
  || String.prefix line_separator s || String.prefix paragraph_separator s.

(** [.*kw] matched at the start of [s]: [kw] occurs in [s] with no line
    terminator before it. *)
Fixpoint dots_then (kw s : string) : bool :=
  String.prefix kw s ||
  match s with
  | EmptyString => false
  | String c rest => negb (starts_with_line_terminator s) && dots_then kw rest
  end.

(** [s.match(/.*\|.*kw/)] is not [null]: some ["|"] of [s] is followed on
    its line by [kw]. *)
Fixpoint matches_bar_then (kw s : string) : bool :=
  match s with
  | EmptyString => false
  | String c rest =>
      (Ascii.eqb c "|"%char && dots_then kw rest) || matches_bar_then kw rest
  end.

(** *** Arrays *)

(** [a.includes(x)] on object references. *)
Definition includes (a : list ObjectGroup) (x : ObjectGroup) : bool :=
  existsb (Nat.eqb x) a.

(** [a.splice(a.indexOf(x), 1)] when [x] occurs in [a]. *)
Fixpoint remove_first (x : ObjectGroup) (a : list ObjectGroup) : list ObjectGroup :=
  match a with
  | [] => []
  | y :: rest => if Nat.eqb x y then rest else y :: remove_first x rest
  end.

(** *** The arrows *)

(** [new DistanceLineArrow(point1, point2, linewidth, color, arrowStart,
    arrowEnd)]: [initialize] clones both points, so a missing point throws. *)
Definition new_DistanceLineArrow (p1 p2 : option Vector3) (lw : num) (col : N)
  (aStart aEnd : bool) : M LineArrow :=
  a <- require p1 "cannot read properties of null (reading 'clone')" ;;
  b <- require p2 "cannot read properties of null (reading 'clone')" ;;
  ret {| kind := Straight; a_point1 := a; a_point2 := b; linewidth := lw;
         color := col; arrowStart := aStart; arrowEnd := aEnd |}.

(** [new CurvedLineArrow(point1, point2, arcCenter, linewidth, color)] *)
Definition new_CurvedLineArrow (p1 p2 : option Vector3) (arcCenter : Vector3)
  (lw : num) (col : N) (aStart aEnd : bool) : M LineArrow :=
  a <- require p1 "cannot read properties of null (reading 'clone')" ;;
  let radius := length (v_sub a arcCenter) in
  b <- require p2 "cannot read properties of null (reading 'clone')" ;;
  ret {| kind := Curved arcCenter radius; a_point1 := a; a_point2 := b;
         linewidth := lw; color := col; arrowStart := aStart; arrowEnd := aEnd |}.

(** [this.scene.add(obj)] *)
Definition scene_add (obj : LineArrow) : M unit :=
  modify (fun m => set_scene (scene m ++ [obj]) m).

Definition panel_text (selector : string) (t : PanelText) : M unit :=
  modify (fun m => set_panel (set_text selector t (panel m)) m).

Definition panel_row (selector : string) (d : Display) : M unit :=
  modify (fun m => set_panel (set_row selector d (panel m)) m).

Definition panel_display (d : Display) : M unit :=
  modify (fun m => set_panel (set_style_display d (panel m)) m).

(** *** Measurement *)

(** The viewer as the measurement constructors read it: the scene graph and
    [viewer.display] with its three panels (each possibly missing). *)
Record DisplayPanels : Type := {
  distanceMeasurementPanel : option Panel;
  propertiesMeasurementPanel : option Panel;
  angleMeasurementPanel : option Panel
}.

Record Viewer : Type := {
  viewer_shapes : ObjectGroup -> ShapeInfo;
  display : option DisplayPanels
}.

(** [new Measurement(viewer, panel)]: registering the listener on a missing
    panel throws. *)
Definition Measurement_constructor (md : Mode) (viewer : Viewer)
  (pnl : option Panel) : Exn + Measurement :=
  match pnl with
  | None =>
      inl (TypeError "cannot read properties of undefined (reading 'addEventListener')")
  | Some p =>
      inr {| mode := md; shapes := viewer_shapes viewer; selectedShapes := [];
             point1 := None; point2 := None; contextEnabled := false;
             scene := []; panel := p; panelCenter := None;
             responseData := None; notified := []; cleared := [] |}
  end.

(** [new DistanceMeasurement(viewer)] and its two siblings. *)
Definition constructor (md : Mode) (viewer : Viewer) : Exn + Measurement :=
  match display viewer with
  | None => inl (TypeError "cannot read properties of undefined")
  | Some d =>
      Measurement_constructor md viewer
        match md with
        | DistanceMeasurement => distanceMeasurementPanel d
        | PropertiesMeasurement => propertiesMeasurementPanel d
        | AngleMeasurement => angleMeasurementPanel d
        end
  end.

Definition _getMaxObjSelected (md : Mode) : nat :=
  match md with
  | DistanceMeasurement => 2
  | PropertiesMeasurement => 1
  | AngleMeasurement => 2
  end.

Definition enableContext : M unit :=
  modify (set_contextEnabled true) ;;;
  modify (set_panelCenter (Some (fin3 1 0 0))).

Definition _hideMeasurement : M unit :=
  modify (set_responseData None) ;;;
  panel_display display_none ;;;
  modify (set_scene []).

(** [this.viewer.checkChanges({ selectedShapeIDs: [...ids] })] *)
Definition checked (ids : list string) (m : Measurement) : Measurement :=
  add_notified ids m.

Definition checkChanges (ids : list string) : M unit :=
  modify (checked ids).

Definition disableContext : M unit :=
  modify (set_contextEnabled false) ;;;
  modify (set_selectedShapes []) ;;;
  _hideMeasurement ;;;
  checkChanges [].

(** [this.selectedShapes[i].children[0].geometry.boundingSphere.center] *)
Definition shape_center (i : nat) : M Vector3 :=
  m <- get ;;
  o <- require (nth_error (selectedShapes m) i)
         "cannot read properties of undefined (reading 'children')" ;;
  require (center (shapes m o))
    "cannot read properties of undefined (reading 'center')".

(** [new Vector3(...this.responseData.point1)] (or [point2]) *)
Definition response_point (second : bool) : M Vector3 :=
  m <- get ;;
  d <- require (responseData m) "cannot read properties of null" ;;
  match d with
  | DistanceData _ p1 p2 | AngleData _ p1 p2 _ =>
      ret (if second then p2 else p1)
  | PropertiesData _ _ => throw (TypeError "undefined is not iterable")
  end.

(** [_getPoints] of [DistanceMeasurement] and [AngleMeasurement]. *)
Definition _getPoints : M unit :=
  if DEBUG then
    p1 <- shape_center 0 ;;
    modify (set_point1 (Some p1)) ;;;
    p2 <- shape_center 1 ;;
    modify (set_point2 (Some p2))
  else
    p1 <- response_point false ;;
    modify (set_point1 (Some p1)) ;;;
    p2 <- response_point true ;;
    modify (set_point2 (Some p2)).

Definition lineWidth : num := Fin 0.0025.

(** The purple line from the panel to [middlePoint]. *)
Definition connect_panel (middlePoint : option Vector3) : M unit :=
  m <- get ;;
  connectingLine <-
    new_DistanceLineArrow (panelCenter m) middlePoint lineWidth 0x800080 false true ;;
  scene_add connectingLine.

(** [new THREE.Vector3().addVectors(point1, point2).multiplyScalar(0.5)] *)
Definition middle_of_points : M Vector3 :=
  m <- get ;;
  p1 <- require (point1 m) "cannot read properties of null (reading 'x')" ;;
  p2 <- require (point2 m) "cannot read properties of null (reading 'x')" ;;
  ret (multiplyScalar (v_add p1 p2) (Fin 0.5)).

(** [v.toFixed(2)] *)
Definition toFixed2 (v : JSVal) : M PanelText :=
  match v with
  | JNum n => ret (Fixed2 n)
  | _ => throw (TypeError "toFixed is not a function")
  end.

Definition data_distance (d : ResponseData) : JSVal :=
  match d with DistanceData v _ _ => v | _ => JUndefined end.

Definition Distance_setMeasurementVals : M unit :=
  _getPoints ;;;
  m <- get ;;
  total <-
    (if DEBUG then ret (JNum (Fin 50))
     else
       d <- require (responseData m) "cannot read properties of null" ;;
       ret (data_distance d)) ;;
  p2 <- require (point2 m) "cannot read properties of null (reading 'clone')" ;;
  p1 <- require (point1 m) "cannot read properties of null (reading 'x')" ;;
  let distVec := v_sub p2 p1 in
  total_text <- toFixed2 total ;;
  panel_text "#total" total_text ;;;
  panel_text "#x" (Fixed2 (vx distVec)) ;;;
  panel_text "#y" (Fixed2 (vy distVec)) ;;;
  panel_text "#z" (Fixed2 (vz distVec)).

Definition Distance_makeLines : M unit :=
  m <- get ;;
  distanceLine <-
    new_DistanceLineArrow (point1 m) (point2 m) (mul (Fin 2) lineWidth) 0x000000
      true true ;;
  scene_add distanceLine ;;;
  middlePoint <- middle_of_points ;;
  connect_panel (Some middlePoint).

Definition _hideRows : M unit :=
  panel_row "#volume_row" display_none ;;;
  panel_row "#area_row" display_none ;;;
  panel_row "#length_row" display_none ;;;
  panel_row "#vertex_coords_title_row" display_none ;;;
  panel_row "#vertex_coords_row" display_none.

(** Reading the fields of [this.responseData]. *)
Definition data_vertex_coords (d : ResponseData) : option Vector3 :=
  match d with PropertiesData (f_vertex_coords v) _ => Some v | _ => None end.

Definition data_length (d : ResponseData) : JSVal :=
  match d with PropertiesData (f_length v) _ => v | _ => JUndefined end.

Definition data_area (d : ResponseData) : JSVal :=
  match d with PropertiesData (f_area v) _ => v | _ => JUndefined end.

Definition data_volume (d : ResponseData) : JSVal :=
  match d with PropertiesData (f_volume v) _ => v | _ => JUndefined end.

Definition data_center (d : ResponseData) : option Vector3 :=
  match d with PropertiesData _ c => Some c | _ => None end.

Definition required_responseData : M ResponseData :=
  m <- get ;;
  require (responseData m) "cannot read properties of null".

Definition Properties_setMeasurementVals : M unit :=
  _hideRows ;;;
  m <- get ;;
  obj <- require (nth_error (selectedShapes m) 0)
           "cannot read properties of undefined (reading 'name')" ;;
  let nm := name (shapes m obj) in
  if matches_bar_then "vertices" nm then
    d <- required_responseData ;;
    vertex <- require (data_vertex_coords d)
                "cannot read properties of undefined (reading 'x')" ;;
    panel_text "#x_value" (Fixed2 (vx vertex)) ;;;
    panel_text "#y_value" (Fixed2 (vy vertex)) ;;;
    panel_text "#z_value" (Fixed2 (vz vertex)) ;;;
    panel_text ".tcv_measure_subheader" (Str "Vertex") ;;;
    panel_row "#vertex_coords_title_row" display_block ;;;
    panel_row "#vertex_coords_row" display_block
  else if matches_bar_then "edges" nm then
    d <- required_responseData ;;
    panel_text "#length" (Raw (data_length d)) ;;;
    panel_text ".tcv_measure_subheader" (Str "Edge") ;;;
    panel_row "#length_row" display_block
  else if matches_bar_then "faces" nm then
    d <- required_responseData ;;
    panel_text "#area" (Raw (data_area d)) ;;;
    panel_text ".tcv_measure_subheader" (Str "Face") ;;;
    panel_row "#area_row" display_block
  else if matches_bar_then "volumes" nm then
    d <- required_responseData ;;
    panel_text "#volume" (Raw (data_volume d)) ;;;
    panel_text ".tcv_measure_subheader" (Str "Solid") ;;;
    panel_row "#volume_row" display_block
  else ret tt.

Definition Properties_makeLines : M unit :=
  d <- required_responseData ;;
  connect_panel (data_center d).

Definition Angle_setMeasurementVals : M unit := ret tt.

Definition Angle_makeLines : M unit :=
  let center := fin3 0 0 0 in
  _getPoints ;;;
  m <- get ;;
  angleLine <-
    new_CurvedLineArrow (point1 m) (point2 m) center lineWidth 0x000000 true true ;;
  scene_add angleLine ;;;
  middlePoint <- middle_of_points ;;
  connect_panel (Some middlePoint).

(** Method dispatch on the subclass. *)
Definition _setMeasurementVals : M unit :=
  m <- get ;;
  match mode m with
  | DistanceMeasurement => Distance_setMeasurementVals
  | PropertiesMeasurement => Properties_setMeasurementVals
  | AngleMeasurement => Angle_setMeasurementVals
  end.

Definition _makeLines : M unit :=
  m <- get ;;
  match mode m with
  | DistanceMeasurement => Distance_makeLines
  | PropertiesMeasurement => Properties_makeLines
  | AngleMeasurement => Angle_makeLines
  end.

(** [_movePanel]: the panel is placed at the screen projection of
    [panelCenter]. *)
Definition _movePanel : M unit :=
  m <- get ;;
  worldCoord <- require (panelCenter m)
                  "cannot read properties of null (reading 'clone')" ;;
  modify (fun m => set_panel (set_placed_at (Some worldCoord) (panel m)) m).

(** The four statements that draw the measurement. *)
Definition render : M unit :=
  _setMeasurementVals ;;;
  _makeLines ;;;
  panel_display display_block ;;;
  _movePanel.

(** [_updateMeasurement]. With [DEBUG] off the drawing is left to the
    callback of the promise that [_waitResponse] settles. *)
Definition _updateMeasurement : M unit :=
  m <- get ;;
  let ids := map (fun shape => replace_bars (name (shapes m shape)))
                 (selectedShapes m) in
  checkChanges ids ;;;
  if negb (Nat.eqb (List.length (selectedShapes m)) (_getMaxObjSelected (mode m)))
  then _hideMeasurement
  else if DEBUG then render
  else ret tt.

(** [this.selectedShapes.pop()] *)
Definition pop : M (option ObjectGroup) :=
  m <- get ;;
  modify (set_selectedShapes (removelast (selectedShapes m))) ;;;
  ret (nth_error (selectedShapes m) (List.length (selectedShapes m) - 1)).

Definition removeLastSelectedObj : M unit :=
  lastItem <- pop ;;
  match lastItem with
  | Some o => modify (add_cleared o)
  | None => ret tt
  end ;;;
  _updateMeasurement.

Definition handleSelection (objGroup : ObjectGroup) : M unit :=
  _hideMeasurement ;;;
  m <- get ;;
  (if Nat.eqb (List.length (selectedShapes m)) (_getMaxObjSelected (mode m))
   then removeLastSelectedObj
   else ret tt) ;;;
  m <- get ;;
  (if includes (selectedShapes m) objGroup
   then modify (set_selectedShapes (remove_first objGroup (selectedShapes m)))
   else modify (set_selectedShapes (selectedShapes m ++ [objGroup]))) ;;;
  _updateMeasurement.

(** *** Responses of the backend *)

Definition Distance_handleResponse (response : Response) : M unit :=
  p1 <- new_Vector3_spread (r_point1 response) ;;
  p2 <- new_Vector3_spread (r_point2 response) ;;
  modify (set_responseData (Some (DistanceData (r_distance response) p1 p2))).

(** The [if]/[else if] chain that builds [data]; [None] is [undefined]. *)
Definition Properties_data (response : Response) : M (option PropertyField) :=
  if js_truthy (r_vertex_coords response) then
    v <- new_Vector3_spread (r_vertex_coords response) ;;
    ret (Some (f_vertex_coords v))
  else if js_truthy (r_length response) then
    ret (Some (f_length (r_length response)))
  else if js_truthy (r_area response) then
    ret (Some (f_area (r_area response)))
  else if js_truthy (r_volume response) then
    ret (Some (f_volume (r_volume response)))
  else ret None.

(** [data.center = new Vector3(...response.center)] evaluates its right-hand
    side before the assignment to a property of [data] is attempted. *)
Definition Properties_handleResponse (response : Response) : M unit :=
  data <- Properties_data response ;;
  c <- new_Vector3_spread (r_center response) ;;
  match data with
  | Some f => modify (set_responseData (Some (PropertiesData f c)))
  | None =>
      throw (TypeError "cannot set properties of undefined (setting 'center')")
  end.

Definition Angle_handleResponse (response : Response) : M unit :=
  p1 <- new_Vector3_spread (r_point1 response) ;;
  p2 <- new_Vector3_spread (r_point2 response) ;;
  n <- new_Vector3_spread (r_plane_normal response) ;;
  modify (set_responseData (Some (AngleData (r_angle response) p1 p2 n))).

Definition handleResponse (response : Response) : M unit :=
  m <- get ;;
  match mode m with
  | DistanceMeasurement => Distance_handleResponse response
  | PropertiesMeasurement => Properties_handleResponse response
  | AngleMeasurement => Angle_handleResponse response
  end.

(** *** Waiting for the response *)

(** What one call of [_waitResponse(resolve, reject)] does: it calls
    [resolve] with the response, or [setTimeout] with a delay in
    milliseconds after which it runs again. It has no call of [reject]. *)
Inductive WaitStep : Type :=
| call_resolve (data : ResponseData)
| call_reject (reason : Exn)
| call_setTimeout (delay : nat).

Definition _waitResponse (m : Measurement) : WaitStep :=
  match responseData m with
  | Some data => call_resolve data
  | None => call_setTimeout 100
  end.

Inductive PromiseState : Type :=
| pending
| fulfilled (data : ResponseData)
| rejected (reason : Exn).

(** The promise created in [_updateMeasurement] after the executor's call of
    [_waitResponse] and at most [fuel] timer callbacks. [at_check k] is the
    instance as the [k]-th call finds it (other events run in between);
    [elapsed] sums the delays requested so far. *)
Fixpoint poll (at_check : nat -> Measurement) (k elapsed fuel : nat)
  : PromiseState * nat :=
  match _waitResponse (at_check k) with
  | call_resolve data => (fulfilled data, elapsed)
  | call_reject reason => (rejected reason, elapsed)
  | call_setTimeout delay =>
      match fuel with
      | O => (pending, elapsed)
      | S fuel' => poll at_check (S k) (elapsed + delay) fuel'
      end
  end.

(** The state [_hideMeasurement] leaves. *)
Definition hidden (m : Measurement) : Measurement :=
  let m1 := set_responseData None m in
  let m2 := set_panel (set_style_display display_none (panel m1)) m1 in
  set_scene [] m2.

(** The selection after the [includes]/[splice]/[push] statement of
    [handleSelection]. *)
Definition toggle (o : ObjectGroup) (l : list ObjectGroup) : list ObjectGroup :=
  if includes l o then remove_first o l else l ++ [o].

(** The invariant of the selection: pairwise distinct shapes, no more than
    the subclass handles. *)
Definition selection_ok (m : Measurement) : Prop :=
  NoDup (selectedShapes m) /\
  List.length (selectedShapes m) <= _getMaxObjSelected (mode m).

(** A response with one field replaced. *)
Definition with_length (v : JSVal) (r : Response) : Response :=
  {| r_distance := r_distance r; r_angle := r_angle r; r_point1 := r_point1 r;
     r_point2 := r_point2 r; r_plane_normal := r_plane_normal r;
     r_vertex_coords := r_vertex_coords r; r_length := v; r_area := r_area r;
     r_volume := r_volume r; r_center := r_center r |}.

Definition with_area (v : JSVal) (r : Response) : Response :=
  {| r_distance := r_distance r; r_angle := r_angle r; r_point1 := r_point1 r;
     r_point2 := r_point2 r; r_plane_normal := r_plane_normal r;
     r_vertex_coords := r_vertex_coords r; r_length := r_length r; r_area := v;
     r_volume := r_volume r; r_center := r_center r |}.

Definition with_volume (v : JSVal) (r : Response) : Response :=
  {| r_distance := r_distance r; r_angle := r_angle r; r_point1 := r_point1 r;
     r_point2 := r_point2 r; r_plane_normal := r_plane_normal r;
     r_vertex_coords := r_vertex_coords r; r_length := r_length r;
     r_area := r_area r; r_volume := v; r_center := r_center r |}.

(** The response field a stored measured field was read from. *)
Definition field_source (f : PropertyField) (r : Response) : JSVal :=
  match f with
  | f_vertex_coords _ => r_vertex_coords r
  | f_length _ => r_length r
  | f_area _ => r_area r
  | f_volume _ => r_volume r
  end.

(** *** A program logic for methods

    [triple P c Q E]: started in a state satisfying [P], the method [c]
    either returns [a] in a state satisfying [Q a] or throws in a state
    satisfying [E]. *)
Definition triple {A} (P : Measurement -> Prop) (c : M A)
  (Q : A -> Measurement -> Prop) (E : Measurement -> Prop) : Prop :=
  forall m, P m ->
    match c m with
    | Ok a m' => Q a m'
    | Throw _ m' => E m'
    end.

(** The selection and the subclass of an instance. *)
Definition SelIs (l : list ObjectGroup) (md : Mode) (m : Measurement) : Prop :=
  selectedShapes m = l /\ mode m = md.

(** A method that leaves the selection (and the subclass) alone, whether it
    returns or throws. *)
Definition keeps {A} (c : M A) : Prop :=
  forall l md, triple (SelIs l md) c (fun _ => SelIs l md) (SelIs l md).

(** *** Sample data *)

Definition empty_panel : Panel :=
  {| style_display := display_unset; texts := []; rows := []; placed_at := None |}.

(** A viewer whose shapes are faces with a bounding sphere centred on the
    x axis, and whose display has the three panels. *)
Definition sample_viewer : Viewer :=
  {| viewer_shapes := fun o =>
       {| name := "/Group/Part|faces/faces_0"; center := Some (fin3 (INR o) 0 0) |};
     display := Some {| distanceMeasurementPanel := Some empty_panel;
                        propertiesMeasurementPanel := Some empty_panel;
                        angleMeasurementPanel := Some empty_panel |} |}.

(** The instance [new DistanceMeasurement(sample_viewer)] and its siblings
    build. *)
Definition sample_instance (md : Mode) : Measurement :=
  {| mode := md; shapes := viewer_shapes sample_viewer; selectedShapes := [];
     point1 := None; point2 := None; contextEnabled := false;
     scene := []; panel := empty_panel; panelCenter := None;
     responseData := None; notified := []; cleared := [] |}.

(** A response that carries a length of 0 and a centre, nothing else. *)
Definition zero_length_response : Response :=
  {| r_distance := JUndefined; r_angle := JUndefined; r_point1 := JUndefined;
     r_point2 := JUndefined; r_plane_normal := JUndefined;
     r_vertex_coords := JUndefined; r_length := JNum (Fin 0);
     r_area := JUndefined; r_volume := JUndefined;
     r_center := JArr [Fin 1; Fin 2; Fin 3] |}.

(** A response that carries an area of 12 and a centre. *)
Definition area_response : Response :=
  {| r_distance := JUndefined; r_angle := JUndefined; r_point1 := JUndefined;
     r_point2 := JUndefined; r_plane_normal := JUndefined;
     r_vertex_coords := JUndefined; r_length := JUndefined;
     r_area := JNum (Fin 12); r_volume := JUndefined;
     r_center := JArr [Fin 1; Fin 2; Fin 3] |}.

(** A timeline in which the response is stored between the third and the
    fourth call of [_waitResponse]. *)
Definition sample_data : ResponseData :=
  PropertiesData (f_area (JNum (Fin 12))) (fin3 1 2 3).

Definition sample_timeline (k : nat) : Measurement :=
  if Nat.ltb k 3 then sample_instance PropertiesMeasurement
  else set_responseData (Some sample_data) (sample_instance PropertiesMeasurement).

(** The operations a user performs on the selection. *)
Inductive SelectionOp : Type :=
| op_handleSelection (objGroup : ObjectGroup)
| op_removeLastSelectedObj.

Definition run_op (m : Measurement) (op : SelectionOp) : Measurement :=
  match op with
  | op_handleSelection o => state_of (handleSelection o m)
  | op_removeLastSelectedObj => state_of (removeLastSelectedObj m)
  end.

Definition run_ops (m : Measurement) (ops : list SelectionOp) : Measurement :=
  fold_left run_op ops m.

End Measure.

(** ** Tools: the dispatcher *)

Module Tools.
Import Measure.
#[local] Open Scope string_scope.
#[local] Open Scope list_scope.

(** The export list of [measure.js]. *)
Definition measure_exports : list (string * Mode) :=
  [("DistanceMeasurement", DistanceMeasurement);
   ("PropertiesMeasurement", PropertiesMeasurement);
   ("AngleMeasurement", AngleMeasurement)].

(** The binding [import { name } from "./measure"] yields; [None] is
    [undefined], the value a bundler gives to a name the module does not
    export (a native module loader rejects the import when linking, before
    any code of [tools.js] runs). *)
Fixpoint lookup_export (exports : list (string * Mode)) (name : string)
  : option Mode :=
  match exports with
  | [] => None
  | (n, cls) :: rest => if String.eqb n name then Some cls else lookup_export rest name
  end.

Definition imported (name : string) : option Mode :=
  lookup_export measure_exports name.

Record Tools : Type := {
  distanceMeasurement : Measurement;
  sizeMeasurement : Measurement
}.

(** [new Binding(viewer)] for an imported binding. *)
Definition new_imported (name : string) (viewer : Viewer) : Exn + Measurement :=
  match imported name with
  | None => inl (TypeError (name ++ " is not a constructor"))
  | Some cls => Measure.constructor cls viewer
  end.

(** [new Tools(viewer)] *)
Definition constructor (viewer : Viewer) : Exn + Tools :=
  match new_imported "DistanceMeasurement" viewer with
  | inl e => inl e
  | inr d =>
      match new_imported "SizeMeasurement" viewer with
      | inl e => inl e
      | inr sz => inr {| distanceMeasurement := d; sizeMeasurement := sz |}
      end
  end.

Definition on_distance (c : M unit) (t : Tools) : Tools :=
  {| distanceMeasurement := state_of (c (distanceMeasurement t));
     sizeMeasurement := sizeMeasurement t |}.

Definition on_size (c : M unit) (t : Tools) : Tools :=
  {| distanceMeasurement := distanceMeasurement t;
     sizeMeasurement := state_of (c (sizeMeasurement t)) |}.

Definition handleRemoveLastSelection (t : Tools) : Tools :=
  if contextEnabled (distanceMeasurement t) then on_distance removeLastSelectedObj t
  else if contextEnabled (sizeMeasurement t) then on_size removeLastSelectedObj t
  else t.

Definition handleSelectedObj (t : Tools) (objGroup : ObjectGroup) : Tools :=
  if contextEnabled (distanceMeasurement t)
  then on_distance (handleSelection objGroup) t
  else if contextEnabled (sizeMeasurement t)
  then on_size (handleSelection objGroup) t
  else t.

Definition handleResetSelection (t : Tools) : Tools :=
  if contextEnabled (distanceMeasurement t)
  then on_distance (removeLastSelectedObj ;;; removeLastSelectedObj) t
  else if contextEnabled (sizeMeasurement t) then on_size removeLastSelectedObj t
  else t.

End Tools.

(** ** Grid: nice axis ticks *)

Module Grid.
Import JSNum.
#[local] Open Scope R_scope.

(** [Grid.niceNumber(value, round)]; [round] is the truthiness of the second
    argument ([undefined] when it is omitted). *)
Definition niceNumber (value : num) (round : bool) : num :=
  let exponent := floor (log10 value) in
  let fraction := div value (pow10 exponent) in
  let niceFraction :=
    if round then
      if lt fraction (Fin 1.5) then Fin 1
      else if lt fraction (Fin 3) then Fin 2
      else if lt fraction (Fin 7) then Fin 5
      else Fin 10
    else
      if le fraction (Fin 1) then Fin 1
      else if le fraction (Fin 2) then Fin 2
      else if le fraction (Fin 5) then Fin 5
      else Fin 10
  in
  mul niceFraction (pow10 exponent).

(** [Grid.niceBounds(axisStart, axisEnd, numTicks)] returns
    [[axisStart, axisEnd, niceTick]]; [numTicks = None] is [undefined]. *)
Definition niceBounds (axisStart axisEnd : num) (numTicks : option num)
  : num * num * num :=
  let numTicks :=
    match numTicks with
    | Some n => if truthy n then n else Fin 10
    | None => Fin 10
    end in
  let axisWidth := sub axisEnd axisStart in
  if is_zero axisWidth then (axisStart, axisEnd, Fin 0)
  else
    let niceRange := niceNumber axisWidth false in
    let niceTick := niceNumber (div niceRange (sub numTicks (Fin 1))) true in
    (mul (floor (div axisStart niceTick)) niceTick,
     mul (ceil (div axisEnd niceTick)) niceTick,
     niceTick).

Definition niceTick_of (r : num * num * num) : num := snd r.

(** The axis computed by the [Grid] constructor from the largest bounding-box
    extent [s2] and the optional [ticks] argument. *)
Definition constructor_axis (s2 : num) (ticks : option num) : num * num * num :=
  let ticks := match ticks with Some t => t | None => Fin 10 end in
  niceBounds (mul (neg s2) (Fin 1.05)) (mul s2 (Fin 1.05))
             (Some (mul (Fin 2) ticks)).


End Grid.

(** ** Grid: the constructor's size and the plane switches *)

Module GridPlanes.
Import JSNum Grid.
#[local] Open Scope string_scope.

(** [this.size = axisEnd - axisStart] *)
Definition axis_size (axis : num * num * num) : num :=
  let '(axisStart, axisEnd, _) := axis in sub axisEnd axisStart.

(** [this.size / this.ticks], the number of divisions given to
    [THREE.GridHelper]. *)
Definition axis_divisions (axis : num * num * num) : num :=
  div (axis_size axis) (niceTick_of axis).

(** The switches of a [Grid]: [this.grid] (the planes xy, xz, yz),
    [this.allGrid], the [visible] flag of the three grid helpers, and what
    was last shown in the toolbar button and the three check boxes of the
    display. Flags are booleans. *)
Record Planes : Type := {
  grid : bool * bool * bool;
  allGrid : bool;
  visible : bool * bool * bool;
  toolbar_grid : option bool;
  checked_boxes : option (bool * bool * bool)
}.

Definition or3 (g : bool * bool * bool) : bool :=
  let '(xy, xz, yz) := g in xy || xz || yz.

(** [setVisible()] *)
Definition setVisible (p : Planes) : Planes :=
  {| grid := grid p; allGrid := allGrid p; visible := grid p;
     toolbar_grid := toolbar_grid p; checked_boxes := checked_boxes p |}.

(** [computeGrid()] *)
Definition computeGrid (p : Planes) : Planes :=
  let all := or3 (grid p) in
  setVisible
    {| grid := grid p; allGrid := all; visible := visible p;
       toolbar_grid := Some all; checked_boxes := Some (grid p) |}.

Definition with_grid (g : bool * bool * bool) (a : bool) (p : Planes) : Planes :=
  {| grid := g; allGrid := a; visible := visible p;
     toolbar_grid := toolbar_grid p; checked_boxes := checked_boxes p |}.

(** [setGrid(action, flag)]; [flag = None] is [null] or omitted. *)
Definition setGrid (p : Planes) (action : string) (flag : option bool) : Planes :=
  let '(xy, xz, yz) := grid p in
  let p1 :=
    if String.eqb action "grid" then
      let all := match flag with None => negb (allGrid p) | Some f => f end in
      with_grid (all, all, all) all p
    else if String.eqb action "grid-xy" then with_grid (negb xy, xz, yz) (allGrid p) p
    else if String.eqb action "grid-xz" then with_grid (xy, negb xz, yz) (allGrid p) p
    else if String.eqb action "grid-yz" then with_grid (xy, xz, negb yz) (allGrid p) p
    else p in
  computeGrid p1.


(** The state the constructor leaves: [allGrid] from the three flags, the
    helpers made visible accordingly, the display not yet told. *)
Definition initial_planes (g : bool * bool * bool) : Planes :=
  setVisible {| grid := g; allGrid := or3 g; visible := (false, false, false);
                toolbar_grid := None; checked_boxes := None |}.

(** The switches agree: the helpers show the flags, [allGrid] is their
    disjunction. *)
Definition consistent (p : Planes) : Prop :=
  visible p = grid p /\ allGrid p = or3 (grid p).

End GridPlanes.

(** ** Camera: the projection sizes *)

Module Projection.
Import JSNum.


(** The bounds of the orthographic camera. *)
Record Frustum : Type := {
  f_left : num;
  f_right : num;
  f_top : num;
  f_bottom : num
}.

(** What [changeDimensions] writes: the bounds of [oCamera] and the aspect
    of [pCamera], each [None] once [dispose] has dropped the camera. *)
Record Lenses : Type := {
  oBounds : option Frustum;
  pAspect : option num
}.



(** [dispose()] *)
Definition dispose (l : Lenses) : Lenses := {| oBounds := None; pAspect := None |}.


End Projection.

(** ** Raycaster: pointer and key handlers *)

Module Pointer.
Import JSNum Three Raycaster.
#[local] Open Scope string_scope.

(** What the handlers pass to [this.callback]. *)
Inductive Callback : Type :=
| cb_mouse (button : string)
| cb_key (key : string).

(** [THREE.MOUSE] *)
Definition MOUSE_LEFT : nat := 0.
Definition MOUSE_MIDDLE : nat := 1.
Definition MOUSE_RIGHT : nat := 2.

(** [a === b] on numbers. *)
Definition strict_eq (a b : num) : bool :=
  match a, b with
  | Fin x, Fin y => Reqb x y
  | PInf, PInf | NInf, NInf => true
  | _, _ => false
  end.

(** [a.equals(b)] of [THREE.Vector3]. *)
Definition equals (a b : Vector3) : bool :=
  strict_eq (vx b) (vx a) && strict_eq (vy b) (vy a) && strict_eq (vz b) (vz a).

(** The [Raycaster] object; [calls] lists the callbacks made, latest first. *)
Record Picker : Type := {
  width : num;
  height : num;
  raycastMode : bool;
  lastPosition : option Vector3;
  mouse : num * num;
  mouseMoved : bool;
  filters : Filters;
  calls : list Callback
}.

(** The constructor; [new THREE.Vector2()] is the origin. *)
Definition constructor (w h : num) : Picker :=
  {| width := w; height := h; raycastMode := false; lastPosition := None;
     mouse := (Fin 0, Fin 0); mouseMoved := false; filters := initial_filters;
     calls := [] |}.

Definition set_raycastMode (b : bool) (p : Picker) : Picker :=
  {| width := width p; height := height p; raycastMode := b;
     lastPosition := lastPosition p; mouse := mouse p;
     mouseMoved := mouseMoved p; filters := filters p; calls := calls p |}.

Definition init (p : Picker) : Picker := set_raycastMode true p.

Definition dispose (p : Picker) : Picker := set_raycastMode false p.

Definition callback (c : Callback) (p : Picker) : Picker :=
  {| width := width p; height := height p; raycastMode := raycastMode p;
     lastPosition := lastPosition p; mouse := mouse p;
     mouseMoved := mouseMoved p; filters := filters p; calls := c :: calls p |}.

(** [onMouseKeyDown(e)], given [e.button] and the camera position. *)
Definition onMouseKeyDown (p : Picker) (button : nat) (cameraPosition : Vector3)
  : Picker :=
  if raycastMode p then
    if Nat.eqb button MOUSE_LEFT || Nat.eqb button MOUSE_RIGHT
    then {| width := width p; height := height p; raycastMode := raycastMode p;
            lastPosition := Some cameraPosition; mouse := mouse p;
            mouseMoved := mouseMoved p; filters := filters p; calls := calls p |}
    else p
  else p.

(** [onMouseKeyUp(e)]; [None] when [this.lastPosition] is still [null] and
    its [equals] is called. *)
Definition onMouseKeyUp (p : Picker) (button : nat) (cameraPosition : Vector3)
  : option Picker :=
  if raycastMode p then
    if Nat.eqb button MOUSE_LEFT then
      match lastPosition p with
      | None => None
      | Some last =>
          Some (if equals last cameraPosition then callback (cb_mouse "left") p else p)
      end
    else if Nat.eqb button MOUSE_RIGHT then
      match lastPosition p with
      | None => None
      | Some last =>
          Some (if equals last cameraPosition then callback (cb_mouse "right") p else p)
      end
    else Some p
  else Some p.

(** [onKeyDown(e)], given [e.key]. *)
Definition onKeyDown (p : Picker) (key : string) : Picker :=
  if raycastMode p then
    if String.eqb key "Backspace" then callback (cb_key "Backspace") p
    else if String.eqb key "Escape" then callback (cb_key "Escape") p
    else p
  else p.

(** [onPointerMove(e)], given the element's bounding rectangle origin, the
    window scroll offsets and the page coordinates of the event. *)
Definition onPointerMove (p : Picker) (rect_x rect_y scrollX scrollY pageX pageY : num)
  : Picker :=
  let offsetX := add rect_x scrollX in
  let offsetY := add rect_y scrollY in
  let x := sub (mul (div (sub pageX offsetX) (width p)) (Fin 2)) (Fin 1) in
  let y := add (mul (neg (div (sub pageY offsetY) (height p))) (Fin 2)) (Fin 1) in
  {| width := width p; height := height p; raycastMode := raycastMode p;
     lastPosition := lastPosition p; mouse := (x, y); mouseMoved := true;
     filters := filters p; calls := calls p |}.

Definition has_parent (o : Intersection) : bool :=
  match parent o with Some _ => true | None => false end.

(** The name reported for a button. *)
Definition button_name (button : nat) : string :=
  if Nat.eqb button MOUSE_LEFT then "left" else "right".

(** [getValidIntersectedObjs()] on the picker's own flag and filters. *)
Definition validIntersectedObjs (p : Picker) (objects : list Intersection)
  : list Intersection :=
  getValidIntersectedObjs (mouseMoved p) (filters p) objects.

End Pointer.

(** ** PickedObject *)

Module Picked.
#[local] Open Scope string_scope.

(** An object of the scene graph with its name and children. *)
#[local] Unset Elimination Schemes.
Inductive Node : Type :=
| node (name : string) (children : list Node).
#[local] Set Elimination Schemes.

Definition name (n : Node) : string := match n with node s _ => s end.
Definition children (n : Node) : list Node := match n with node _ c => c end.

(** The loop of [_getSolidObjectGroups]: the first child that carries
    [wanted] as name. *)
Fixpoint find_child (wanted : string) (cs : list Node) : option Node :=
  match cs with
  | [] => None
  | child :: rest =>
      if String.eqb (name child) wanted then Some child else find_child wanted rest
  end.

(** [_getSolidObjectGroups(solidSubObject)], given
    [solidSubObject.parent.parent] ([None] when that chain breaks); the
    result is [None] when reading [children] of a missing group throws. *)
Definition _getSolidObjectGroups (solidGroup : option Node) : option (list Node) :=
  match solidGroup with
  | None => None
  | Some g =>
      match find_child (name g ++ "|faces") (children g) with
      | Some facesGroup => Some (children facesGroup)
      | None => None
      end
  end.

(** A [PickedObject]: the picked group, its grandparent, and [fromSolid]. *)
Record PickedObject : Type := {
  obj : Node;
  obj_grandparent : option Node;
  fromSolid : bool
}.

(** [objs()] *)
Definition objs (p : PickedObject) : option (list Node) :=
  if fromSolid p then _getSolidObjectGroups (obj_grandparent p)
  else Some [obj p].

End Picked.

(** ** Grid: the tick labels and the position of the helpers *)

Module GridLabels.
Import JSNum Three Grid GridPlanes.
#[local] Open Scope R_scope.

(** [Math.abs] *)
Definition abs (a : num) : num :=
  match a with
  | Fin x => Fin (Rabs x)
  | PInf | NInf => PInf
  | NaN => NaN
  end.

(** A label of a grid helper: [label] at [(x, 0, 0)] or [label2] at
    [(0, 0, x)]. *)
Inductive Label : Type :=
| label_x (x : num)
| label_z (x : num).

(** The labels one turn of the loop adds: [label2] is skipped by the
    [continue] next to the origin. *)
Definition label_step (x : num) : list Label :=
  label_x x :: (if lt (abs x) (Fin 1e-6) then [] else [label_z x]).

(** The loop [for (x = -size / 2; x <= size / 2; x += ticks)] from the
    value [x] on, [half] being [size / 2]; [None] when [fuel] turns do not
    reach its end. *)
Fixpoint labels (fuel : nat) (x half ticks : num) : option (list Label) :=
  if le x half then
    match fuel with
    | O => None
    | S fuel' =>
        option_map (app (label_step x)) (labels fuel' (add x ticks) half ticks)
    end
  else Some [].

(** The labels of one grid helper, for the axis [niceBounds] returned. *)
Definition constructor_labels (fuel : nat) (axis : num * num * num)
  : option (list Label) :=
  let size := axis_size axis in
  labels fuel (div (neg size) (Fin 2)) (div size (Fin 2)) (niceTick_of axis).


End GridLabels.

(** ** The arrows of the overlay scene *)

Module Arrows.
Import JSNum Three Measure.
#[local] Open Scope R_scope.







Section WithAngleTo.

(** [v1.angleTo(v2)] of three.js. *)
Variable angleTo : Vector3 -> Vector3 -> num.



End WithAngleTo.


End Arrows.

(** ** Frames of the measurement methods *)

Module MeasureFrame.
Import Measure.

(** A method that leaves a part [proj] of the instance as it found it,
    whether it returns or throws. *)
Definition untouched {A B} (proj : Measurement -> B) (c : M A) : Prop :=
  forall m, proj (state_of (c m)) = proj m.

(** The ids [_updateMeasurement] passes to [viewer.checkChanges]. *)
Definition ids_of (m : Measurement) : list string :=
  map (fun shape => replace_bars (name (shapes m shape))) (selectedShapes m).

(** The characters of a string. *)
Fixpoint chars (s : string) : list ascii :=
  match s with
  | EmptyString => []
  | String c rest => c :: chars rest
  end.

(** A [Tools] object whose distance context is enabled. *)
Definition sample_tools : Tools.Tools :=
  {| Tools.distanceMeasurement :=
       set_contextEnabled true (sample_instance DistanceMeasurement);
     Tools.sizeMeasurement := sample_instance PropertiesMeasurement |}.

End MeasureFrame.

(** ** The camera in IEEE-754 doubles

    A JavaScript number is an IEEE-754 double. The module [Camera] computes
    with real numbers; here the same methods are embedded over Rocq's
    primitive binary64 floats, whose [+], [-], [*], [/] and [sqrt] are the
    IEEE operations, so that what is proved holds for the numbers the
    program computes with, rounding, overflow and absorption included.
    [Math.sin], [Math.cos] and [Object3D.lookAt] are library code and stay
    parameters. *)

Module Doubles.
Import PrimFloat.
#[local] Open Scope float_scope.

(** ToBoolean of a number: [0], [-0] and [NaN] are falsy. *)
Definition truthy (a : float) : bool := negb (a =? 0) && negb (is_nan a).

(** [a || b] on numbers. *)
Definition or_else (a b : float) : float := if truthy a then a else b.

Record Vector3 : Type := V3 { vx : float; vy : float; vz : float }.

Record Quaternion : Type := Q4 { qx : float; qy : float; qz : float; qw : float }.

Definition Vector3_of_list (a : list float) : Vector3 :=
  V3 (nth 0 a 0) (nth 1 a 0) (nth 2 a 0).

Definition Quaternion_of_list (a : list float) : Quaternion :=
  Q4 (nth 0 a 0) (nth 1 a 0) (nth 2 a 0) (nth 3 a 1).

Definition toArray (v : Vector3) : list float := [vx v; vy v; vz v].

Definition v_add (a b : Vector3) : Vector3 :=
  V3 (vx a + vx b) (vy a + vy b) (vz a + vz b).

Definition v_sub (a b : Vector3) : Vector3 :=
  V3 (vx a - vx b) (vy a - vy b) (vz a - vz b).

Definition multiplyScalar (v : Vector3) (s : float) : Vector3 :=
  V3 (vx v * s) (vy v * s) (vz v * s).

Definition divideScalar (v : Vector3) (s : float) : Vector3 :=
  multiplyScalar v (1 / s).

Definition length (v : Vector3) : float :=
  sqrt (vx v * vx v + vy v * vy v + vz v * vz v).

Definition normalize (v : Vector3) : Vector3 :=
  divideScalar v (or_else (length v) 1).

Definition setLength (v : Vector3) (l : float) : Vector3 :=
  multiplyScalar (normalize v) l.

Definition q_identity : Quaternion := Q4 0 0 0 1.

(** [a.multiply(b)] *)
Definition q_multiply (a b : Quaternion) : Quaternion :=
  let '(Q4 qax qay qaz qaw) := a in
  let '(Q4 qbx qby qbz qbw) := b in
  Q4 (qax * qbw + qaw * qbx + qay * qbz - qaz * qby)
     (qay * qbw + qaw * qby + qaz * qbx - qax * qbz)
     (qaz * qbw + qaw * qbz + qax * qby - qay * qbx)
     (qaw * qbw - qax * qbx - qay * qby - qaz * qbz).

(** [Math.PI] *)
Definition Math_PI : float := 0x1.921fb54442d18p+1.

Record Preset : Type := { pos : Vector3; z_rot : float }.

Definition defaultDirections (up : Camera.UpConvention) (dir : Camera.Direction)
  : Preset :=
  match up, dir with
  | Camera.y_up, Camera.iso => {| pos := V3 1 1 1; z_rot := 0 |}
  | Camera.y_up, Camera.front => {| pos := V3 0 0 1; z_rot := 0 |}
  | Camera.y_up, Camera.rear => {| pos := V3 0 0 (-1); z_rot := 0 |}
  | Camera.y_up, Camera.left => {| pos := V3 (-1) 0 0; z_rot := 0 |}
  | Camera.y_up, Camera.right => {| pos := V3 1 0 0; z_rot := 0 |}
  | Camera.y_up, Camera.top => {| pos := V3 0 1 0; z_rot := 0 |}
  | Camera.y_up, Camera.bottom => {| pos := V3 0 (-1) 0; z_rot := 0 |}
  | Camera.z_up, Camera.iso => {| pos := V3 1 (-1) 1; z_rot := 0 |}
  | Camera.z_up, Camera.front => {| pos := V3 0 (-1) 0; z_rot := 0 |}
  | Camera.z_up, Camera.rear => {| pos := V3 0 1 0; z_rot := 0 |}
  | Camera.z_up, Camera.left => {| pos := V3 (-1) 0 0; z_rot := 0 |}
  | Camera.z_up, Camera.right => {| pos := V3 1 0 0; z_rot := 0 |}
  | Camera.z_up, Camera.top => {| pos := V3 0 0 1; z_rot := - Math_PI / 2 |}
  | Camera.z_up, Camera.bottom => {| pos := V3 0 0 (-1); z_rot := - Math_PI / 2 |}
  | Camera.legacy, Camera.iso => {| pos := V3 1 1 1; z_rot := 0 |}
  | Camera.legacy, Camera.front => {| pos := V3 1 0 0; z_rot := 0 |}
  | Camera.legacy, Camera.rear => {| pos := V3 (-1) 0 0; z_rot := 0 |}
  | Camera.legacy, Camera.left => {| pos := V3 0 1 0; z_rot := 0 |}
  | Camera.legacy, Camera.right => {| pos := V3 0 (-1) 0; z_rot := 0 |}
  | Camera.legacy, Camera.top => {| pos := V3 0 0 1; z_rot := 0 |}
  | Camera.legacy, Camera.bottom => {| pos := V3 0 0 (-1); z_rot := 0 |}
  end.

Definition cameraUp (up : Camera.UpConvention) : Vector3 :=
  match up with
  | Camera.y_up => V3 0 1 0
  | Camera.z_up => V3 0 0 1
  | Camera.legacy => V3 0 0 1
  end.

Record ThreeCamera : Type := {
  position : Vector3;
  quaternion : Quaternion;
  zoom : float;
  cam_up : Vector3
}.

Record Camera : Type := {
  target : Vector3;
  ortho : bool;
  up : Camera.UpConvention;
  camera_distance : float;
  pCamera : ThreeCamera;
  oCamera : ThreeCamera
}.

(** [this.camera], the camera selected by [this.ortho]. *)
Definition camera (c : Camera) : ThreeCamera :=
  if ortho c then oCamera c else pCamera c.

Definition with_camera (f : ThreeCamera -> ThreeCamera) (c : Camera) : Camera :=
  if ortho c
  then {| target := target c; ortho := ortho c; up := up c;
          camera_distance := camera_distance c;
          pCamera := pCamera c; oCamera := f (oCamera c) |}
  else {| target := target c; ortho := ortho c; up := up c;
          camera_distance := camera_distance c;
          pCamera := f (pCamera c); oCamera := oCamera c |}.

Definition set_position (p : Vector3) (t : ThreeCamera) : ThreeCamera :=
  {| position := p; quaternion := quaternion t; zoom := zoom t; cam_up := cam_up t |}.

Definition set_quaternion (q : Quaternion) (t : ThreeCamera) : ThreeCamera :=
  {| position := position t; quaternion := q; zoom := zoom t; cam_up := cam_up t |}.

Definition set_zoom (z : float) (t : ThreeCamera) : ThreeCamera :=
  {| position := position t; quaternion := quaternion t; zoom := z; cam_up := cam_up t |}.

Definition set_ortho (flag : bool) (c : Camera) : Camera :=
  {| target := target c; ortho := flag; up := up c;
     camera_distance := camera_distance c;
     pCamera := pCamera c; oCamera := oCamera c |}.

Inductive PositionArg : Type :=
| PosArray (a : list float)
| PosVector3 (v : Vector3)
| PosOther.

Inductive QuaternionArg : Type :=
| QuatArray (a : list float)
| QuatQuaternion (q : Quaternion)
| QuatOther.

Section WithLibrary.

(** [Object3D.lookAt] for a camera at [eye] with the given [up] vector,
    [Math.sin] and [Math.cos]. *)
Variable lookAt : forall (eye target up : Vector3), Quaternion.
Variables Math_sin Math_cos : float -> float.

(** [q.setFromAxisAngle(axis, angle)] *)
Definition setFromAxisAngle (axis : Vector3) (angle : float) : Quaternion :=
  let halfAngle := angle / 2 in
  let s := Math_sin halfAngle in
  Q4 (vx axis * s) (vy axis * s) (vz axis * s) (Math_cos halfAngle).

(** [new Camera(width, height, distance, target, ortho, up)]; [None] when
    the constructor throws. *)
Definition constructor (width height distance : float) (tgt : list float)
  (ortho_flag : bool) (up_key : string) : option Camera :=
  match Camera.mapping up_key with
  | None => None
  | Some u =>
      let t := Vector3_of_list tgt in
      let fresh :=
        {| position := V3 0 0 0;
           quaternion := lookAt (V3 0 0 0) t (cameraUp u);
           zoom := 1;
           cam_up := cameraUp u |} in
      Some {| target := t; ortho := ortho_flag; up := u;
              camera_distance := 5 * distance;
              pCamera := fresh; oCamera := fresh |}
  end.

Definition lookAtTarget (c : Camera) : Camera :=
  with_camera
    (fun t => set_quaternion (lookAt (position t) (target c) (cam_up t)) t) c.

Definition getZoom (c : Camera) : float :=
  if ortho c then zoom (camera c)
  else
    let p := v_sub (position (camera c)) (target c) in
    camera_distance c / length p.

Definition setZoom (c : Camera) (val : float) : Camera :=
  if ortho c then with_camera (set_zoom val) c
  else
    with_camera
      (fun t =>
         set_position
           (v_add (setLength (v_sub (position t) (target c))
                             (camera_distance c / val))
                  (target c)) t) c.

Definition setupCamera (c : Camera) (relative : bool)
  (position : option Vector3) (quaternion : option Quaternion)
  (zoom : option float) : Camera :=
  let c1 :=
    match position with
    | Some p =>
        let cameraPosition :=
          if relative
          then v_add (multiplyScalar (normalize p) (camera_distance c)) (target c)
          else p in
        with_camera (set_position (Vector3_of_list (toArray cameraPosition))) c
    | None => c
    end in
  let c2 :=
    match quaternion with
    | Some q => with_camera (set_quaternion q) c1
    | None => c1
    end in
  match zoom with
  | Some z => setZoom c2 z
  | None => c2
  end.

Definition getPosition (c : Camera) : Vector3 := position (camera c).

Definition getQuaternion (c : Camera) : Quaternion := quaternion (camera c).

Definition setPosition (c : Camera) (position : PositionArg) (relative : bool)
  : Camera :=
  match position with
  | PosArray a =>
      if Nat.eqb (List.length a) 3
      then setupCamera c relative (Some (Vector3_of_list a)) None None
      else c
  | PosVector3 v => setupCamera c relative (Some v) None None
  | PosOther => c
  end.

Definition setQuaternion (c : Camera) (quaternion : QuaternionArg) : Camera :=
  match quaternion with
  | QuatArray a =>
      if Nat.eqb (List.length a) 4
      then setupCamera c false None (Some (Quaternion_of_list a)) None
      else c
  | QuatQuaternion q => setupCamera c false None (Some q) None
  | QuatOther => c
  end.

(** [presetCamera(dir, zoom)]; [None] when it throws. For a member inherited
    from [Object.prototype] both [pos] and [z_rot] are [undefined]: the
    position is left to [setZoom] and the rotation angle is [NaN]. *)
Definition presetCamera (c : Camera) (dir : string) (zoom_arg : option float)
  : option Camera :=
  let z := match zoom_arg with Some z => z | None => zoom (camera c) end in
  match Camera.lookup_direction dir with
  | Camera.missing => None
  | Camera.own d =>
      let preset := defaultDirections (up c) d in
      let c1 := setupCamera c true (Some (pos preset)) None (Some z) in
      let c2 := lookAtTarget c1 in
      if negb (z_rot preset =? 0)
      then
        let q := setFromAxisAngle (V3 0 0 1) (z_rot preset) in
        let q := q_multiply q (getQuaternion c2) in
        Some (setQuaternion c2 (QuatQuaternion q))
      else Some c2
  | Camera.inherited =>
      let c1 := setupCamera c true None None (Some z) in
      let c2 := lookAtTarget c1 in
      let q := setFromAxisAngle (V3 0 0 1) nan in
      let q := q_multiply q (getQuaternion c2) in
      Some (setQuaternion c2 (QuatQuaternion q))
  end.

Definition switchCamera (c : Camera) (ortho_flag : bool) : Camera :=
  let p0 := getPosition c in
  let z0 := getZoom c in
  let q0 := getQuaternion c in
  let c1 := set_ortho ortho_flag c in
  let c2 := setPosition c1 (PosVector3 p0) false in
  let c3 := setZoom c2 z0 in
  setQuaternion c3 (QuatQuaternion q0).

End WithLibrary.


Definition rescaled (c : Camera) (p : Vector3) (z : float) : Vector3 :=
  v_add (setLength (v_sub p (target c)) (camera_distance c / z)) (target c).

(** Stand-ins for the library functions, to run the model on presets without
    a rotation: there [Math.sin] and [Math.cos] are not called, and the
    orientation [lookAt] computes plays no part in the position. *)
Definition lookAt_identity (eye target up : Vector3) : Quaternion := q_identity.


(** *** Sample cameras *)

(** What the constructor builds for distance [d] around the origin. *)
Definition fresh (d : float) (flag : bool) (u : Camera.UpConvention) : Camera :=
  {| target := V3 0 0 0; ortho := flag; up := u;
     camera_distance := 5 * d;
     pCamera := {| position := V3 0 0 0; quaternion := q_identity;
                   zoom := 1; cam_up := cameraUp u |};
     oCamera := {| position := V3 0 0 0; quaternion := q_identity;
                   zoom := 1; cam_up := cameraUp u |} |}.

(** An orthographic camera at [p] with zoom [z], looking at [t] from a
    scene of construction distance 1. *)
Definition orthographic_at (p t : Vector3) (z : float) : Camera :=
  {| target := t; ortho := true; up := Camera.z_up;
     camera_distance := 5 * 1;
     pCamera := {| position := V3 0 0 0; quaternion := q_identity;
                   zoom := 1; cam_up := V3 0 0 1 |};
     oCamera := {| position := p; quaternion := q_identity;
                   zoom := z; cam_up := V3 0 0 1 |} |}.


End Doubles.

(** ** The grid ticks in IEEE-754 doubles

    [Math.log10], [Math.floor], [Math.ceil] and the operator [**] are
    functions of the JavaScript engine and stay parameters. *)

Module GridDoubles.
Import PrimFloat.
#[local] Open Scope float_scope.

Section WithMath.

Variables Math_log10 Math_floor Math_ceil : float -> float.

(** [a ** b] *)
Variable pow : float -> float -> float.

Definition niceNumber (value : float) (round : bool) : float :=
  let exponent := Math_floor (Math_log10 value) in
  let fraction := value / pow 10 exponent in
  let niceFraction :=
    if round then
      if fraction <? 1.5 then 1
      else if fraction <? 3 then 2
      else if fraction <? 7 then 5
      else 10
    else
      if fraction <=? 1 then 1
      else if fraction <=? 2 then 2
      else if fraction <=? 5 then 5
      else 10
  in
  niceFraction * pow 10 exponent.

(** The tick count [niceBounds] works with: 10 replaces a falsy one. *)
Definition ticks_used (numTicks : option float) : float :=
  match numTicks with
  | Some n => if Doubles.truthy n then n else 10
  | None => 10
  end.

Definition niceBounds (axisStart axisEnd : float) (numTicks : option float)
  : float * float * float :=
  let numTicks := ticks_used numTicks in
  let axisWidth := axisEnd - axisStart in
  if axisWidth =? 0 then (axisStart, axisEnd, 0)
  else
    let niceRange := niceNumber axisWidth false in
    let niceTick := niceNumber (niceRange / (numTicks - 1)) true in
    (Math_floor (axisStart / niceTick) * niceTick,
     Math_ceil (axisEnd / niceTick) * niceTick,
     niceTick).

End WithMath.

Definition niceTick_of (r : float * float * float) : float := snd r.

End GridDoubles.

(** * Properties *)

Module NumFacts.
Import JSNum.
#[local] Open Scope R_scope.

Lemma Rltb_true a b : a < b -> Rltb a b = true.
Proof. intro H; unfold Rltb; destruct (Rlt_dec a b); [reflexivity | contradiction]. Qed.

Lemma Rltb_false a b : ~ a < b -> Rltb a b = false.
Proof. intro H; unfold Rltb; destruct (Rlt_dec a b); [contradiction | reflexivity]. Qed.

Lemma Rleb_true a b : a <= b -> Rleb a b = true.
Proof. intro H; unfold Rleb; destruct (Rle_dec a b); [reflexivity | contradiction]. Qed.

Lemma Rleb_false a b : ~ a <= b -> Rleb a b = false.
Proof. intro H; unfold Rleb; destruct (Rle_dec a b); [contradiction | reflexivity]. Qed.

Lemma Reqb_true a b : a = b -> Reqb a b = true.
Proof. intro H; unfold Reqb; destruct (Req_dec_T a b); [reflexivity | contradiction]. Qed.

Lemma Reqb_false a b : a <> b -> Reqb a b = false.
Proof. intro H; unfold Reqb; destruct (Req_dec_T a b); [contradiction | reflexivity]. Qed.

Lemma Reqb_refl a : Reqb a a = true.
Proof. apply Reqb_true; reflexivity. Qed.

Lemma div_fin x y : y <> 0 -> div (Fin x) (Fin y) = Fin (x / y).
Proof. intro H; simpl; rewrite (Reqb_false _ _ H); reflexivity. Qed.

Lemma sqrt_fin x : 0 <= x -> sqrt (Fin x) = Fin (R_sqrt.sqrt x).
Proof. intro H; simpl; rewrite Rltb_false by lra; reflexivity. Qed.

Lemma log10_fin x : 0 < x -> log10 (Fin x) = Fin (Rlog10 x).
Proof. intro H; simpl; rewrite (Rltb_true _ _ H); reflexivity. Qed.

Lemma truthy_fin x : x <> 0 -> truthy (Fin x) = true.
Proof. intro H; simpl; rewrite (Reqb_false _ _ H); reflexivity. Qed.

End NumFacts.

(** ** Grid *)

Module GridFacts.
Import JSNum NumFacts Grid.
#[local] Open Scope R_scope.

Lemma pow10_int (n : Z) : pow10 (Fin (IZR n)) = Fin (powerRZ 10 n).
Proof. simpl; rewrite powerRZ_Rpower by lra; reflexivity. Qed.

Lemma powerRZ10_pos (n : Z) : 0 < powerRZ 10 n.
Proof. apply powerRZ_lt; lra. Qed.



(** [Rlog10] inverts the integer powers of ten, so the exponent chosen by
    [niceNumber] is the decade of its argument. *)
Lemma ln10_pos : 0 < ln 10.
Proof. rewrite <- ln_1. apply ln_increasing; lra. Qed.

Lemma Rlog10_powerRZ (n : Z) : Rlog10 (powerRZ 10 n) = IZR n.
Proof.
  unfold Rlog10. rewrite powerRZ_Rpower by lra. rewrite ln_Rpower.
  pose proof ln10_pos. field; lra.
Qed.

Lemma Rlog10_le x y : 0 < x -> x <= y -> Rlog10 x <= Rlog10 y.
Proof.
  intros Hx Hxy. unfold Rlog10. pose proof ln10_pos as H10.
  apply Rmult_le_compat_r; [left; apply Rinv_0_lt_compat; exact H10|].
  destruct Hxy as [Hlt| ->]; [left; apply ln_increasing; assumption | right; reflexivity].
Qed.

Lemma Rlog10_lt x y : 0 < x -> x < y -> Rlog10 x < Rlog10 y.
Proof.
  intros Hx Hxy. unfold Rlog10. pose proof ln10_pos as H10.
  apply Rmult_lt_compat_r; [apply Rinv_0_lt_compat; exact H10|].
  apply ln_increasing; assumption.
Qed.

Lemma floor_log10_decade (v : R) (n : Z) :
  powerRZ 10 n <= v < powerRZ 10 (n + 1) -> Zfloor (Rlog10 v) = n.
Proof.
  intros [Hlo Hhi]. pose proof (powerRZ10_pos n) as Hp.
  apply Zfloor_eq. split.
  - rewrite <- Rlog10_powerRZ. apply Rlog10_le; [exact Hp | exact Hlo].
  - rewrite <- plus_IZR, <- Rlog10_powerRZ. apply Rlog10_lt; [lra | exact Hhi].
Qed.

(** [niceNumber(250, true)] is 200 and [niceNumber(21)] is 50. *)
Example niceNumber_250 : niceNumber (Fin 250) true = Fin 200.
Proof.
  unfold niceNumber. rewrite log10_fin by lra. cbn [floor].
  rewrite (floor_log10_decade 250 2) by (simpl; lra).
  rewrite pow10_int. rewrite div_fin by (simpl; lra). cbn [lt].
  rewrite Rltb_false by (simpl; lra). rewrite Rltb_true by (simpl; lra).
  cbn [mul]. f_equal. simpl; lra.
Qed.

Example niceNumber_21 : niceNumber (Fin 21) false = Fin 50.
Proof.
  unfold niceNumber. rewrite log10_fin by lra. cbn [floor].
  rewrite (floor_log10_decade 21 1) by (simpl; lra).
  rewrite pow10_int. rewrite div_fin by (simpl; lra). cbn [le].
  rewrite !Rleb_false by (simpl; lra). rewrite Rleb_true by (simpl; lra).
  cbn [mul]. f_equal. simpl; lra.
Qed.




End GridFacts.

(** ** Vectors with finite components *)

Module VectorFacts.
Import JSNum NumFacts Three.
#[local] Open Scope R_scope.

Lemma sumsq_nonneg a b c : 0 <= a * a + b * b + c * c.
Proof. nra. Qed.

Lemma sumsq_pos a b c : (a, b, c) <> (0, 0, 0) -> 0 < a * a + b * b + c * c.
Proof.
  intro H.
  destruct (Req_dec a 0) as [Ha|Ha]; [|nra].
  destruct (Req_dec b 0) as [Hb|Hb]; [|nra].
  destruct (Req_dec c 0) as [Hc|Hc]; [|nra].
  subst; contradiction H; reflexivity.
Qed.

Lemma norm3_nonneg a b c : 0 <= norm3 a b c.
Proof. apply sqrt_pos. Qed.

Lemma norm3_pos a b c : (a, b, c) <> (0, 0, 0) -> 0 < norm3 a b c.
Proof. intro H; apply sqrt_lt_R0, sumsq_pos, H. Qed.

Lemma norm3_zero : norm3 0 0 0 = 0.
Proof. unfold norm3. replace (0 * 0 + 0 * 0 + 0 * 0) with 0 by ring. apply sqrt_0. Qed.

Lemma norm3_sqr a b c : norm3 a b c * norm3 a b c = a * a + b * b + c * c.
Proof. apply sqrt_sqrt, sumsq_nonneg. Qed.

Lemma norm3_scale a b c m :
  0 <= m -> norm3 (a * m) (b * m) (c * m) = m * norm3 a b c.
Proof.
  intro Hm. unfold norm3. apply sqrt_lem_1.
  - apply sumsq_nonneg.
  - apply Rmult_le_pos; [exact Hm | apply sqrt_pos].
  - pose proof (norm3_sqr a b c) as H. unfold norm3 in H.
    transitivity (m * m * (R_sqrt.sqrt (a * a + b * b + c * c)
                           * R_sqrt.sqrt (a * a + b * b + c * c))); [ring|].
    rewrite H; ring.
Qed.

Lemma length_fin a b c : length (fin3 a b c) = Fin (norm3 a b c).
Proof. unfold length, fin3; cbn [vx vy vz mul add]. apply sqrt_fin, sumsq_nonneg. Qed.

Lemma normalize_fin a b c :
  (a, b, c) <> (0, 0, 0) ->
  normalize (fin3 a b c) =
  fin3 (a * (1 / norm3 a b c)) (b * (1 / norm3 a b c)) (c * (1 / norm3 a b c)).
Proof.
  intro H. pose proof (norm3_pos a b c H) as Hp.
  unfold normalize, divideScalar, or_else. rewrite length_fin.
  rewrite truthy_fin by lra. rewrite div_fin by lra. reflexivity.
Qed.

(** three.js leaves the zero vector unchanged when normalising it. *)
Lemma normalize_zero : normalize (fin3 0 0 0) = fin3 (0 * (1 / 1)) (0 * (1 / 1)) (0 * (1 / 1)).
Proof.
  unfold normalize, divideScalar, or_else. rewrite length_fin, norm3_zero.
  cbn [truthy]. rewrite Reqb_refl. cbn [negb]. rewrite div_fin by lra. reflexivity.
Qed.

Lemma normalize_null a b c :
  norm3 a b c = 0 ->
  normalize (fin3 a b c) = fin3 (a * (1 / 1)) (b * (1 / 1)) (c * (1 / 1)).
Proof.
  intro H. unfold normalize, divideScalar, or_else. rewrite length_fin, H.
  cbn [truthy]. rewrite Reqb_refl. cbn [negb]. rewrite div_fin by lra. reflexivity.
Qed.

Lemma norm3_null a b c : a = 0 -> b = 0 -> c = 0 -> norm3 a b c = 0.
Proof. intros -> -> ->; apply norm3_zero. Qed.

Lemma offset_nonzero px py pz tx ty tz :
  (px, py, pz) <> (tx, ty, tz) -> (px + - tx, py + - ty, pz + - tz) <> (0, 0, 0).
Proof.
  intros H E. inversion E. apply H. f_equal; [f_equal|]; lra.
Qed.

Lemma setLength_fin a b c l :
  (a, b, c) <> (0, 0, 0) ->
  setLength (fin3 a b c) (Fin l) =
  fin3 (a * (1 / norm3 a b c) * l) (b * (1 / norm3 a b c) * l)
       (c * (1 / norm3 a b c) * l).
Proof. intro H; unfold setLength; rewrite (normalize_fin _ _ _ H); reflexivity. Qed.

Lemma v_sub_fin a b c x y z :
  v_sub (fin3 a b c) (fin3 x y z) = fin3 (a + - x) (b + - y) (c + - z).
Proof. reflexivity. Qed.

Lemma v_add_fin a b c x y z :
  v_add (fin3 a b c) (fin3 x y z) = fin3 (a + x) (b + y) (c + z).
Proof. reflexivity. Qed.

Lemma multiplyScalar_fin a b c s :
  multiplyScalar (fin3 a b c) (Fin s) = fin3 (a * s) (b * s) (c * s).
Proof. reflexivity. Qed.

Lemma fin3_eq a b c a' b' c' :
  a = a' -> b = b' -> c = c' -> fin3 a b c = fin3 a' b' c'.
Proof. intros -> -> ->; reflexivity. Qed.

Lemma fin3_inj a b c a' b' c' :
  fin3 a b c = fin3 a' b' c' -> a = a' /\ b = b' /\ c = c'.
Proof. unfold fin3; intro H; inversion H; auto. Qed.

End VectorFacts.

(** ** Camera *)

Module CameraFacts.
Import JSNum NumFacts Three VectorFacts Camera.
#[local] Open Scope R_scope.

Section WithLookAt.

Variable lookAt : Vector3 -> Vector3 -> Vector3 -> Quaternion.

Lemma camera_with_camera f c : camera (with_camera f c) = f (camera c).
Proof. unfold camera, with_camera; destruct (ortho c); reflexivity. Qed.

Lemma target_with_camera f c : target (with_camera f c) = target c.
Proof. unfold with_camera; destruct (ortho c); reflexivity. Qed.

Lemma ortho_with_camera f c : ortho (with_camera f c) = ortho c.
Proof. unfold with_camera; destruct (ortho c); reflexivity. Qed.

Lemma distance_with_camera f c :
  camera_distance (with_camera f c) = camera_distance c.
Proof. unfold with_camera; destruct (ortho c); reflexivity. Qed.

Lemma up_with_camera f c : up (with_camera f c) = up c.
Proof. unfold with_camera; destruct (ortho c); reflexivity. Qed.

Lemma Vector3_of_toArray v : Vector3_of_list (toArray v) = v.
Proof. destruct v; reflexivity. Qed.

(** The constructor stores five times the distance it is given. *)
Lemma constructor_camera_distance w h d tgt o u c :
  constructor lookAt w h (Fin d) tgt o u = Some c ->
  camera_distance c = Fin (5 * d).
Proof.
  unfold constructor. destruct (mapping u); [|discriminate].
  intro H; inversion H; reflexivity.
Qed.

(** In orthographic mode [setZoom] stores the value and [getZoom] reads it. *)
Lemma getZoom_setZoom_ortho c v :
  ortho c = true -> getZoom (setZoom c v) = v.
Proof.
  intro Ho. unfold getZoom, setZoom. rewrite Ho.
  rewrite ortho_with_camera, Ho, camera_with_camera. reflexivity.
Qed.

(** Where [setZoom] leaves the perspective camera. *)
Lemma setZoom_persp_position c px py pz tx ty tz k v :
  ortho c = false ->
  position (camera c) = fin3 px py pz ->
  target c = fin3 tx ty tz ->
  (px + - tx, py + - ty, pz + - tz) <> (0, 0, 0) ->
  camera_distance c = Fin k ->
  v <> 0 ->
  let n := norm3 (px + - tx) (py + - ty) (pz + - tz) in
  position (camera (setZoom c (Fin v))) =
  fin3 ((px + - tx) * (1 / n) * (k / v) + tx)
       ((py + - ty) * (1 / n) * (k / v) + ty)
       ((pz + - tz) * (1 / n) * (k / v) + tz).
Proof.
  intros Ho Hp Ht Hne Hk Hv n. unfold setZoom. rewrite Ho.
  rewrite camera_with_camera. cbn [position set_position].
  rewrite Hp, Ht, Hk. rewrite div_fin by exact Hv.
  rewrite v_sub_fin, setLength_fin by exact Hne. reflexivity.
Qed.

(** The distance to the target after a perspective [setZoom]. *)
Lemma offset_norm a b c s :
  (a, b, c) <> (0, 0, 0) -> 0 <= s ->
  forall tx ty tz,
  norm3 (a * (1 / norm3 a b c) * s + tx + - tx)
        (b * (1 / norm3 a b c) * s + ty + - ty)
        (c * (1 / norm3 a b c) * s + tz + - tz) = s.
Proof.
  intros Hne Hs tx ty tz. pose proof (norm3_pos a b c Hne) as Hn.
  replace (a * (1 / norm3 a b c) * s + tx + - tx) with (a * (s / norm3 a b c))
    by (field; lra).
  replace (b * (1 / norm3 a b c) * s + ty + - ty) with (b * (s / norm3 a b c))
    by (field; lra).
  replace (c * (1 / norm3 a b c) * s + tz + - tz) with (c * (s / norm3 a b c))
    by (field; lra).
  rewrite norm3_scale.
  - field; lra.
  - apply Rmult_le_pos; [exact Hs | left; apply Rinv_0_lt_compat; exact Hn].
Qed.

Lemma getZoom_setZoom_persp c px py pz tx ty tz k v :
  ortho c = false ->
  position (camera c) = fin3 px py pz ->
  target c = fin3 tx ty tz ->
  (px + - tx, py + - ty, pz + - tz) <> (0, 0, 0) ->
  camera_distance c = Fin k ->
  0 < k -> 0 < v ->
  getZoom (setZoom c (Fin v)) = Fin v.
Proof.
  intros Ho Hp Ht Hne Hk Hk0 Hv.
  pose proof (setZoom_persp_position c px py pz tx ty tz k v Ho Hp Ht Hne Hk) as E.
  cbv zeta in E. specialize (E ltac:(lra)).
  unfold getZoom.
  assert (Ho' : ortho (setZoom c (Fin v)) = false).
  { unfold setZoom; rewrite Ho; rewrite ortho_with_camera; exact Ho. }
  assert (Ht' : target (setZoom c (Fin v)) = fin3 tx ty tz).
  { unfold setZoom; rewrite Ho; rewrite target_with_camera; exact Ht. }
  assert (Hk' : camera_distance (setZoom c (Fin v)) = Fin k).
  { unfold setZoom; rewrite Ho; rewrite distance_with_camera; exact Hk. }
  rewrite Ho', E, Ht', Hk'.
  rewrite v_sub_fin, length_fin.
  rewrite offset_norm; [| exact Hne | left; apply Rdiv_lt_0_compat; lra].
  rewrite div_fin.
  - f_equal. field; lra.
  - apply Rgt_not_eq, Rdiv_lt_0_compat; lra.
Qed.

(** A perspective camera sitting on its target stays there under [setZoom],
    and [getZoom] then divides by a zero distance. *)
Lemma getZoom_setZoom_at_target c tx ty tz k v :
  ortho c = false ->
  position (camera c) = fin3 tx ty tz ->
  target c = fin3 tx ty tz ->
  camera_distance c = Fin k ->
  0 < k -> v <> 0 ->
  getZoom (setZoom c (Fin v)) = PInf.
Proof.
  intros Ho Hp Ht Hk Hk0 Hv.
  unfold getZoom, setZoom. rewrite Ho.
  rewrite ortho_with_camera, Ho, camera_with_camera, target_with_camera,
    distance_with_camera.
  cbn [position set_position]. rewrite Hp, Ht, Hk.
  rewrite div_fin by exact Hv. rewrite v_sub_fin.
  unfold setLength. rewrite normalize_null by (apply norm3_null; lra).
  rewrite multiplyScalar_fin, v_add_fin, v_sub_fin, length_fin.
  rewrite norm3_null by lra.
  cbn [div]. rewrite Reqb_refl, Reqb_false by lra.
  rewrite Rltb_true by lra. reflexivity.
Qed.

Lemma switchCamera_unfold c flag :
  switchCamera c flag =
  with_camera (set_quaternion (getQuaternion c))
    (setZoom (with_camera (set_position (getPosition c)) (set_ortho flag c))
             (getZoom c)).
Proof.
  unfold switchCamera, setPosition, setQuaternion, setupCamera.
  rewrite Vector3_of_toArray. reflexivity.
Qed.

Lemma getZoom_set_quaternion q c :
  getZoom (with_camera (set_quaternion q) c) = getZoom c.
Proof.
  unfold getZoom.
  rewrite ortho_with_camera, camera_with_camera, target_with_camera,
    distance_with_camera. reflexivity.
Qed.

Lemma getPosition_set_quaternion q c :
  getPosition (with_camera (set_quaternion q) c) = getPosition c.
Proof. unfold getPosition; rewrite camera_with_camera; reflexivity. Qed.

Lemma switchCamera_quaternion c flag :
  getQuaternion (switchCamera c flag) = getQuaternion c.
Proof.
  rewrite switchCamera_unfold. unfold getQuaternion at 1.
  rewrite camera_with_camera. reflexivity.
Qed.

Lemma switchCamera_to_ortho_zoom c :
  getZoom (switchCamera c true) = getZoom c.
Proof.
  rewrite switchCamera_unfold, getZoom_set_quaternion.
  apply getZoom_setZoom_ortho. rewrite ortho_with_camera. reflexivity.
Qed.

Lemma target_switchCamera c flag : target (switchCamera c flag) = target c.
Proof.
  rewrite switchCamera_unfold, target_with_camera.
  unfold setZoom. rewrite ortho_with_camera. cbn [set_ortho ortho].
  destruct flag; rewrite !target_with_camera; reflexivity.
Qed.

Lemma direction_of_name d : direction_of_string (direction_name d) = Some d.
Proof. destruct d; reflexivity. Qed.

(** [presetCamera] succeeds on the seven preset names; the position it leaves
    is the one computed by its call to [setupCamera]. *)
Lemma presetCamera_position c d zoom_arg :
  exists c',
    presetCamera lookAt c (direction_name d) zoom_arg = Some c' /\
    target c' = target c /\
    getPosition c' =
    getPosition
      (setupCamera c true (Some (pos (defaultDirections (up c) d))) None
         (Some (match zoom_arg with Some z => z | None => zoom (camera c) end))).
Proof.
  unfold presetCamera, lookup_direction. rewrite direction_of_name. cbv zeta.
  set (c1 := setupCamera c true _ None _).
  assert (Ht1 : target c1 = target c).
  { subst c1. unfold setupCamera, setZoom. rewrite ortho_with_camera.
    destruct (ortho c); rewrite !target_with_camera; reflexivity. }
  destruct (negb (is_zero (z_rot (defaultDirections (up c) d)))).
  - eexists; split; [reflexivity|]. unfold setQuaternion, setupCamera, lookAtTarget.
    rewrite !target_with_camera. split; [exact Ht1|].
    unfold getPosition. rewrite !camera_with_camera. reflexivity.
  - eexists; split; [reflexivity|]. unfold lookAtTarget.
    rewrite target_with_camera. split; [exact Ht1|].
    unfold getPosition. rewrite camera_with_camera. reflexivity.
Qed.

End WithLookAt.

(** C6, as stated, fails: on a perspective camera constructed with the target
    at the origin (its position is the origin too), [setZoom(2)] followed by
    [getZoom()] returns [Infinity], not 2. *)
Lemma setZoom_getZoom_fresh_camera :
  constructor lookAt_identity (Fin 800) (Fin 600) (Fin 1)
    [Fin 0; Fin 0; Fin 0] false "Z" = Some fresh_perspective /\
  getZoom (setZoom fresh_perspective (Fin 2)) = PInf /\
  getZoom (setZoom fresh_perspective (Fin 2)) <> Fin 2.
Proof.
  split; [reflexivity|].
  assert (E : getZoom (setZoom fresh_perspective (Fin 2)) = PInf).
  { apply (getZoom_setZoom_at_target fresh_perspective 0 0 0 (5 * 1) 2);
      try reflexivity; lra. }
  split; [exact E | rewrite E; discriminate].
Qed.

(** C6 (amended): for every zoom value [v > 0], [setZoom(v)] followed by
    [getZoom()] returns [v] in orthographic mode, and in perspective mode
    whenever the camera has been placed (finite position different from the
    finite target, positive camera distance). *)
Theorem setZoom_getZoom_roundtrip (c : Camera) (v : R) :
  0 < v ->
  ortho c = true \/ placed c ->
  getZoom (setZoom c (Fin v)) = Fin v.
Proof.
  intros Hv [Ho | Hpl].
  - apply getZoom_setZoom_ortho; exact Ho.
  - destruct (ortho c) eqn:Ho; [apply getZoom_setZoom_ortho; exact Ho|].
    destruct Hpl as (px & py & pz & tx & ty & tz & k & Hp & Ht & Hne & Hk & Hk0).
    apply (getZoom_setZoom_persp c px py pz tx ty tz k v); auto.
    apply offset_nonzero; exact Hne.
Qed.

Lemma placed_perspective_placed : placed placed_perspective.
Proof.
  exists 10, 0, 0, 0, 0, 0, 5. repeat split; try reflexivity; try lra.
  intro E; inversion E; lra.
Defined.

Lemma setZoom_getZoom_roundtrip_witness :
  getZoom (setZoom placed_perspective (Fin 2)) = Fin 2.
Proof.
  apply (setZoom_getZoom_roundtrip placed_perspective 2).
  - lra.
  - right; exact placed_perspective_placed.
Defined.

End CameraFacts.

(** ** Raycaster *)

Module RaycasterFacts.
Import JSNum Raycaster.

Lemma collect_app filters objects acc :
  collect filters objects acc = acc ++ collect filters objects [].
Proof.
  revert acc. induction objects as [|o rest IH]; intro acc; simpl.
  - rewrite app_nil_r; reflexivity.
  - destruct (examined o); [|apply IH].
    destruct (parent o) as [g|]; [|apply IH].
    destruct (passes_filters filters g); [|apply IH].
    rewrite IH, (IH [o]), app_assoc. reflexivity.
Qed.

(** What the loop keeps: the examined objects with a parent that passes the
    two tests, in the order of the intersections. *)
Lemma collect_filter filters objects :
  collect filters objects [] =
  filter (fun o => examined o &&
                   match parent o with
                   | Some g => passes_filters filters g
                   | None => false
                   end) objects.
Proof.
  induction objects as [|o rest IH]; simpl; [reflexivity|].
  destruct (examined o); simpl; [|exact IH].
  destruct (parent o) as [g|]; [|exact IH].
  destruct (passes_filters filters g); [|exact IH].
  rewrite collect_app, IH. reflexivity.
Qed.

(** The code's filter test is the specification's two filters together with
    the absence of [solid] from the topology filter. *)
Lemma passes_filters_spec filters g :
  passes_filters filters g =
  spec_topology_allowed filters g && spec_geometry_allowed filters g
  && negb (includes (topoFilter filters) TopoFilter.solid).
Proof.
  unfold passes_filters, spec_topology_allowed, spec_geometry_allowed.
  destruct (includes (topoFilter filters) TopoFilter.solid),
    (includes (topoFilter filters) TopoFilter.none),
    (includes (topoFilter filters) (Some (topo g))),
    (includes (geomFilter filters) GeomFilter.none),
    (includes (geomFilter filters) (Some (geomtype g))); reflexivity.
Qed.

(** Without [solid] in the topology filter, an examined object with a parent
    is returned exactly when it passes both filters. *)
Lemma getValidIntersectedObjs_without_solid filters objects o g :
  includes (topoFilter filters) TopoFilter.solid = false ->
  In o objects -> examined o = true -> parent o = Some g ->
  (In o (getValidIntersectedObjs true filters objects) <->
   spec_topology_allowed filters g = true /\ spec_geometry_allowed filters g = true).
Proof.
  intros Hs Hin He Hp. unfold getValidIntersectedObjs.
  rewrite collect_filter, filter_In, He, Hp, passes_filters_spec, Hs.
  cbn [negb andb]. rewrite andb_true_r, andb_true_iff. tauto.
Qed.

(** With [solid] in the topology filter nothing is returned. *)
Lemma getValidIntersectedObjs_with_solid mouseMoved filters objects :
  includes (topoFilter filters) TopoFilter.solid = true ->
  getValidIntersectedObjs mouseMoved filters objects = [].
Proof.
  intro Hs. unfold getValidIntersectedObjs. destruct mouseMoved; [|reflexivity].
  rewrite collect_filter. induction objects as [|o rest IH]; simpl; [reflexivity|].
  destruct (examined o); simpl; [|exact IH].
  destruct (parent o) as [g|]; [|exact IH].
  rewrite passes_filters_spec, Hs, andb_false_r. exact IH.
Qed.

(** C1 (the code departs from the claim): with the topology filter set to
    [solid] and the geometry filter to [none], a visible face hit by the ray
    passes both filters as the specification words them, yet
    [getValidIntersectedObjs] returns the empty list. *)
Theorem getValidIntersectedObjs_solid_filter :
  examined plane_face_hit = true /\
  (exists g, parent plane_face_hit = Some g /\
             spec_topology_allowed solid_filters g = true /\
             spec_geometry_allowed solid_filters g = true) /\
  getValidIntersectedObjs true solid_filters [plane_face_hit] = [].
Proof.
  split; [reflexivity|]. split.
  - eexists; split; [reflexivity|]. split; reflexivity.
  - reflexivity.
Qed.

End RaycasterFacts.

(** ** Tools *)

Module ToolsFacts.
Import Measure Tools.
#[local] Open Scope string_scope.

Lemma SizeMeasurement_not_exported : imported "SizeMeasurement" = None.
Proof. reflexivity. Qed.

(** C8: [new Tools(viewer)] never returns: whatever the viewer, the
    constructor throws; when the [DistanceMeasurement] could be built, what
    it throws is the [TypeError] of [new SizeMeasurement(viewer)], the
    imported binding being undefined because [measure.js] exports only the
    three measurement classes. *)
Theorem Tools_constructor_throws (viewer : Viewer) :
  imported "SizeMeasurement" = None /\
  map fst measure_exports =
    ["DistanceMeasurement"; "PropertiesMeasurement"; "AngleMeasurement"] /\
  (exists e, Tools.constructor viewer = inl e) /\
  (forall d, Measure.constructor DistanceMeasurement viewer = inr d ->
             Tools.constructor viewer
             = inl (TypeError "SizeMeasurement is not a constructor")).
Proof.
  split; [reflexivity|]. split; [reflexivity|].
  unfold Tools.constructor, new_imported.
  change (imported "DistanceMeasurement") with (Some DistanceMeasurement).
  change (imported "SizeMeasurement") with (@None Mode).
  destruct (Measure.constructor DistanceMeasurement viewer) as [e|d] eqn:E.
  - split; [exists e; reflexivity | intros d H; discriminate].
  - split; [eexists; reflexivity | intros d' _; reflexivity].
Qed.

Lemma Tools_constructor_throws_witness :
  Tools.constructor sample_viewer
  = inl (TypeError "SizeMeasurement is not a constructor").
Proof.
  apply (proj2 (proj2 (proj2 (Tools_constructor_throws sample_viewer)))
           (sample_instance DistanceMeasurement)).
  reflexivity.
Defined.

End ToolsFacts.

(** ** Measurement tools *)

Module MeasureFacts.
Import JSNum Three Measure.
#[local] Open Scope list_scope.

(** *** Rules of the program logic *)

Lemma triple_ret {A} P (a : A) (Q : A -> Measurement -> Prop) E :
  (forall m, P m -> Q a m) -> triple P (ret a) Q E.
Proof. intros H m Hm; apply H, Hm. Qed.

Lemma triple_throw {A} P e (Q : A -> Measurement -> Prop) (E : Measurement -> Prop) :
  (forall m, P m -> E m) -> triple P (throw e) Q E.
Proof. intros H m Hm; apply H, Hm. Qed.

Lemma triple_bind {A B} P (c : M A) (k : A -> M B) R Q E :
  triple P c R E -> (forall a, triple (R a) (k a) Q E) ->
  triple P (bind c k) Q E.
Proof.
  intros Hc Hk m Hm. unfold bind. specialize (Hc m Hm).
  destruct (c m) as [a m'|e m']; [apply Hk, Hc | exact Hc].
Qed.

Lemma triple_weaken {A} (P P' : Measurement -> Prop) (c : M A)
  (Q Q' : A -> Measurement -> Prop) (E E' : Measurement -> Prop) :
  triple P' c Q' E' ->
  (forall m, P m -> P' m) -> (forall a m, Q' a m -> Q a m) ->
  (forall m, E' m -> E m) ->
  triple P c Q E.
Proof.
  intros H HP HQ HE m Hm. specialize (H m (HP m Hm)).
  destruct (c m); [apply HQ | apply HE]; exact H.
Qed.

Lemma keeps_ret {A} (a : A) : keeps (ret a).
Proof. intros l md; apply triple_ret; auto. Qed.

Lemma keeps_throw {A} e : keeps (@throw A e).
Proof. intros l md; apply triple_throw; auto. Qed.

Lemma keeps_get : keeps get.
Proof. intros l md m Hm; exact Hm. Qed.

Lemma keeps_bind {A B} (c : M A) (k : A -> M B) :
  keeps c -> (forall a, keeps (k a)) -> keeps (bind c k).
Proof.
  intros Hc Hk l md. apply (triple_bind _ _ _ (fun _ => SelIs l md)).
  - apply Hc.
  - intro a; apply Hk.
Qed.

Lemma keeps_require {A} (o : option A) msg : keeps (require o msg).
Proof. destruct o; [apply keeps_ret | apply keeps_throw]. Qed.

Lemma keeps_modify f :
  (forall m, selectedShapes (f m) = selectedShapes m /\ mode (f m) = mode m) ->
  keeps (modify f).
Proof.
  intros H l md m [Hl Hmd]. destruct (H m) as [H1 H2].
  split; simpl; congruence.
Qed.

Create HintDb keeps.
#[local] Hint Resolve keeps_ret keeps_throw keeps_get keeps_require : keeps.

(** Decompose a method into its statements; named methods are closed by the
    lemmas of the [keeps] database. *)
Ltac keeps_step :=
  match goal with
  | |- keeps (bind _ _) => apply keeps_bind; [|intro]
  | |- keeps (modify _) => apply keeps_modify; intro; split; reflexivity
  | |- keeps (if ?b then _ else _) => destruct b
  | |- keeps (match ?x with _ => _ end) => destruct x
  | |- keeps _ => solve [auto with keeps]
  end.
Ltac keeps_tac := repeat keeps_step.

Lemma keeps_new_Vector3_spread v : keeps (new_Vector3_spread v).
Proof. unfold new_Vector3_spread; keeps_tac. Qed.

Lemma keeps_scene_add o : keeps (scene_add o).
Proof. unfold scene_add; keeps_tac. Qed.

Lemma keeps_panel_text s t : keeps (panel_text s t).
Proof. unfold panel_text; keeps_tac. Qed.

Lemma keeps_panel_row s d : keeps (panel_row s d).
Proof. unfold panel_row; keeps_tac. Qed.

Lemma keeps_panel_display d : keeps (panel_display d).
Proof. unfold panel_display; keeps_tac. Qed.

#[local] Hint Resolve keeps_new_Vector3_spread keeps_scene_add keeps_panel_text
  keeps_panel_row keeps_panel_display : keeps.

Lemma keeps_new_DistanceLineArrow p1 p2 lw col s e :
  keeps (new_DistanceLineArrow p1 p2 lw col s e).
Proof. unfold new_DistanceLineArrow; keeps_tac. Qed.

Lemma keeps_new_CurvedLineArrow p1 p2 c lw col s e :
  keeps (new_CurvedLineArrow p1 p2 c lw col s e).
Proof. unfold new_CurvedLineArrow; keeps_tac. Qed.

Lemma keeps_hideMeasurement : keeps _hideMeasurement.
Proof. unfold _hideMeasurement; keeps_tac. Qed.

Lemma keeps_checkChanges ids : keeps (checkChanges ids).
Proof. unfold checkChanges; keeps_tac. Qed.

Lemma keeps_shape_center i : keeps (shape_center i).
Proof. unfold shape_center; keeps_tac. Qed.

Lemma keeps_response_point b : keeps (response_point b).
Proof. unfold response_point; keeps_tac. Qed.

#[local] Hint Resolve keeps_new_DistanceLineArrow keeps_new_CurvedLineArrow
  keeps_hideMeasurement keeps_checkChanges keeps_shape_center
  keeps_response_point : keeps.

Lemma keeps_toFixed2 v : keeps (toFixed2 v).
Proof. unfold toFixed2; keeps_tac. Qed.

#[local] Hint Resolve keeps_toFixed2 : keeps.

Lemma keeps_getPoints : keeps _getPoints.
Proof. unfold _getPoints; keeps_tac. Qed.

Lemma keeps_connect_panel p : keeps (connect_panel p).
Proof. unfold connect_panel; keeps_tac. Qed.

Lemma keeps_middle_of_points : keeps middle_of_points.
Proof. unfold middle_of_points; keeps_tac. Qed.

Lemma keeps_required_responseData : keeps required_responseData.
Proof. unfold required_responseData; keeps_tac. Qed.

Lemma keeps_hideRows : keeps _hideRows.
Proof. unfold _hideRows; keeps_tac. Qed.

#[local] Hint Resolve keeps_getPoints keeps_connect_panel keeps_middle_of_points
  keeps_required_responseData keeps_hideRows : keeps.

Lemma keeps_setMeasurementVals : keeps _setMeasurementVals.
Proof.
  unfold _setMeasurementVals, Distance_setMeasurementVals,
    Properties_setMeasurementVals, Angle_setMeasurementVals; keeps_tac.
Qed.

Lemma keeps_makeLines : keeps _makeLines.
Proof.
  unfold _makeLines, Distance_makeLines, Properties_makeLines, Angle_makeLines;
    keeps_tac.
Qed.

Lemma keeps_movePanel : keeps _movePanel.
Proof. unfold _movePanel; keeps_tac. Qed.

#[local] Hint Resolve keeps_setMeasurementVals keeps_makeLines keeps_movePanel
  : keeps.

Lemma keeps_render : keeps render.
Proof. unfold render; keeps_tac. Qed.

#[local] Hint Resolve keeps_render : keeps.

Lemma keeps_updateMeasurement : keeps _updateMeasurement.
Proof. unfold _updateMeasurement; keeps_tac. Qed.

#[local] Hint Resolve keeps_updateMeasurement : keeps.

(** *** The selection *)

Lemma hideMeasurement_eq m : _hideMeasurement m = Ok tt (hidden m).
Proof. reflexivity. Qed.

Lemma removeLastSelectedObj_eq m :
  removeLastSelectedObj m =
  _updateMeasurement
    (let m1 := set_selectedShapes (removelast (selectedShapes m)) m in
     match nth_error (selectedShapes m) (List.length (selectedShapes m) - 1) with
     | Some o => add_cleared o m1
     | None => m1
     end).
Proof.
  unfold removeLastSelectedObj, pop, bind, get, modify, ret.
  destruct (nth_error _ _); reflexivity.
Qed.

Lemma handleSelection_eq o m :
  handleSelection o m =
  match (if Nat.eqb (List.length (selectedShapes m)) (_getMaxObjSelected (mode m))
         then removeLastSelectedObj (hidden m) else Ok tt (hidden m)) with
  | Ok _ m1 => _updateMeasurement (set_selectedShapes (toggle o (selectedShapes m1)) m1)
  | Throw e m1 => Throw e m1
  end.
Proof.
  unfold handleSelection. unfold bind at 1. rewrite hideMeasurement_eq.
  unfold bind at 1. unfold get at 1. unfold bind at 1.
  change (selectedShapes (hidden m)) with (selectedShapes m).
  change (mode (hidden m)) with (mode m).
  destruct (Nat.eqb _ _).
  - destruct (removeLastSelectedObj (hidden m)) as [[] m1|e m1]; [|reflexivity].
    unfold bind, get, toggle. destruct (includes _ _); reflexivity.
  - unfold ret, bind, get, toggle. destruct (includes _ _); reflexivity.
Qed.

Lemma updateMeasurement_sel m :
  SelIs (selectedShapes m) (mode m) (state_of (_updateMeasurement m)).
Proof.
  pose proof (keeps_updateMeasurement (selectedShapes m) (mode m) m
                (conj eq_refl eq_refl)) as H.
  destruct (_updateMeasurement m); exact H.
Qed.

Lemma removeLastSelectedObj_sel m :
  SelIs (removelast (selectedShapes m)) (mode m)
        (state_of (removeLastSelectedObj m)).
Proof.
  rewrite removeLastSelectedObj_eq. cbv zeta.
  destruct (nth_error _ _);
    match goal with
    | |- SelIs _ _ (state_of (_updateMeasurement ?x)) =>
        exact (updateMeasurement_sel x)
    end.
Qed.

(** The selection [handleSelection] leaves: the toggled one, or, had the
    inner [removeLastSelectedObj] thrown, the shortened one. *)
Lemma handleSelection_sel o m :
  let l := selectedShapes m in
  let l' := if Nat.eqb (List.length l) (_getMaxObjSelected (mode m))
            then removelast l else l in
  SelIs (toggle o l') (mode m) (state_of (handleSelection o m)) \/
  (SelIs l' (mode m) (state_of (handleSelection o m)) /\
   returned (handleSelection o m) = false).
Proof.
  cbv zeta. rewrite handleSelection_eq.
  destruct (Nat.eqb _ _).
  - pose proof (removeLastSelectedObj_sel (hidden m)) as H.
    change (selectedShapes (hidden m)) with (selectedShapes m) in H.
    change (mode (hidden m)) with (mode m) in H.
    destruct (removeLastSelectedObj (hidden m)) as [[] m1|e m1]; simpl in H.
    + left. destruct H as [H1 H2].
      pose proof (updateMeasurement_sel
                    (set_selectedShapes (toggle o (selectedShapes m1)) m1)) as H.
      cbn [set_selectedShapes selectedShapes mode] in H.
      rewrite H1, H2 in H. rewrite H1. exact H.
    + right. split; [exact H | reflexivity].
  - left.
    pose proof (updateMeasurement_sel
                  (set_selectedShapes (toggle o (selectedShapes (hidden m))) (hidden m))) as H.
    exact H.
Qed.

Lemma includes_In l o : includes l o = true <-> In o l.
Proof.
  unfold includes. rewrite existsb_exists. split.
  - intros [x [Hx E]]. apply Nat.eqb_eq in E. subst; exact Hx.
  - intro H. exists o. split; [exact H | apply Nat.eqb_refl].
Qed.

Lemma In_remove_first o x l : In x (remove_first o l) -> In x l.
Proof.
  induction l as [|y l IH]; simpl; [tauto|].
  destruct (Nat.eqb o y); simpl; tauto.
Qed.

Lemma NoDup_remove_first o l : NoDup l -> NoDup (remove_first o l).
Proof.
  induction 1 as [|y l Hy Hl IH]; simpl; [constructor|].
  destruct (Nat.eqb o y); [exact Hl|].
  constructor; [|exact IH]. intro H; apply Hy, (In_remove_first o), H.
Qed.

Lemma length_remove_first o l : List.length (remove_first o l) <= List.length l.
Proof.
  induction l as [|y l IH]; simpl; [lia|].
  destruct (Nat.eqb o y); simpl; lia.
Qed.

(** In a list without duplicates the spliced element is gone. *)
Lemma remove_first_NoDup_not_In o l : NoDup l -> ~ In o (remove_first o l).
Proof.
  induction 1 as [|y l Hy Hl IH]; simpl; [tauto|].
  destruct (Nat.eqb o y) eqn:E.
  - apply Nat.eqb_eq in E; subst; exact Hy.
  - apply Nat.eqb_neq in E. simpl. intros [H|H]; [congruence | exact (IH H)].
Qed.

Lemma NoDup_removelast (l : list ObjectGroup) : NoDup l -> NoDup (removelast l).
Proof.
  intro H. destruct l as [|x l] using rev_ind; [exact H|].
  rewrite removelast_last. apply NoDup_app_remove_r in H. exact H.
Qed.

Lemma length_removelast (l : list ObjectGroup) :
  List.length (removelast l) = List.length l - 1.
Proof.
  destruct l as [|x l] using rev_ind; [reflexivity|].
  rewrite removelast_last, length_app; simpl; lia.
Qed.

Lemma NoDup_snoc (l : list ObjectGroup) o : NoDup l -> ~ In o l -> NoDup (l ++ [o]).
Proof.
  intros Hl Ho. apply NoDup_rev in Hl. rewrite <- (rev_involutive (l ++ [o])).
  apply NoDup_rev. rewrite rev_app_distr. simpl. constructor; [|exact Hl].
  rewrite <- in_rev. exact Ho.
Qed.

Lemma max_positive md : 1 <= _getMaxObjSelected md.
Proof. destruct md; simpl; lia. Qed.

(** Toggling a shape in a selection that has room for one more. *)
Lemma toggle_ok o l n :
  NoDup l -> List.length l < n ->
  NoDup (toggle o l) /\ List.length (toggle o l) <= n.
Proof.
  intros Hl Hn. unfold toggle. destruct (includes l o) eqn:E.
  - split; [apply NoDup_remove_first, Hl|].
    pose proof (length_remove_first o l); lia.
  - split.
    + apply NoDup_snoc; [exact Hl|]. rewrite <- includes_In, E. discriminate.
    + rewrite length_app; simpl; lia.
Qed.

Lemma run_op_ok m op :
  selection_ok m -> selection_ok (run_op m op) /\ mode (run_op m op) = mode m.
Proof.
  intros [Hnd Hlen]. destruct op as [o|]; simpl.
  - pose proof (max_positive (mode m)) as Hmax.
    pose proof (handleSelection_sel o m) as H. cbv zeta in H.
    assert (Hl' : forall l', l' = (if Nat.eqb (List.length (selectedShapes m))
                                       (_getMaxObjSelected (mode m))
                                   then removelast (selectedShapes m)
                                   else selectedShapes m) ->
                  NoDup l' /\ List.length l' < _getMaxObjSelected (mode m)).
    { intros l' ->. destruct (Nat.eqb _ _) eqn:E.
      - apply Nat.eqb_eq in E. split; [apply NoDup_removelast, Hnd|].
        rewrite length_removelast. lia.
      - apply Nat.eqb_neq in E. split; [exact Hnd | lia]. }
    destruct (Hl' _ eq_refl) as [Hnd' Hlen'].
    unfold selection_ok.
    destruct H as [[H1 H2] | [[H1 H2] _]]; rewrite H1, H2.
    + split; [|reflexivity]. apply toggle_ok; assumption.
    + split; [|reflexivity]. split; [exact Hnd' | lia].
  - destruct (removeLastSelectedObj_sel m) as [H1 H2]. unfold selection_ok.
    rewrite H1, H2. split; [|reflexivity]. split.
    + apply NoDup_removelast, Hnd.
    + rewrite length_removelast. lia.
Qed.

Lemma run_ops_ok ops : forall m,
  selection_ok m ->
  selection_ok (run_ops m ops) /\ mode (run_ops m ops) = mode m.
Proof.
  induction ops as [|op ops IH]; intros m Hm; simpl; [auto|].
  destruct (run_op_ok m op Hm) as [H1 H2].
  destruct (IH _ H1) as [H3 H4]. split; [exact H3 | congruence].
Qed.

(** C2: in each of the three modes (maxima 2, 1 and 2), starting from the
    empty selection, after any sequence of [handleSelection] and
    [removeLastSelectedObj] calls the selected shapes are pairwise distinct
    and there are at most as many as the mode allows. *)
Theorem selection_invariant (m : Measurement) (ops : list SelectionOp) :
  selectedShapes m = [] ->
  NoDup (selectedShapes (run_ops m ops)) /\
  List.length (selectedShapes (run_ops m ops))
    <= _getMaxObjSelected (mode (run_ops m ops)) /\
  mode (run_ops m ops) = mode m /\
  _getMaxObjSelected DistanceMeasurement = 2 /\
  _getMaxObjSelected PropertiesMeasurement = 1 /\
  _getMaxObjSelected AngleMeasurement = 2.
Proof.
  intro H0.
  assert (Hm : selection_ok m).
  { unfold selection_ok. rewrite H0. split; [constructor | simpl; lia]. }
  destruct (run_ops_ok ops m Hm) as [[H1 H2] H3].
  repeat split; assumption.
Qed.

(** *** Drawing and hiding *)

(** C3: [_updateMeasurement] draws (runs the four drawing statements, the
    last two of which show and place the panel) exactly when the number of
    selected shapes is the maximum of the mode. Otherwise it returns after
    hiding the measurement: the panel's display is [none], the overlay scene
    is empty, [responseData] is [null], and nothing else of the panel or of
    the points is touched. Hence a call that leaves the panel shown or the
    scene non-empty was made with the maximum number of shapes. *)
Theorem updateMeasurement_draws_when_full (m : Measurement) :
  let ids := map (fun shape => replace_bars (name (shapes m shape)))
                 (selectedShapes m) in
  let full := List.length (selectedShapes m) = _getMaxObjSelected (mode m) in
  let m' := state_of (_updateMeasurement m) in
  (~ full ->
   _updateMeasurement m = Ok tt (hidden (checked ids m)) /\
   style_display (panel m') = display_none /\
   scene m' = [] /\
   responseData m' = None /\
   texts (panel m') = texts (panel m) /\
   rows (panel m') = rows (panel m) /\
   placed_at (panel m') = placed_at (panel m) /\
   point1 m' = point1 m /\ point2 m' = point2 m) /\
  (full -> _updateMeasurement m = render (checked ids m)) /\
  (style_display (panel m') = display_block \/ scene m' <> [] -> full).
Proof.
  cbv zeta.
  assert (Hhide : List.length (selectedShapes m) <> _getMaxObjSelected (mode m) ->
                  _updateMeasurement m =
                  Ok tt (hidden (checked
                                   (map (fun shape => replace_bars (name (shapes m shape)))
                                        (selectedShapes m)) m))).
  { intro H. apply Nat.eqb_neq in H.
    unfold _updateMeasurement, bind, get, checkChanges, modify.
    rewrite H. reflexivity. }
  split; [|split].
  - intro H. rewrite (Hhide H). repeat split.
  - intro H. apply Nat.eqb_eq in H.
    unfold _updateMeasurement, bind, get, checkChanges, modify.
    rewrite H. reflexivity.
  - intro H.
    destruct (Nat.eq_dec (List.length (selectedShapes m))
                         (_getMaxObjSelected (mode m))) as [E|E]; [exact E|].
    rewrite (Hhide E) in H. simpl in H. destruct H as [H|H]; [discriminate|].
    contradiction H; reflexivity.
Qed.

(** *** Waiting for the response *)

Lemma poll_from at_check fuel : forall k elapsed,
  (forall d t, poll at_check k elapsed fuel = (fulfilled d, t) ->
     exists n, n <= fuel /\ t = elapsed + 100 * n /\
               responseData (at_check (k + n)) = Some d /\
               forall j, j < n -> responseData (at_check (k + j)) = None) /\
  (forall r t, poll at_check k elapsed fuel <> (rejected r, t)) /\
  (forall t, poll at_check k elapsed fuel = (pending, t) ->
     t = elapsed + 100 * fuel /\
     forall j, j <= fuel -> responseData (at_check (k + j)) = None).
Proof.
  induction fuel as [|fuel IH]; intros k elapsed; cbn [poll]; unfold _waitResponse;
    destruct (responseData (at_check k)) as [d0|] eqn:E.
  - repeat split; try discriminate.
    intros d t H; inversion H; subst. exists 0.
    replace (k + 0) with k by lia.
    repeat split; [lia | lia | exact E | intros j Hj; lia].
  - repeat split; try discriminate.
    + inversion H; lia.
    + intros j Hj. replace (k + j) with k by lia. exact E.
  - repeat split; try discriminate.
    intros d t H; inversion H; subst. exists 0.
    replace (k + 0) with k by lia.
    repeat split; [lia | lia | exact E | intros j Hj; lia].
  - destruct (IH (S k) (elapsed + 100)) as (IH1 & IH2 & IH3).
    split; [|split].
    + intros d t H. destruct (IH1 d t H) as (n & Hn & Ht & Hd & Hnone).
      exists (S n). repeat split; [lia | lia | |].
      * replace (k + S n) with (S k + n) by lia. exact Hd.
      * intros j Hj. destruct j as [|j]; [replace (k + 0) with k by lia; exact E|].
        replace (k + S j) with (S k + j) by lia. apply Hnone; lia.
    + exact IH2.
    + intros t H. destruct (IH3 t H) as [Ht Hnone]. split; [lia|].
      intros j Hj. destruct j as [|j]; [replace (k + 0) with k by lia; exact E|].
      replace (k + S j) with (S k + j) by lia. apply Hnone; lia.
Qed.

Lemma poll_fulfils at_check d : forall n k elapsed fuel,
  responseData (at_check (k + n)) = Some d ->
  (forall j, j < n -> responseData (at_check (k + j)) = None) ->
  n <= fuel ->
  poll at_check k elapsed fuel = (fulfilled d, elapsed + 100 * n).
Proof.
  induction n as [|n IH]; intros k elapsed fuel Hd Hnone Hf.
  - replace (k + 0) with k in Hd by lia.
    destruct fuel; cbn [poll]; unfold _waitResponse; rewrite Hd; f_equal; lia.
  - destruct fuel as [|fuel]; [lia|]. cbn [poll]. unfold _waitResponse.
    replace (responseData (at_check k)) with (@None ResponseData)
      by (symmetry; replace k with (k + 0) by lia; apply Hnone; lia).
    rewrite (IH (S k) (elapsed + 100) fuel).
    + f_equal; lia.
    + replace (S k + n) with (k + S n) by lia. exact Hd.
    + intros j Hj. replace (S k + j) with (k + S j) by lia. apply Hnone; lia.
    + lia.
Qed.

(** C7: one call of [_waitResponse] calls [resolve] exactly when
    [responseData] is set, passing it; while it is [null] the call neither
    resolves nor rejects but schedules itself again after 100 ms. Hence the
    promise of [_updateMeasurement] is never rejected, is fulfilled only
    with a response that was stored at the time of the call that resolved
    it, every earlier call having found none, and it is fulfilled at the
    first call that finds one. *)
Theorem waitResponse_resolves_with_response :
  (forall m d, _waitResponse m = call_resolve d <-> responseData m = Some d) /\
  (forall m, responseData m = None -> _waitResponse m = call_setTimeout 100) /\
  (forall m r, _waitResponse m <> call_reject r) /\
  (forall at_check fuel d t,
      poll at_check 0 0 fuel = (fulfilled d, t) ->
      exists n, n <= fuel /\ t = 100 * n /\
                responseData (at_check n) = Some d /\
                forall j, j < n -> responseData (at_check j) = None) /\
  (forall at_check fuel r t, poll at_check 0 0 fuel <> (rejected r, t)) /\
  (forall at_check fuel n d,
      responseData (at_check n) = Some d ->
      (forall j, j < n -> responseData (at_check j) = None) ->
      n <= fuel ->
      poll at_check 0 0 fuel = (fulfilled d, 100 * n)).
Proof.
  repeat split.
  - unfold _waitResponse. destruct (responseData m); intro H; inversion H; reflexivity.
  - unfold _waitResponse. intros ->; reflexivity.
  - intros m H. unfold _waitResponse. rewrite H. reflexivity.
  - intros m r. unfold _waitResponse. destruct (responseData m); discriminate.
  - intros at_check fuel d t H.
    destruct (poll_from at_check fuel 0 0) as (H1 & _ & _).
    destruct (H1 d t H) as (n & Hn & Ht & Hd & Hnone).
    exists n. repeat split; auto.
  - intros at_check fuel r t.
    destruct (poll_from at_check fuel 0 0) as (_ & H2 & _). apply H2.
  - intros at_check fuel n d Hd Hnone Hf.
    apply (poll_fulfils at_check d n 0 0 fuel); auto.
Qed.

(** *** The response handler of the properties mode *)

Lemma zero_is_falsy : js_truthy (JNum (Fin 0)) = false.
Proof. simpl. rewrite NumFacts.Reqb_refl. reflexivity. Qed.

Lemma Properties_handleResponse_falsy_length r m :
  js_truthy (r_length r) = false ->
  Properties_handleResponse (with_length JUndefined r) m
  = Properties_handleResponse r m.
Proof.
  intro H. unfold Properties_handleResponse, Properties_data.
  cbn [with_length r_vertex_coords r_length r_area r_volume r_center js_truthy].
  rewrite H. reflexivity.
Qed.

Lemma Properties_handleResponse_falsy_area r m :
  js_truthy (r_area r) = false ->
  Properties_handleResponse (with_area JUndefined r) m
  = Properties_handleResponse r m.
Proof.
  intro H. unfold Properties_handleResponse, Properties_data.
  cbn [with_area r_vertex_coords r_length r_area r_volume r_center js_truthy].
  rewrite H. reflexivity.
Qed.

Lemma Properties_handleResponse_falsy_volume r m :
  js_truthy (r_volume r) = false ->
  Properties_handleResponse (with_volume JUndefined r) m
  = Properties_handleResponse r m.
Proof.
  intro H. unfold Properties_handleResponse, Properties_data.
  cbn [with_volume r_vertex_coords r_length r_area r_volume r_center js_truthy].
  rewrite H. reflexivity.
Qed.

Lemma Properties_handleResponse_stores r m m' :
  Properties_handleResponse r m = Ok tt m' ->
  exists f c, m' = set_responseData (Some (PropertiesData f c)) m /\
              js_truthy (field_source f r) = true /\
              match f with
              | f_vertex_coords _ => True
              | f_length v | f_area v | f_volume v => v = field_source f r
              end.
Proof.
  unfold Properties_handleResponse, Properties_data, bind, new_Vector3_spread,
    require, ret, throw, modify.
  destruct (js_truthy (r_vertex_coords r)) eqn:E1.
  { destruct (spread (r_vertex_coords r)); [|discriminate].
    unfold bind, ret. destruct (spread (r_center r)); [|discriminate].
    intro H; inversion H. eexists _, _. split; [reflexivity|]. simpl. auto. }
  destruct (js_truthy (r_length r)) eqn:E2.
  { unfold bind, ret. destruct (spread (r_center r)); [|discriminate].
    intro H; inversion H. eexists _, _. split; [reflexivity|]. simpl. auto. }
  destruct (js_truthy (r_area r)) eqn:E3.
  { unfold bind, ret. destruct (spread (r_center r)); [|discriminate].
    intro H; inversion H. eexists _, _. split; [reflexivity|]. simpl. auto. }
  destruct (js_truthy (r_volume r)) eqn:E4.
  { unfold bind, ret. destruct (spread (r_center r)); [|discriminate].
    intro H; inversion H. eexists _, _. split; [reflexivity|]. simpl. auto. }
  unfold bind, ret. destruct (spread (r_center r)); discriminate.
Qed.

Lemma Properties_handleResponse_nothing_truthy r m :
  js_truthy (r_vertex_coords r) = false ->
  js_truthy (r_length r) = false ->
  js_truthy (r_area r) = false ->
  js_truthy (r_volume r) = false ->
  (exists msg, Properties_handleResponse r m = Throw (TypeError msg) m) /\
  (forall a, spread (r_center r) = Some a ->
     Properties_handleResponse r m =
     Throw (TypeError "cannot set properties of undefined (setting 'center')") m).
Proof.
  intros E1 E2 E3 E4.
  unfold Properties_handleResponse, Properties_data, bind, new_Vector3_spread,
    require, ret, throw. rewrite E1, E2, E3, E4.
  unfold bind, ret. destruct (spread (r_center r)).
  - split; [eexists; reflexivity | intros; reflexivity].
  - split; [eexists; reflexivity | intros; discriminate].
Qed.

(** C10: [PropertiesMeasurement.handleResponse] stores a measured field only
    when that field of the response is truthy; a [length], [area] or
    [volume] that is falsy (0 in particular) is handled exactly as if it
    were absent; and when none of the four fields is truthy the handler
    throws a [TypeError] (the one of setting [center] on [undefined] once
    [response.center] has been spread) and leaves the instance, and so
    [responseData], as it was. *)
Theorem Properties_handleResponse_truthy_fields (r : Response) (m : Measurement) :
  (forall m', Properties_handleResponse r m = Ok tt m' ->
     exists f c, responseData m' = Some (PropertiesData f c) /\
                 js_truthy (field_source f r) = true) /\
  js_truthy (JNum (Fin 0)) = false /\
  (js_truthy (r_length r) = false ->
   Properties_handleResponse r m
   = Properties_handleResponse (with_length JUndefined r) m) /\
  (js_truthy (r_area r) = false ->
   Properties_handleResponse r m
   = Properties_handleResponse (with_area JUndefined r) m) /\
  (js_truthy (r_volume r) = false ->
   Properties_handleResponse r m
   = Properties_handleResponse (with_volume JUndefined r) m) /\
  (js_truthy (r_vertex_coords r) = false ->
   js_truthy (r_length r) = false ->
   js_truthy (r_area r) = false ->
   js_truthy (r_volume r) = false ->
   (exists msg, Properties_handleResponse r m = Throw (TypeError msg) m) /\
   (forall a, spread (r_center r) = Some a ->
      Properties_handleResponse r m =
      Throw (TypeError "cannot set properties of undefined (setting 'center')") m) /\
   responseData (state_of (Properties_handleResponse r m)) = responseData m).
Proof.
  split.
  { intros m' H. destruct (Properties_handleResponse_stores r m m' H)
      as (f & c & -> & Ht & _). exists f, c. split; [reflexivity | exact Ht]. }
  split; [exact zero_is_falsy|].
  split; [intro H; symmetry; apply Properties_handleResponse_falsy_length, H|].
  split; [intro H; symmetry; apply Properties_handleResponse_falsy_area, H|].
  split; [intro H; symmetry; apply Properties_handleResponse_falsy_volume, H|].
  intros E1 E2 E3 E4.
  destruct (Properties_handleResponse_nothing_truthy r m E1 E2 E3 E4) as [[msg H1] H2].
  split; [exists msg; exact H1|]. split; [exact H2|].
  rewrite H1. reflexivity.
Qed.

(** *** The model on sample data *)

Lemma sample_instance_constructed md :
  Measure.constructor md sample_viewer = inr (sample_instance md).
Proof. destruct md; reflexivity. Qed.

(** Three picks in distance mode: the third replaces the second. *)
Example distance_three_picks :
  selectedShapes
    (run_ops (sample_instance DistanceMeasurement)
       [op_handleSelection 1; op_handleSelection 2; op_handleSelection 3])
  = [1; 3].
Proof. reflexivity. Qed.

(** Picking the same shape twice deselects it. *)
Example distance_pick_twice :
  selectedShapes
    (run_ops (sample_instance DistanceMeasurement)
       [op_handleSelection 1; op_handleSelection 2; op_handleSelection 1])
  = [].
Proof. reflexivity. Qed.

(** In properties mode a second pick replaces the first. *)
Example properties_two_picks :
  selectedShapes
    (run_ops (sample_instance PropertiesMeasurement)
       [op_handleSelection 1; op_handleSelection 2; op_removeLastSelectedObj;
        op_handleSelection 7])
  = [7].
Proof. reflexivity. Qed.

Lemma selection_invariant_witness :
  let m := run_ops (sample_instance DistanceMeasurement)
             [op_handleSelection 1; op_handleSelection 2; op_handleSelection 3;
              op_removeLastSelectedObj; op_handleSelection 1] in
  NoDup (selectedShapes m) /\
  List.length (selectedShapes m) <= _getMaxObjSelected (mode m) /\
  mode m = mode (sample_instance DistanceMeasurement) /\
  _getMaxObjSelected DistanceMeasurement = 2 /\
  _getMaxObjSelected PropertiesMeasurement = 1 /\
  _getMaxObjSelected AngleMeasurement = 2.
Proof.
  apply (selection_invariant (sample_instance DistanceMeasurement)).
  reflexivity.
Defined.

(** With one of two shapes picked the measurement is hidden. *)
Lemma updateMeasurement_draws_when_full_witness :
  let m := set_selectedShapes [4] (sample_instance DistanceMeasurement) in
  _updateMeasurement m
    = Ok tt (hidden (checked ["/Group/Part/faces/faces_0"%string] m)) /\
  style_display (panel (state_of (_updateMeasurement m))) = display_none /\
  scene (state_of (_updateMeasurement m)) = [] /\
  responseData (state_of (_updateMeasurement m)) = None /\
  texts (panel (state_of (_updateMeasurement m))) = texts (panel m) /\
  rows (panel (state_of (_updateMeasurement m))) = rows (panel m) /\
  placed_at (panel (state_of (_updateMeasurement m))) = placed_at (panel m) /\
  point1 (state_of (_updateMeasurement m)) = point1 m /\
  point2 (state_of (_updateMeasurement m)) = point2 m.
Proof.
  apply (proj1 (updateMeasurement_draws_when_full
                  (set_selectedShapes [4] (sample_instance DistanceMeasurement)))).
  simpl. lia.
Defined.

(** With both shapes picked and the context enabled the two arrows are
    drawn and the panel is shown. *)
Example distance_drawn :
  let m := state_of
             ((enableContext ;;; handleSelection 1 ;;; handleSelection 2)
                (sample_instance DistanceMeasurement)) in
  selectedShapes m = [1; 2] /\
  style_display (panel m) = display_block /\
  List.length (scene m) = 2 /\
  placed_at (panel m) = Some (fin3 1 0 0).
Proof. cbv zeta. repeat split. Qed.

Lemma waitResponse_resolves_with_response_witness :
  poll sample_timeline 0 0 5 = (fulfilled sample_data, 100 * 3).
Proof.
  apply (proj2 (proj2 (proj2 (proj2 (proj2 waitResponse_resolves_with_response))))
           sample_timeline 5 3 sample_data).
  - reflexivity.
  - intros j Hj. unfold sample_timeline.
    destruct (Nat.ltb_spec j 3) as [_|H]; [reflexivity | lia].
  - lia.
Defined.

Example area_stored :
  Properties_handleResponse area_response (sample_instance PropertiesMeasurement)
  = Ok tt (set_responseData (Some sample_data) (sample_instance PropertiesMeasurement)).
Proof.
  unfold Properties_handleResponse, Properties_data.
  cbn [area_response r_vertex_coords r_length r_area r_volume r_center js_truthy truthy].
  rewrite NumFacts.Reqb_false by lra. reflexivity.
Qed.

(** A zero length is dropped and the handler throws. *)
Lemma Properties_handleResponse_truthy_fields_witness :
  let m := sample_instance PropertiesMeasurement in
  (exists msg, Properties_handleResponse zero_length_response m
               = Throw (TypeError msg) m) /\
  (forall a, spread (r_center zero_length_response) = Some a ->
     Properties_handleResponse zero_length_response m =
     Throw (TypeError "cannot set properties of undefined (setting 'center')") m) /\
  responseData (state_of (Properties_handleResponse zero_length_response m))
  = responseData m.
Proof.
  apply (proj2 (proj2 (proj2 (proj2 (proj2
           (Properties_handleResponse_truthy_fields zero_length_response
              (sample_instance PropertiesMeasurement))))))).
  - reflexivity.
  - exact zero_is_falsy.
  - reflexivity.
  - reflexivity.
Defined.

End MeasureFacts.

(** ** Grid: improper ranges and the plane switches *)

Module GridBounds.
Import JSNum NumFacts Grid GridFacts GridPlanes.
#[local] Open Scope R_scope.


Lemma Rleb_spec a b : (Rleb a b = true /\ a <= b) \/ (Rleb a b = false /\ b < a).
Proof.
  unfold Rleb. destruct (Rle_dec a b); [left | right]; split; auto; lra.
Qed.

Lemma niceNumber_NaN round : niceNumber NaN round = NaN.
Proof. destruct round; reflexivity. Qed.

Lemma niceNumber_negative (x : R) round : x < 0 -> niceNumber (Fin x) round = NaN.
Proof.
  intro Hx. unfold niceNumber. cbn [log10].
  rewrite Rltb_false by lra. rewrite Reqb_false by lra.
  destruct round; reflexivity.
Qed.

(** X3: The two improper ranges. A range of width zero is returned unchanged
    with tick 0; a reversed range gives [NaN] for the tick and both bounds,
    whatever the tick count. *)
Theorem niceBounds_improper_range :
  (forall (a : R) (numTicks : option num),
      niceBounds (Fin a) (Fin a) numTicks = (Fin a, Fin a, Fin 0)) /\
  (forall (a b : R) (numTicks : option num),
      b < a -> niceBounds (Fin a) (Fin b) numTicks = (NaN, NaN, NaN)).
Proof.
  split.
  - intros a numTicks. unfold niceBounds. cbn [sub neg add is_zero].
    rewrite Reqb_true by lra. reflexivity.
  - intros a b numTicks Hba. unfold niceBounds. cbn [sub neg add is_zero].
    rewrite Reqb_false by lra. rewrite niceNumber_negative by lra.
    cbn [div]. rewrite niceNumber_NaN. reflexivity.
Qed.

Lemma niceBounds_improper_range_witness :
  niceBounds (Fin 3) (Fin 1) None = (NaN, NaN, NaN).
Proof. apply (proj2 niceBounds_improper_range 3 1 None). lra. Defined.

(** *** The plane switches *)

Lemma computeGrid_consistent p : consistent (computeGrid p).
Proof. split; reflexivity. Qed.


(** X5: From a consistent state: switching one plane twice restores the flags;
    the master switch without a flag turns every plane off if one was on
    and every plane on if none was, with a flag it sets every plane to the
    flag; an unknown action changes no flag. *)
Theorem setGrid_switches (p : Planes) :
  consistent p ->
  (forall action,
      In action ["grid-xy"; "grid-xz"; "grid-yz"]%string ->
      grid (setGrid (setGrid p action None) action None) = grid p /\
      allGrid (setGrid (setGrid p action None) action None) = allGrid p /\
      visible (setGrid (setGrid p action None) action None) = visible p) /\
  (let off := negb (or3 (grid p)) in
   grid (setGrid p "grid" None) = (off, off, off)) /\
  (forall f, grid (setGrid p "grid" (Some f)) = (f, f, f)) /\
  (forall action flag,
      ~ In action ["grid"; "grid-xy"; "grid-xz"; "grid-yz"]%string ->
      grid (setGrid p action flag) = grid p).
Proof.
  intros [Hv Ha]. destruct p as [[[xy xz] yz] all vis tb cb]. simpl in Hv, Ha.
  subst vis all. split; [|split; [|split]].
  - intros action [<-|[<-|[<-|[]]]]; cbn; rewrite ?negb_involutive; repeat split.
  - reflexivity.
  - intro f. reflexivity.
  - intros action flag Hnot. unfold setGrid. cbn [grid].
    destruct (String.eqb_spec action "grid") as [->|_]; [exfalso; apply Hnot; simpl; auto|].
    destruct (String.eqb_spec action "grid-xy") as [->|_]; [exfalso; apply Hnot; simpl; auto|].
    destruct (String.eqb_spec action "grid-xz") as [->|_]; [exfalso; apply Hnot; simpl; auto|].
    destruct (String.eqb_spec action "grid-yz") as [->|_]; [exfalso; apply Hnot; simpl; auto 6|].
    reflexivity.
Qed.

Lemma setGrid_switches_witness :
  let p := initial_planes (true, false, false) in
  (forall action,
      In action ["grid-xy"; "grid-xz"; "grid-yz"]%string ->
      grid (setGrid (setGrid p action None) action None) = grid p /\
      allGrid (setGrid (setGrid p action None) action None) = allGrid p /\
      visible (setGrid (setGrid p action None) action None) = visible p) /\
  (let off := negb (or3 (grid p)) in
   grid (setGrid p "grid" None) = (off, off, off)) /\
  (forall f, grid (setGrid p "grid" (Some f)) = (f, f, f)) /\
  (forall action flag,
      ~ In action ["grid"; "grid-xy"; "grid-xz"; "grid-yz"]%string ->
      grid (setGrid p action flag) = grid p).
Proof.
  apply (setGrid_switches (initial_planes (true, false, false))).
  split; reflexivity.
Defined.

End GridBounds.

(** ** Camera: setters, switching and projection *)

Module CameraMore.
Import JSNum NumFacts Three VectorFacts Camera CameraFacts Projection.
#[local] Open Scope R_scope.

(** *** The projection sizes *)




(** *** Absolute setters *)

Lemma getPosition_with_set_position p c :
  getPosition (with_camera (set_position p) c) = p.
Proof. unfold getPosition; rewrite camera_with_camera; reflexivity. Qed.

(** X7: [setPosition] with an absolute position and [setQuaternion] store what
    they are given, as a three.js object or as an array of the right
    length, and [getPosition], [getQuaternion] read it back; an array of
    another length or a value of another type leaves the camera as it was.
    Neither setter touches the other's datum. *)
Theorem setters_round_trip (c : Camera) :
  (forall v, getPosition (setPosition c (PosVector3 v) false) = v) /\
  (forall x y z, getPosition (setPosition c (PosArray [x; y; z]) false) = V3 x y z) /\
  (forall q, getQuaternion (setQuaternion c (QuatQuaternion q)) = q) /\
  (forall x y z w,
      getQuaternion (setQuaternion c (QuatArray [x; y; z; w])) = Q4 x y z w) /\
  (forall a relative, List.length a <> 3%nat -> setPosition c (PosArray a) relative = c) /\
  (forall a, List.length a <> 4%nat -> setQuaternion c (QuatArray a) = c) /\
  (forall relative, setPosition c PosOther relative = c) /\
  setQuaternion c QuatOther = c /\
  (forall arg, getQuaternion (setPosition c arg false) = getQuaternion c) /\
  (forall arg, getPosition (setQuaternion c arg) = getPosition c).
Proof.
  repeat split.
  - intro v. unfold setPosition, setupCamera. rewrite Vector3_of_toArray.
    apply getPosition_with_set_position.
  - intros x y z. unfold setPosition, setupCamera. cbn [List.length Nat.eqb].
    rewrite Vector3_of_toArray. apply getPosition_with_set_position.
  - intro q. unfold setQuaternion, setupCamera, getQuaternion.
    rewrite camera_with_camera. reflexivity.
  - intros x y z w. unfold setQuaternion, setupCamera, getQuaternion.
    cbn [List.length Nat.eqb]. rewrite camera_with_camera. reflexivity.
  - intros a relative H. unfold setPosition. apply Nat.eqb_neq in H.
    rewrite H. reflexivity.
  - intros a H. unfold setQuaternion. apply Nat.eqb_neq in H. rewrite H. reflexivity.
  - intro arg. unfold setPosition, setupCamera, getQuaternion.
    destruct arg as [a|v|]; [destruct (Nat.eqb _ _)| |];
      rewrite ?camera_with_camera; reflexivity.
  - intro arg. unfold setQuaternion, setupCamera, getPosition.
    destruct arg as [a|q|]; [destruct (Nat.eqb _ _)| |];
      rewrite ?camera_with_camera; reflexivity.
Qed.

(** *** Keys and presets *)

Section WithLookAt.

Variable lookAt : Vector3 -> Vector3 -> Vector3 -> Quaternion.

Lemma lookup_direction_missing dir :
  lookup_direction dir = missing <->
  ~ In dir (["iso"; "front"; "rear"; "left"; "right"; "top"; "bottom"]%string
            ++ inherited_keys)%list.
Proof.
  unfold lookup_direction, direction_of_string.
  destruct (String.eqb_spec dir "iso") as [->|H1];
    [split; [discriminate | intro H; exfalso; apply H; simpl; auto]|].
  destruct (String.eqb_spec dir "front") as [->|H2];
    [split; [discriminate | intro H; exfalso; apply H; simpl; auto]|].
  destruct (String.eqb_spec dir "rear") as [->|H3];
    [split; [discriminate | intro H; exfalso; apply H; simpl; auto]|].
  destruct (String.eqb_spec dir "left") as [->|H4];
    [split; [discriminate | intro H; exfalso; apply H; simpl; auto]|].
  destruct (String.eqb_spec dir "right") as [->|H5];
    [split; [discriminate | intro H; exfalso; apply H; simpl; auto 6]|].
  destruct (String.eqb_spec dir "top") as [->|H6];
    [split; [discriminate | intro H; exfalso; apply H; simpl; auto 7]|].
  destruct (String.eqb_spec dir "bottom") as [->|H7];
    [split; [discriminate | intro H; exfalso; apply H; simpl; auto 8]|].
  destruct (existsb (String.eqb dir) inherited_keys) eqn:E.
  - split; [discriminate|]. intro H. exfalso. apply H.
    apply in_or_app. right. apply existsb_exists in E.
    destruct E as (k & Hk & Ek). apply String.eqb_eq in Ek. subst k. exact Hk.
  - split; [|reflexivity]. intros _ H. apply in_app_or in H.
    destruct H as [H|H].
    + destruct H as [H|[H|[H|[H|[H|[H|[H|[]]]]]]]]; congruence.
    + assert (F : existsb (String.eqb dir) inherited_keys = true).
      { apply existsb_exists. exists dir. split; [exact H | apply String.eqb_refl]. }
      congruence.
Qed.

Lemma lookup_direction_inherited dir :
  In dir inherited_keys -> lookup_direction dir = inherited.
Proof.
  intro H. unfold inherited_keys in H. simpl in H.
  repeat (destruct H as [<-|H]; [reflexivity|]). contradiction.
Qed.

(** X10: The constructor throws exactly on an [up] key other than "Y", "Z" and
    "L". [presetCamera] throws exactly on a name that is neither one of the
    seven presets nor a member every object inherits from
    [Object.prototype]. On such a member ("constructor", "toString", ...) it
    returns: the position is the one [setZoom] leaves, and the four
    components of the quaternion of the current camera are [NaN]. *)
Theorem unknown_keys_throw :
  (forall w h d tgt o up_key,
      constructor lookAt w h d tgt o up_key = None <->
      ~ In up_key ["Y"; "Z"; "L"]%string) /\
  (forall c dir zoom_arg,
      presetCamera lookAt c dir zoom_arg = None <->
      ~ In dir (["iso"; "front"; "rear"; "left"; "right"; "top"; "bottom"]%string
                ++ inherited_keys)%list) /\
  (forall c dir zoom_arg,
      In dir inherited_keys ->
      exists c',
        presetCamera lookAt c dir zoom_arg = Some c' /\
        getQuaternion c' = Q4 NaN NaN NaN NaN /\
        getPosition c' =
        getPosition
          (setZoom c (match zoom_arg with Some z => z | None => zoom (camera c) end))).
Proof.
  split; [|split].
  - intros w h d tgt o up_key. unfold constructor, mapping.
    destruct (String.eqb_spec up_key "Y") as [->|H1];
      [split; [discriminate | intro H; exfalso; apply H; simpl; auto]|].
    destruct (String.eqb_spec up_key "Z") as [->|H2];
      [split; [discriminate | intro H; exfalso; apply H; simpl; auto]|].
    destruct (String.eqb_spec up_key "L") as [->|H3];
      [split; [discriminate | intro H; exfalso; apply H; simpl; auto]|].
    split; [|reflexivity]. intros _ [H|[H|[H|[]]]]; congruence.
  - intros c dir zoom_arg. rewrite <- lookup_direction_missing.
    unfold presetCamera. cbv zeta.
    destruct (lookup_direction dir) as [d| |].
    + split; [destruct (negb _); discriminate | discriminate].
    + split; discriminate.
    + split; reflexivity.
  - intros c dir zoom_arg H. unfold presetCamera. cbv zeta.
    rewrite (lookup_direction_inherited dir H).
    eexists. split; [reflexivity|]. split.
    + unfold setQuaternion, setupCamera, getQuaternion.
      rewrite camera_with_camera. cbn [quaternion set_quaternion].
      destruct (quaternion _) as [bx by_ bz bw]. reflexivity.
    + unfold setQuaternion, lookAtTarget, getPosition.
      unfold setupCamera at 1. rewrite !camera_with_camera. reflexivity.
Qed.

(** X11: [presetCamera] works on the current three.js camera only: the
    target, the mode, the up convention, the camera distance and the camera
    that is not in use are left as they were, and so is the up vector of the
    current camera. In orthographic mode the zoom passed (or else the
    current one) is stored, and it is what [getZoom] reports afterwards; the
    zoom property of the perspective camera is never written. *)
Theorem presetCamera_frame (c c' : Camera) (dir : string) (zoom_arg : option num) :
  presetCamera lookAt c dir zoom_arg = Some c' ->
  target c' = target c /\ ortho c' = ortho c /\ up c' = up c /\
  camera_distance c' = camera_distance c /\
  cam_up (camera c') = cam_up (camera c) /\
  (ortho c = true ->
   pCamera c' = pCamera c /\
   zoom (oCamera c') = match zoom_arg with Some z => z | None => zoom (oCamera c) end /\
   getZoom c' = match zoom_arg with Some z => z | None => zoom (oCamera c) end) /\
  (ortho c = false ->
   oCamera c' = oCamera c /\ zoom (pCamera c') = zoom (pCamera c)).
Proof.
  unfold presetCamera. cbv zeta.
  destruct (lookup_direction dir) as [d| |]; [| |discriminate].
  - destruct c as [t o u cd pc oc].
    destruct o; destruct (negb _); intro H; inversion H; subst c'; clear H;
      repeat split; try discriminate; destruct zoom_arg; reflexivity.
  - destruct c as [t o u cd pc oc].
    destruct o; intro H; inversion H; subst c'; clear H;
      repeat split; try discriminate; destruct zoom_arg; reflexivity.
Qed.

End WithLookAt.

Lemma unknown_keys_throw_witness :
  exists c',
    presetCamera lookAt_identity fresh_orthographic "constructor" (Some (Fin 3))
    = Some c' /\
    getQuaternion c' = Q4 NaN NaN NaN NaN /\
    getPosition c' = getPosition (setZoom fresh_orthographic (Fin 3)).
Proof.
  apply (proj2 (proj2 (unknown_keys_throw lookAt_identity))
           fresh_orthographic "constructor"%string (Some (Fin 3))).
  simpl. auto.
Defined.

Lemma presetCamera_frame_witness :
  exists c',
    presetCamera lookAt_identity fresh_orthographic (direction_name top)
      (Some (Fin 3)) = Some c' /\
    target c' = target fresh_orthographic /\ ortho c' = ortho fresh_orthographic /\
    up c' = up fresh_orthographic /\
    camera_distance c' = camera_distance fresh_orthographic /\
    cam_up (camera c') = cam_up (camera fresh_orthographic) /\
    (ortho fresh_orthographic = true ->
     pCamera c' = pCamera fresh_orthographic /\
     zoom (oCamera c') = Fin 3 /\ getZoom c' = Fin 3) /\
    (ortho fresh_orthographic = false ->
     oCamera c' = oCamera fresh_orthographic /\
     zoom (pCamera c') = zoom (pCamera fresh_orthographic)).
Proof.
  destruct (presetCamera_position lookAt_identity fresh_orthographic top
              (Some (Fin 3))) as (c' & E & _).
  exists c'. split; [exact E|].
  exact (presetCamera_frame lookAt_identity fresh_orthographic c'
           (direction_name top) (Some (Fin 3)) E).
Defined.

End CameraMore.

(** ** Raycaster: hits, pointer and keys, picked objects *)

Module RaycasterMore.
Import JSNum NumFacts Three Raycaster RaycasterFacts Pointer.
#[local] Open Scope R_scope.

(** X12: What [getValidIntersectedObjs] can return: nothing before the pointer
    has moved; afterwards, with the constructor's filters, the visible hits
    close to the ray that have a parent, in the order of the intersections;
    and with any filters only such hits, each one an intersection, visible,
    with a parent, and at a distance to the ray below 0.03 when it has
    one. *)
Theorem validIntersectedObjs_hits :
  (forall w h objects, validIntersectedObjs (constructor w h) objects = []) /\
  (forall p rx ry sx sy px py objects,
      filters p = initial_filters ->
      validIntersectedObjs (onPointerMove p rx ry sx sy px py) objects
      = filter (fun o => examined o && has_parent o) objects) /\
  (forall p objects o,
      In o (validIntersectedObjs p objects) ->
      mouseMoved p = true /\ In o objects /\ material_visible o = true /\
      parent o <> None /\
      match distanceToRay o with
      | None => True
      | Some d => lt d (Fin 0.03) = true
      end).
Proof.
  split; [reflexivity|]. split.
  - intros p rx ry sx sy px py objects Hf.
    unfold validIntersectedObjs, onPointerMove, getValidIntersectedObjs.
    cbn [mouseMoved filters]. rewrite Hf, collect_filter.
    apply filter_ext. intro o. unfold has_parent.
    destruct (parent o); reflexivity.
  - intros p objects o. unfold validIntersectedObjs, getValidIntersectedObjs.
    destruct (mouseMoved p); [|intros []].
    rewrite collect_filter, filter_In. intros [Hin H].
    apply andb_true_iff in H. destruct H as [He Hp].
    unfold examined in He. apply andb_true_iff in He. destruct He as [Hv Hd].
    split; [reflexivity|]. split; [exact Hin|]. split; [exact Hv|]. split.
    + destruct (parent o); [discriminate | discriminate].
    + destruct (distanceToRay o); [exact Hd | exact I].
Qed.

(** *** The pointer in normalised device coordinates *)



(** *** Clicks and keys *)

Lemma equals_fin a b c x y z :
  equals (fin3 a b c) (fin3 x y z) = true <-> (a, b, c) = (x, y, z).
Proof.
  unfold equals, fin3, strict_eq. cbn [vx vy vz]. unfold Reqb.
  destruct (Req_dec_T x a), (Req_dec_T y b), (Req_dec_T z c); cbn;
    split; intro H; try discriminate; try (inversion H; congruence);
    subst; reflexivity.
Qed.

(** X14: While picking is on, pressing and releasing the left or the right
    button reports a click exactly when the (finite) camera position is the
    same at both events, that is, when the camera was not dragged in
    between; nothing else of the picker changes but the remembered
    position. *)
Theorem click_needs_still_camera (p : Picker) (button : nat)
  (dx dy dz ux uy uz : R) :
  raycastMode p = true ->
  button = MOUSE_LEFT \/ button = MOUSE_RIGHT ->
  exists p',
    onMouseKeyUp (onMouseKeyDown p button (fin3 dx dy dz)) button (fin3 ux uy uz)
    = Some p' /\
    lastPosition p' = Some (fin3 dx dy dz) /\
    ((dx, dy, dz) = (ux, uy, uz) ->
     calls p' = cb_mouse (button_name button) :: calls p) /\
    ((dx, dy, dz) <> (ux, uy, uz) -> calls p' = calls p).
Proof.
  intros Hr Hb.
  assert (Hup : onMouseKeyUp (onMouseKeyDown p button (fin3 dx dy dz)) button
                  (fin3 ux uy uz)
                = Some (if equals (fin3 dx dy dz) (fin3 ux uy uz)
                        then callback (cb_mouse (button_name button))
                               (onMouseKeyDown p button (fin3 dx dy dz))
                        else onMouseKeyDown p button (fin3 dx dy dz))).
  { unfold onMouseKeyDown, onMouseKeyUp. rewrite Hr.
    destruct Hb as [-> | ->]; cbn; rewrite ?Hr; reflexivity. }
  assert (Hdown : lastPosition (onMouseKeyDown p button (fin3 dx dy dz))
                  = Some (fin3 dx dy dz) /\
                  calls (onMouseKeyDown p button (fin3 dx dy dz)) = calls p).
  { unfold onMouseKeyDown. rewrite Hr. destruct Hb as [-> | ->]; split; reflexivity. }
  destruct Hdown as [Hl Hc]. rewrite Hup.
  destruct (equals (fin3 dx dy dz) (fin3 ux uy uz)) eqn:E.
  - apply equals_fin in E. eexists. split; [reflexivity|].
    split; [exact Hl|]. split; intro H.
    + cbn [calls callback]. rewrite Hc. reflexivity.
    + contradiction.
  - assert (E' : (dx, dy, dz) <> (ux, uy, uz)).
    { intro H. apply equals_fin in H. congruence. }
    eexists. split; [reflexivity|]. split; [exact Hl|]. split; intro H.
    + contradiction.
    + exact Hc.
Qed.

Lemma click_needs_still_camera_witness :
  exists p',
    onMouseKeyUp (onMouseKeyDown (init (constructor (Fin 800) (Fin 600)))
                    MOUSE_LEFT (fin3 1 2 3)) MOUSE_LEFT (fin3 1 2 3)
    = Some p' /\
    lastPosition p' = Some (fin3 1 2 3) /\
    ((1, 2, 3) = (1, 2, 3) ->
     calls p' = cb_mouse (button_name MOUSE_LEFT)
                  :: calls (init (constructor (Fin 800) (Fin 600)))) /\
    ((1, 2, 3) <> (1, 2, 3) ->
     calls p' = calls (init (constructor (Fin 800) (Fin 600)))).
Proof.
  apply (click_needs_still_camera (init (constructor (Fin 800) (Fin 600)))
           MOUSE_LEFT 1 2 3 1 2 3).
  - reflexivity.
  - left. reflexivity.
Defined.

(** X15: When picking is off (before [init], after [dispose]) no handler reports
    or changes anything. When it is on, the middle button is ignored,
    releasing the left or right button before any was pressed throws, and
    of the keys only Backspace and Escape are reported. *)
Theorem handlers_edge_cases :
  (forall p button pos key,
      raycastMode p = false ->
      onMouseKeyDown p button pos = p /\
      onMouseKeyUp p button pos = Some p /\
      onKeyDown p key = p) /\
  (forall p, raycastMode (dispose p) = false) /\
  (forall w h, raycastMode (constructor w h) = false) /\
  (forall p pos,
      onMouseKeyDown p MOUSE_MIDDLE pos = p /\
      onMouseKeyUp p MOUSE_MIDDLE pos = Some p) /\
  (forall w h button pos,
      button = MOUSE_LEFT \/ button = MOUSE_RIGHT ->
      onMouseKeyUp (init (constructor w h)) button pos = None) /\
  (forall p key,
      raycastMode p = true ->
      calls (onKeyDown p key) =
      if String.eqb key "Backspace" then cb_key "Backspace" :: calls p
      else if String.eqb key "Escape" then cb_key "Escape" :: calls p
      else calls p).
Proof.
  split; [|split; [|split; [|split; [|split]]]].
  - intros p button pos key Hr. unfold onMouseKeyDown, onMouseKeyUp, onKeyDown.
    rewrite Hr. repeat split.
  - reflexivity.
  - reflexivity.
  - intros p pos. unfold onMouseKeyDown, onMouseKeyUp.
    destruct (raycastMode p); split; reflexivity.
  - intros w h button pos [-> | ->]; reflexivity.
  - intros p key Hr. unfold onKeyDown. rewrite Hr.
    destruct (String.eqb key "Backspace"); [reflexivity|].
    destruct (String.eqb key "Escape"); reflexivity.
Qed.

(** *** Picked objects *)

Import Picked.
#[local] Open Scope string_scope.

Lemma find_child_some wanted cs c :
  find_child wanted cs = Some c <->
  exists before after,
    cs = (before ++ c :: after)%list /\ name c = wanted /\
    forall b, In b before -> name b <> wanted.
Proof.
  revert c. induction cs as [|x cs IH]; intro c; simpl.
  - split; [discriminate|]. intros (before & after & E & _).
    destruct before; discriminate.
  - destruct (String.eqb_spec (name x) wanted) as [Hx|Hx].
    + split.
      * intro H; inversion H; subst. exists [], cs.
        split; [reflexivity|]. split; [reflexivity|]. intros b [].
      * intros (before & after & E & Hc & Hb). destruct before as [|b0 before].
        -- inversion E; reflexivity.
        -- inversion E; subst. exfalso. apply (Hb b0); [left; reflexivity | reflexivity].
    + rewrite IH. split.
      * intros (before & after & E & Hc & Hb). exists (x :: before), after.
        subst cs. split; [reflexivity|]. split; [exact Hc|].
        intros b [<-|Hin]; [exact Hx | apply Hb, Hin].
      * intros (before & after & E & Hc & Hb). destruct before as [|b0 before].
        -- inversion E; subst. contradiction.
        -- inversion E; subst. exists before, after.
           split; [reflexivity|]. split; [reflexivity|].
           intros b Hin. apply Hb. right. exact Hin.
Qed.

Lemma find_child_none wanted cs :
  find_child wanted cs = None <-> forall c, In c cs -> name c <> wanted.
Proof.
  induction cs as [|x cs IH]; simpl.
  - split; [intros _ c [] | reflexivity].
  - destruct (String.eqb_spec (name x) wanted) as [Hx|Hx].
    + split; [discriminate|]. intro H. exfalso. apply (H x); auto.
    + rewrite IH. split.
      * intros H c [<-|Hin]; [exact Hx | apply H, Hin].
      * intros H c Hin. apply H. right. exact Hin.
Qed.

(** X16: [objs()] of a pick that is not from a solid is the picked object
    alone. For a pick from a solid it is the children of the first child of
    the solid group that is named after the group with the suffix "|faces",
    and the call throws exactly when the group has no such child (or when
    the group itself is missing). *)
Theorem objs_of_pick (p : PickedObject) :
  (fromSolid p = false -> objs p = Some [obj p]) /\
  (fromSolid p = true -> obj_grandparent p = None -> objs p = None) /\
  (forall g,
      fromSolid p = true -> obj_grandparent p = Some g ->
      (forall l,
          objs p = Some l <->
          exists before faces after,
            children g = (before ++ faces :: after)%list /\
            name faces = name g ++ "|faces" /\
            (forall b, In b before -> name b <> name g ++ "|faces") /\
            l = children faces) /\
      (objs p = None <->
       forall c, In c (children g) -> name c <> name g ++ "|faces")).
Proof.
  unfold objs, _getSolidObjectGroups. split; [intros ->; reflexivity|].
  split; [intros -> ->; reflexivity|].
  intros g -> ->. split.
  - intro l. destruct (find_child _ _) as [f|] eqn:E.
    + apply find_child_some in E. destruct E as (before & after & E & Hn & Hb).
      split.
      * intro H; inversion H; subst l. exists before, f, after. auto.
      * intros (before' & f' & after' & E' & Hn' & Hb' & ->).
        assert (Hf : find_child (name g ++ "|faces") (children g) = Some f').
        { apply find_child_some. exists before', after'. auto. }
        assert (Hf0 : find_child (name g ++ "|faces") (children g) = Some f).
        { apply find_child_some. exists before, after. auto. }
        rewrite Hf in Hf0. inversion Hf0. reflexivity.
    + split; [discriminate|].
      intros (before' & f' & after' & E' & Hn' & Hb' & ->).
      assert (Hf : find_child (name g ++ "|faces") (children g) = Some f').
      { apply find_child_some. exists before', after'. auto. }
      rewrite Hf in E. discriminate.
  - destruct (find_child _ _) as [f|] eqn:E.
    + split; [discriminate|]. intro H. apply find_child_none in H.
      rewrite H in E. discriminate.
    + split; [intros _; apply find_child_none, E | reflexivity].
Qed.

End RaycasterMore.

(** ** Measurement: selection, drawing and responses *)

Module MeasureMore.
Import JSNum Three Measure MeasureFrame.
#[local] Open Scope list_scope.

(** *** Frames *)

Lemma untouched_ret {A B} (proj : Measurement -> B) (a : A) : untouched proj (ret a).
Proof. intro m; reflexivity. Qed.

Lemma untouched_throw {A B} (proj : Measurement -> B) e : untouched proj (@throw A e).
Proof. intro m; reflexivity. Qed.

Lemma untouched_get {B} (proj : Measurement -> B) : untouched proj get.
Proof. intro m; reflexivity. Qed.

Lemma untouched_require {A B} (proj : Measurement -> B) (o : option A) msg :
  untouched proj (require o msg).
Proof. destruct o; intro m; reflexivity. Qed.

Lemma untouched_modify {B} (proj : Measurement -> B) f :
  (forall m, proj (f m) = proj m) -> untouched proj (modify f).
Proof. intros H m; apply H. Qed.

Lemma untouched_bind {A B C} (proj : Measurement -> C) (c : M A) (k : A -> M B) :
  untouched proj c -> (forall a, untouched proj (k a)) -> untouched proj (bind c k).
Proof.
  intros Hc Hk m. unfold bind. specialize (Hc m).
  destruct (c m) as [a m'|e m']; simpl in Hc.
  - rewrite (Hk a m'). exact Hc.
  - exact Hc.
Qed.

Ltac untouched_step :=
  match goal with
  | |- untouched _ (bind _ _) => apply untouched_bind; [|intro]
  | |- untouched _ (modify _) => apply untouched_modify; intro; reflexivity
  | |- untouched _ (ret _) => apply untouched_ret
  | |- untouched _ (throw _) => apply untouched_throw
  | |- untouched _ get => apply untouched_get
  | |- untouched _ (require _ _) => apply untouched_require
  | |- untouched _ (if ?b then _ else _) => destruct b
  | |- untouched _ (match ?x with _ => _ end) => destruct x
  end.

Ltac unfold_drawing :=
  unfold render, _setMeasurementVals, _makeLines, _movePanel,
    Distance_setMeasurementVals, Properties_setMeasurementVals,
    Angle_setMeasurementVals, Distance_makeLines, Properties_makeLines,
    Angle_makeLines, _getPoints, _hideRows, connect_panel, middle_of_points,
    required_responseData, shape_center, response_point, toFixed2,
    new_DistanceLineArrow, new_CurvedLineArrow, scene_add, panel_text,
    panel_row, panel_display; cbv zeta.

Ltac unfold_selection :=
  unfold handleSelection, removeLastSelectedObj, pop, _updateMeasurement,
    _hideMeasurement, checkChanges; unfold_drawing.

Ltac untouched_tac := repeat untouched_step.

Lemma render_notified : untouched notified render.
Proof. unfold_drawing. untouched_tac. Qed.

Lemma render_cleared : untouched cleared render.
Proof. unfold_drawing. untouched_tac. Qed.

Lemma render_responseData : untouched responseData render.
Proof. unfold_drawing. untouched_tac. Qed.

Lemma render_contextEnabled : untouched contextEnabled render.
Proof. unfold_drawing. untouched_tac. Qed.

Lemma render_panelCenter : untouched panelCenter render.
Proof. unfold_drawing. untouched_tac. Qed.

Lemma handleSelection_contextEnabled o : untouched contextEnabled (handleSelection o).
Proof. unfold_selection. untouched_tac. Qed.

Lemma removeLastSelectedObj_contextEnabled : untouched contextEnabled removeLastSelectedObj.
Proof. unfold_selection. untouched_tac. Qed.

(** *** [_updateMeasurement] *)

Lemma updateMeasurement_hides m :
  List.length (selectedShapes m) <> _getMaxObjSelected (mode m) ->
  _updateMeasurement m = Ok tt (hidden (checked (ids_of m) m)).
Proof.
  intro H. apply Nat.eqb_neq in H.
  unfold _updateMeasurement, bind, get, checkChanges, modify.
  rewrite H. reflexivity.
Qed.

Lemma updateMeasurement_renders m :
  List.length (selectedShapes m) = _getMaxObjSelected (mode m) ->
  _updateMeasurement m = render (checked (ids_of m) m).
Proof.
  intro H. apply Nat.eqb_eq in H.
  unfold _updateMeasurement, bind, get, checkChanges, modify.
  rewrite H. reflexivity.
Qed.

Lemma chars_replace_bars s : ~ In "|"%char (chars (replace_bars s)).
Proof.
  induction s as [|c s IH]; simpl; [tauto|].
  intros [H|H]; [|exact (IH H)].
  destruct (Ascii.eqb c "|") eqn:E; [discriminate H|].
  apply Ascii.eqb_neq in E. congruence.
Qed.

Lemma length_replace_bars s : String.length (replace_bars s) = String.length s.
Proof. induction s as [|c s IH]; simpl; congruence. Qed.

(** A part of the instance that neither the drawing nor the hiding
    touches is, after [_updateMeasurement], what [checkChanges] left. *)
Lemma updateMeasurement_frame {B} (proj : Measurement -> B) m :
  untouched proj render ->
  (forall x, proj (hidden x) = proj x) ->
  proj (state_of (_updateMeasurement m)) = proj (checked (ids_of m) m).
Proof.
  intros Hr Hh.
  destruct (Nat.eq_dec (List.length (selectedShapes m))
                       (_getMaxObjSelected (mode m))) as [E|E].
  - rewrite (updateMeasurement_renders m E). apply Hr.
  - rewrite (updateMeasurement_hides m E). simpl state_of. apply Hh.
Qed.

(** X17: Every call of [_updateMeasurement] reports the selection to the viewer
    exactly once, also when the drawing that follows throws: one id per
    selected shape, in the order of the selection, each the shape's name
    with no ["|"] left in it and of the same length. The call clears no
    highlight and leaves [contextEnabled] and [panelCenter] as they were. *)
Theorem updateMeasurement_notifies_once (m : Measurement) :
  let m' := state_of (_updateMeasurement m) in
  notified m' = ids_of m :: notified m /\
  List.length (ids_of m) = List.length (selectedShapes m) /\
  (forall i o, nth_error (selectedShapes m) i = Some o ->
     exists id, nth_error (ids_of m) i = Some id /\
                ~ In "|"%char (chars id) /\
                String.length id = String.length (name (shapes m o))) /\
  cleared m' = cleared m /\
  contextEnabled m' = contextEnabled m /\
  panelCenter m' = panelCenter m.
Proof.
  cbv zeta.
  split; [|split; [|split; [|split; [|split]]]].
  - apply (updateMeasurement_frame notified m render_notified). reflexivity.
  - unfold ids_of. apply length_map.
  - intros i o Hi. unfold ids_of.
    exists (replace_bars (name (shapes m o))). split; [|split].
    + rewrite nth_error_map, Hi. reflexivity.
    + apply chars_replace_bars.
    + apply length_replace_bars.
  - apply (updateMeasurement_frame cleared m render_cleared). reflexivity.
  - apply (updateMeasurement_frame contextEnabled m render_contextEnabled). reflexivity.
  - apply (updateMeasurement_frame panelCenter m render_panelCenter). reflexivity.
Qed.

(** *** The selection *)

Lemma length_removelast_nat (l : list ObjectGroup) :
  List.length (removelast l) = List.length l - 1.
Proof.
  destruct l as [|x l] using rev_ind; [reflexivity|].
  rewrite removelast_last, length_app; simpl; lia.
Qed.

Lemma max_pos md : 1 <= _getMaxObjSelected md.
Proof. destruct md; simpl; lia. Qed.

Lemma pop_last (l : list ObjectGroup) a :
  nth_error (l ++ [a]) (List.length (l ++ [a]) - 1) = Some a.
Proof.
  rewrite length_app. simpl.
  replace (List.length l + 1 - 1) with (List.length l) by lia.
  rewrite nth_error_app2 by lia. rewrite Nat.sub_diag. reflexivity.
Qed.

(** The state [removeLastSelectedObj] hands to [_updateMeasurement]. *)
Lemma removeLastSelectedObj_unfold m :
  removeLastSelectedObj m =
  _updateMeasurement
    (let m1 := set_selectedShapes (removelast (selectedShapes m)) m in
     match nth_error (selectedShapes m) (List.length (selectedShapes m) - 1) with
     | Some o => add_cleared o m1
     | None => m1
     end).
Proof.
  unfold removeLastSelectedObj, pop, bind, get, modify, ret.
  destruct (nth_error _ _); reflexivity.
Qed.

(** The instance as [removeLastSelectedObj] leaves it before it calls
    [_updateMeasurement]. *)
Lemma popped_spec m :
  let m1 := set_selectedShapes (removelast (selectedShapes m)) m in
  let m2 := match nth_error (selectedShapes m) (List.length (selectedShapes m) - 1) with
            | Some o => add_cleared o m1
            | None => m1
            end in
  selectedShapes m2 = removelast (selectedShapes m) /\
  mode m2 = mode m /\
  (selectedShapes m = [] -> cleared m2 = cleared m) /\
  (forall rest a, selectedShapes m = rest ++ [a] ->
     selectedShapes m2 = rest /\ cleared m2 = a :: cleared m) /\
  notified m2 = notified m.
Proof.
  cbv zeta.
  destruct (selectedShapes m) as [|x l0] eqn:El using rev_ind.
  - simpl. split; [reflexivity|]. split; [reflexivity|]. split; [reflexivity|].
    split; [|reflexivity]. intros rest a E. destruct rest; discriminate.
  - clear IHl0. rewrite pop_last.
    cbn [selectedShapes add_cleared set_selectedShapes mode cleared notified].
    split; [reflexivity|]. split; [reflexivity|].
    split; [intro E; destruct l0; discriminate|].
    split; [|reflexivity].
    intros rest a E. apply app_inj_tail in E. destruct E as [-> ->].
    split; [apply removelast_last | reflexivity].
Qed.

Lemma removeLastSelectedObj_returns m :
  List.length (selectedShapes m) <= _getMaxObjSelected (mode m) ->
  exists m2,
    removeLastSelectedObj m = Ok tt (hidden (checked (ids_of m2) m2)) /\
    selectedShapes m2 = removelast (selectedShapes m) /\
    mode m2 = mode m /\
    (selectedShapes m = [] -> cleared m2 = cleared m) /\
    (forall rest a, selectedShapes m = rest ++ [a] ->
       selectedShapes m2 = rest /\ cleared m2 = a :: cleared m) /\
    notified m2 = notified m.
Proof.
  intro Hlen. rewrite removeLastSelectedObj_unfold.
  pose proof (popped_spec m) as H. cbv zeta in H |- *.
  destruct H as (Hs & Hmd & Hc0 & Hc1 & Hn).
  eexists. split; [|split; [exact Hs|split; [exact Hmd|split; [exact Hc0|split;
                     [exact Hc1|exact Hn]]]]].
  apply updateMeasurement_hides. rewrite Hs, Hmd, length_removelast_nat.
  pose proof (max_pos (mode m)). lia.
Qed.

(** X18: As long as the selection holds no more shapes than the mode handles,
    [removeLastSelectedObj] returns: it drops the last selected shape,
    clears that shape's highlight (nothing when the selection was empty),
    reports the shortened selection and hides the measurement. *)
Theorem removeLastSelectedObj_hides (m : Measurement) :
  List.length (selectedShapes m) <= _getMaxObjSelected (mode m) ->
  exists m',
    removeLastSelectedObj m = Ok tt m' /\
    selectedShapes m' = removelast (selectedShapes m) /\
    (selectedShapes m = [] -> cleared m' = cleared m) /\
    (forall rest a, selectedShapes m = rest ++ [a] ->
       selectedShapes m' = rest /\ cleared m' = a :: cleared m) /\
    notified m' = ids_of m' :: notified m /\
    responseData m' = None /\
    style_display (panel m') = display_none /\
    scene m' = [] /\
    mode m' = mode m.
Proof.
  intro Hlen.
  destruct (removeLastSelectedObj_returns m Hlen)
    as (m2 & H & Hs & Hmd & Hc0 & Hc1 & Hn).
  exists (hidden (checked (ids_of m2) m2)). split; [exact H|].
  split; [exact Hs|]. split; [exact Hc0|]. split; [exact Hc1|].
  split; [|split; [reflexivity|split; [reflexivity|split; [reflexivity|exact Hmd]]]].
  cbn [hidden checked add_notified notified set_scene set_panel set_responseData].
  rewrite Hn. reflexivity.
Qed.

Lemma removeLastSelectedObj_hides_witness :
  exists m',
    removeLastSelectedObj (set_selectedShapes [4; 7] (sample_instance DistanceMeasurement))
    = Ok tt m' /\
    selectedShapes m' = [4] /\ cleared m' = [7] /\ scene m' = [].
Proof.
  destruct (removeLastSelectedObj_hides
              (set_selectedShapes [4; 7] (sample_instance DistanceMeasurement)))
    as (m' & H & Hs & _ & Hc & _ & _ & _ & Hsc & _).
  - simpl. lia.
  - exists m'. destruct (Hc [4] 7 eq_refl) as [H1 H2].
    split; [exact H|]. split; [exact H1|]. split; [exact H2 | exact Hsc].
Defined.

Lemma handleSelection_selection o m :
  selectedShapes (state_of (handleSelection o m))
  = toggle o (if Nat.eqb (List.length (selectedShapes m))
                         (_getMaxObjSelected (mode m))
              then removelast (selectedShapes m)
              else selectedShapes m) /\
  mode (state_of (handleSelection o m)) = mode m.
Proof.
  rewrite MeasureFacts.handleSelection_eq.
  destruct (Nat.eqb _ _) eqn:E.
  - apply Nat.eqb_eq in E.
    destruct (removeLastSelectedObj_returns (hidden m)) as (m2 & H & Hs & Hmd & _).
    { change (selectedShapes (hidden m)) with (selectedShapes m).
      change (mode (hidden m)) with (mode m). lia. }
    rewrite H.
    change (selectedShapes (hidden m)) with (selectedShapes m) in Hs.
    change (mode (hidden m)) with (mode m) in Hmd.
    match goal with
    | |- context [_updateMeasurement ?x] =>
        destruct (MeasureFacts.updateMeasurement_sel x) as [H1 H2]
    end.
    rewrite H1, H2.
    cbn [hidden checked add_notified set_scene set_panel set_responseData
           set_selectedShapes selectedShapes mode].
    rewrite Hs, Hmd. split; reflexivity.
  - match goal with
    | |- context [_updateMeasurement ?x] =>
        destruct (MeasureFacts.updateMeasurement_sel x) as [H1 H2]
    end.
    rewrite H1, H2. split; reflexivity.
Qed.

(** X19: The call of [removeLastSelectedObj] inside [handleSelection] never
    throws, so whatever the drawing at the end does, [handleSelection]
    leaves exactly the toggled selection: with a full selection the last
    shape is dropped first, then the picked shape is removed if it is still
    selected and appended otherwise. Hence, on a full selection of distinct
    shapes, picking the last selected shape again leaves it selected,
    picking an earlier one deselects both it and the last one, and picking
    a new shape replaces the last one. *)
Theorem handleSelection_toggles (o : ObjectGroup) (m : Measurement) :
  let l := selectedShapes m in
  let l' := if Nat.eqb (List.length l) (_getMaxObjSelected (mode m))
            then removelast l else l in
  let after := selectedShapes (state_of (handleSelection o m)) in
  after = toggle o l' /\
  mode (state_of (handleSelection o m)) = mode m /\
  (forall rest a,
      l = rest ++ [a] -> List.length l = _getMaxObjSelected (mode m) -> NoDup l ->
      (o = a -> after = l) /\
      (In o rest -> after = remove_first o rest) /\
      (~ In o l -> after = rest ++ [o])).
Proof.
  cbv zeta.
  destruct (handleSelection_selection o m) as [Hsel Hmode].
  split; [exact Hsel|]. split; [exact Hmode|].
  intros rest a El Hfull Hnd. rewrite Hsel.
  apply Nat.eqb_eq in Hfull. rewrite Hfull, El, removelast_last.
  rewrite El in Hnd.
  assert (Ha : ~ In a rest).
  { apply NoDup_remove_2 in Hnd. rewrite app_nil_r in Hnd. exact Hnd. }
  unfold toggle. split; [|split].
  - intros ->. destruct (includes rest a) eqn:Ei; [|reflexivity].
    apply MeasureFacts.includes_In in Ei. contradiction.
  - intro Hin. apply MeasureFacts.includes_In in Hin. rewrite Hin. reflexivity.
  - intro Hn. destruct (includes rest o) eqn:Ei; [|reflexivity].
    apply MeasureFacts.includes_In in Ei. exfalso. apply Hn.
    apply in_or_app. left. exact Ei.
Qed.

Lemma handleSelection_toggles_witness :
  let m := set_selectedShapes [4; 7] (sample_instance DistanceMeasurement) in
  selectedShapes (state_of (handleSelection 7 m)) = [4; 7] /\
  selectedShapes (state_of (handleSelection 4 m)) = [] /\
  selectedShapes (state_of (handleSelection 9 m)) = [4; 9].
Proof.
  cbv zeta.
  assert (Hnd : NoDup [4; 7]).
  { constructor; [simpl; lia|]. constructor; [simpl; tauto | constructor]. }
  split; [|split].
  - destruct (handleSelection_toggles 7
                (set_selectedShapes [4; 7] (sample_instance DistanceMeasurement)))
      as (_ & _ & H).
    destruct (H [4] 7 eq_refl eq_refl Hnd) as (H1 & _ & _). exact (H1 eq_refl).
  - destruct (handleSelection_toggles 4
                (set_selectedShapes [4; 7] (sample_instance DistanceMeasurement)))
      as (_ & _ & H).
    destruct (H [4] 7 eq_refl eq_refl Hnd) as (_ & H2 & _).
    exact (H2 (or_introl eq_refl)).
  - destruct (handleSelection_toggles 9
                (set_selectedShapes [4; 7] (sample_instance DistanceMeasurement)))
      as (_ & _ & H).
    destruct (H [4] 7 eq_refl eq_refl Hnd) as (_ & _ & H3).
    apply H3. simpl. lia.
Defined.

(** *** Drawing *)

(** While [responseData] is [null], drawing a properties measurement
    throws before anything is added to the scene or the panel is shown. *)
Lemma Properties_render_without_response m :
  mode m = PropertiesMeasurement -> responseData m = None ->
  exists msg m',
    render m = Throw (TypeError msg) m' /\
    selectedShapes m' = selectedShapes m /\ responseData m' = None /\
    style_display (panel m') = style_display (panel m) /\ scene m' = scene m.
Proof.
  destruct m as [md sh sel p1 p2 ce sc pn pc rd nt cl]. simpl.
  intros -> ->.
  unfold render, _setMeasurementVals, _makeLines, bind at 1 2. unfold get at 1.
  cbv iota beta. cbn [mode].
  unfold Properties_setMeasurementVals. unfold bind at 1.
  change (_hideRows ?x) with (Ok tt (state_of (_hideRows x))). cbv iota beta.
  unfold bind at 1. unfold get at 1. cbv iota beta.
  cbn [selectedShapes state_of _hideRows bind panel_row modify set_panel shapes].
  destruct (nth_error sel 0) as [obj|]; cbn [require ret throw bind].
  2: { do 2 eexists. split; [reflexivity|]. repeat split. }
  repeat match goal with
         | |- context [if matches_bar_then ?k ?n then _ else _] =>
             destruct (matches_bar_then k n)
         end;
    cbn; do 2 eexists; (split; [reflexivity|]); repeat split.
Qed.

(** X20: With [DEBUG] on, every pick in the properties tool ends in a
    [TypeError]: [handleSelection] has just set [responseData] to [null]
    and the drawing reads it. The picked shape is nonetheless the selected
    one, while the panel stays hidden and the overlay scene empty. *)
Theorem Properties_pick_throws (o : ObjectGroup) (m : Measurement) :
  mode m = PropertiesMeasurement ->
  List.length (selectedShapes m) <= 1 ->
  exists msg m',
    handleSelection o m = Throw (TypeError msg) m' /\
    selectedShapes m' = [o] /\
    responseData m' = None /\
    style_display (panel m') = display_none /\
    scene m' = [].
Proof.
  intros Hmd Hlen. rewrite MeasureFacts.handleSelection_eq. rewrite Hmd.
  assert (Hfinal : forall m1,
             mode m1 = PropertiesMeasurement -> selectedShapes m1 = [] ->
             responseData m1 = None -> style_display (panel m1) = display_none ->
             scene m1 = [] ->
             exists msg m',
               _updateMeasurement (set_selectedShapes (toggle o (selectedShapes m1)) m1)
               = Throw (TypeError msg) m' /\
               selectedShapes m' = [o] /\ responseData m' = None /\
               style_display (panel m') = display_none /\ scene m' = []).
  { intros m1 H1 H2 H3 H4 H5. rewrite H2. unfold toggle. cbn [includes existsb app].
    rewrite updateMeasurement_renders
      by (cbn [set_selectedShapes selectedShapes mode]; rewrite H1; reflexivity).
    destruct (Properties_render_without_response
                (checked (ids_of (set_selectedShapes [o] m1)) (set_selectedShapes [o] m1)))
      as (msg & m' & Hr & Hs & Hd & Hp & Hsc).
    - exact H1.
    - exact H3.
    - exists msg, m'. split; [exact Hr|]. split; [exact Hs|]. split; [exact Hd|].
      split; [rewrite Hp; exact H4 | rewrite Hsc; exact H5]. }
  destruct (selectedShapes m) as [|a [|b l]] eqn:El; simpl in Hlen; try lia.
  - cbn [List.length _getMaxObjSelected Nat.eqb].
    apply Hfinal; try reflexivity.
    + exact Hmd.
    + exact El.
  - cbn [List.length _getMaxObjSelected Nat.eqb].
    destruct (removeLastSelectedObj_returns (hidden m)) as (m2 & H & Hs & Hm2 & _).
    { change (selectedShapes (hidden m)) with (selectedShapes m).
      change (mode (hidden m)) with (mode m). rewrite El, Hmd. simpl. lia. }
    rewrite H.
    change (selectedShapes (hidden m)) with (selectedShapes m) in Hs.
    change (mode (hidden m)) with (mode m) in Hm2.
    apply Hfinal; try reflexivity.
    + change (mode m2 = PropertiesMeasurement). congruence.
    + change (selectedShapes m2 = []). rewrite Hs, El. reflexivity.
Qed.

Lemma Properties_pick_throws_witness :
  exists msg m',
    handleSelection 1 (sample_instance PropertiesMeasurement)
    = Throw (TypeError msg) m' /\
    selectedShapes m' = [1] /\
    responseData m' = None /\
    style_display (panel m') = display_none /\
    scene m' = [].
Proof.
  apply (Properties_pick_throws 1 (sample_instance PropertiesMeasurement)).
  - reflexivity.
  - simpl. lia.
Defined.

(** X21: With [DEBUG] on, a distance measurement of two shapes that have
    bounding spheres is drawn from the centres of those spheres: the
    constant 50 is shown as total and the components of the difference of
    the centres as x, y and z. When the context is enabled
    ([panelCenter] is set) the call returns, having added to the scene the
    black double-headed line between the centres and the purple line from
    the panel to their midpoint, shown the panel and placed it; when
    [panelCenter] is still [null] it throws after adding the first line,
    the panel not shown. *)
Theorem Distance_draws (m : Measurement) (a b : ObjectGroup) (ca cb : Vector3) :
  mode m = DistanceMeasurement ->
  selectedShapes m = [a; b] ->
  center (shapes m a) = Some ca ->
  center (shapes m b) = Some cb ->
  let distVec := v_sub cb ca in
  let distanceLine :=
    {| kind := Straight; a_point1 := ca; a_point2 := cb;
       linewidth := mul (Fin 2) lineWidth; color := 0x000000;
       arrowStart := true; arrowEnd := true |} in
  let shown :=
    [("#z", Fixed2 (vz distVec)); ("#y", Fixed2 (vy distVec));
     ("#x", Fixed2 (vx distVec)); ("#total", Fixed2 (Fin 50))]%string in
  match panelCenter m with
  | Some pc =>
      exists m',
        _updateMeasurement m = Ok tt m' /\
        point1 m' = Some ca /\ point2 m' = Some cb /\
        texts (panel m') = shown ++ texts (panel m) /\
        scene m' =
          scene m ++
          [distanceLine;
           {| kind := Straight; a_point1 := pc;
              a_point2 := multiplyScalar (v_add ca cb) (Fin 0.5);
              linewidth := lineWidth; color := 0x800080;
              arrowStart := false; arrowEnd := true |}] /\
        style_display (panel m') = display_block /\
        placed_at (panel m') = Some pc
  | None =>
      exists msg m',
        _updateMeasurement m = Throw (TypeError msg) m' /\
        point1 m' = Some ca /\ point2 m' = Some cb /\
        texts (panel m') = shown ++ texts (panel m) /\
        scene m' = scene m ++ [distanceLine] /\
        style_display (panel m') = style_display (panel m)
  end.
Proof.
  intros Hmd Hsel Hca Hcb. cbv zeta.
  rewrite updateMeasurement_renders by (rewrite Hsel, Hmd; reflexivity).
  unfold ids_of. rewrite Hsel.
  destruct m as [md sh sel p1 p2 ce sc pn pc rd nt cl]. simpl in *. subst md sel.
  cbv -[mul v_sub v_add multiplyScalar lineWidth IZR Rdiv Z.pow_pos center app].
  rewrite Hca.
  cbv -[mul v_sub v_add multiplyScalar lineWidth IZR Rdiv Z.pow_pos center app].
  rewrite Hcb.
  destruct pc as [pc|].
  - eexists. split; [reflexivity|]. repeat split.
    rewrite <- app_assoc. reflexivity.
  - do 2 eexists. split; [reflexivity|]. repeat split.
Qed.

Lemma Distance_draws_witness :
  exists m',
    _updateMeasurement
      (set_panelCenter (Some (fin3 1 0 0))
         (set_selectedShapes [4; 7] (sample_instance DistanceMeasurement)))
    = Ok tt m' /\
    point1 m' = Some (fin3 (INR 4) 0 0) /\ point2 m' = Some (fin3 (INR 7) 0 0) /\
    List.length (scene m') = 2 /\
    style_display (panel m') = display_block /\
    placed_at (panel m') = Some (fin3 1 0 0).
Proof.
  destruct (Distance_draws
              (set_panelCenter (Some (fin3 1 0 0))
                 (set_selectedShapes [4; 7] (sample_instance DistanceMeasurement)))
              4 7 (fin3 (INR 4) 0 0) (fin3 (INR 7) 0 0)
              eq_refl eq_refl eq_refl eq_refl)
    as (m' & H & H1 & H2 & _ & Hsc & Hd & Hp).
  exists m'. split; [exact H|]. split; [exact H1|]. split; [exact H2|].
  split; [rewrite Hsc; reflexivity|]. split; [exact Hd | exact Hp].
Defined.

(** X22: With [DEBUG] on, an angle measurement of two shapes that have bounding
    spheres writes no value to its panel; with the context enabled it
    returns, having added to the scene a curved arrow between the two
    centres, whose arc centre is the origin and whose radius is the
    distance of the first centre from the origin, and the purple line from
    the panel to the midpoint of the centres, and shows and places the
    panel. *)
Theorem Angle_draws (m : Measurement) (a b : ObjectGroup) (ca cb pc : Vector3) :
  mode m = AngleMeasurement ->
  selectedShapes m = [a; b] ->
  center (shapes m a) = Some ca ->
  center (shapes m b) = Some cb ->
  panelCenter m = Some pc ->
  exists m',
    _updateMeasurement m = Ok tt m' /\
    point1 m' = Some ca /\ point2 m' = Some cb /\
    texts (panel m') = texts (panel m) /\
    rows (panel m') = rows (panel m) /\
    scene m' =
      scene m ++
      [{| kind := Curved (fin3 0 0 0) (length (v_sub ca (fin3 0 0 0)));
          a_point1 := ca; a_point2 := cb; linewidth := lineWidth;
          color := 0x000000; arrowStart := true; arrowEnd := true |};
       {| kind := Straight; a_point1 := pc;
          a_point2 := multiplyScalar (v_add ca cb) (Fin 0.5);
          linewidth := lineWidth; color := 0x800080;
          arrowStart := false; arrowEnd := true |}] /\
    style_display (panel m') = display_block /\
    placed_at (panel m') = Some pc.
Proof.
  intros Hmd Hsel Hca Hcb Hpc.
  rewrite updateMeasurement_renders by (rewrite Hsel, Hmd; reflexivity).
  unfold ids_of. rewrite Hsel.
  destruct m as [md sh sel p1 p2 ce sc pn pc' rd nt cl]. simpl in *.
  subst md sel pc'.
  cbv -[mul v_sub v_add multiplyScalar lineWidth IZR Rdiv Z.pow_pos center app
        length fin3].
  rewrite Hca.
  cbv -[mul v_sub v_add multiplyScalar lineWidth IZR Rdiv Z.pow_pos center app
        length fin3].
  rewrite Hcb.
  eexists. split; [reflexivity|]. repeat split.
  rewrite <- app_assoc. reflexivity.
Qed.

Lemma Angle_draws_witness :
  exists m',
    _updateMeasurement
      (set_panelCenter (Some (fin3 1 0 0))
         (set_selectedShapes [4; 7] (sample_instance AngleMeasurement)))
    = Ok tt m' /\
    texts (panel m') = [] /\
    List.length (scene m') = 2 /\
    style_display (panel m') = display_block.
Proof.
  destruct (Angle_draws
              (set_panelCenter (Some (fin3 1 0 0))
                 (set_selectedShapes [4; 7] (sample_instance AngleMeasurement)))
              4 7 (fin3 (INR 4) 0 0) (fin3 (INR 7) 0 0) (fin3 1 0 0)
              eq_refl eq_refl eq_refl eq_refl eq_refl)
    as (m' & H & _ & _ & Ht & _ & Hsc & Hd & _).
  exists m'. split; [exact H|]. split; [exact Ht|].
  split; [rewrite Hsc; reflexivity | exact Hd].
Defined.

(** *** Responses *)

(** X23: [handleResponse] is all or nothing in each of the three modes: either
    it returns having stored a response object of the mode's kind and
    changed nothing else, after which [_waitResponse] resolves with that
    object at once, or it throws with the instance as it was, so that a
    pending wait keeps waiting. The distance handler returns exactly when
    [point1] and [point2] of the response can be spread, and stores the
    response's [distance] as it is. *)
Theorem handleResponse_stores_or_throws (r : Response) (m : Measurement) :
  match handleResponse r m with
  | Ok _ m' =>
      exists d,
        m' = set_responseData (Some d) m /\
        _waitResponse m' = call_resolve d /\
        poll (fun _ => m') 0 0 0 = (fulfilled d, 0) /\
        match mode m, d with
        | DistanceMeasurement, DistanceData _ _ _
        | PropertiesMeasurement, PropertiesData _ _
        | AngleMeasurement, AngleData _ _ _ _ => True
        | _, _ => False
        end
  | Throw _ m' => m' = m /\ _waitResponse m' = _waitResponse m
  end /\
  (mode m = DistanceMeasurement ->
   forall m',
     handleResponse r m = Ok tt m' <->
     exists p1 p2,
       r_point1 r = JArr p1 /\ r_point2 r = JArr p2 /\
       m' = set_responseData
              (Some (DistanceData (r_distance r) (Vector3_of_list p1)
                       (Vector3_of_list p2))) m).
Proof.
  split.
  - unfold handleResponse, bind at 1, get at 1. cbv iota beta.
    destruct (mode m).
    + unfold Distance_handleResponse, new_Vector3_spread.
      destruct (r_point1 r); cbn; try (split; reflexivity);
        destruct (r_point2 r); cbn; try (split; reflexivity).
      eexists. repeat split.
    + unfold Properties_handleResponse, Properties_data, new_Vector3_spread.
      destruct (js_truthy (r_vertex_coords r)).
      * destruct (r_vertex_coords r); cbn; try (split; reflexivity);
          destruct (r_center r); cbn; try (split; reflexivity).
        eexists. repeat split.
      * destruct (js_truthy (r_length r));
          [|destruct (js_truthy (r_area r)); [|destruct (js_truthy (r_volume r))]];
          destruct (r_center r); cbn; try (split; reflexivity);
          eexists; repeat split.
    + unfold Angle_handleResponse, new_Vector3_spread.
      destruct (r_point1 r); cbn; try (split; reflexivity);
        destruct (r_point2 r); cbn; try (split; reflexivity);
        destruct (r_plane_normal r); cbn; try (split; reflexivity).
      eexists. repeat split.
  - intros Hmd m'. unfold handleResponse, bind at 1, get at 1. cbv iota beta.
    rewrite Hmd. unfold Distance_handleResponse, new_Vector3_spread.
    split.
    + destruct (r_point1 r); cbn; try discriminate;
        destruct (r_point2 r); cbn; try discriminate.
      intro H; inversion H. do 2 eexists. repeat split.
    + intros (p1 & p2 & -> & -> & ->). reflexivity.
Qed.

(** *** The dispatcher *)

Lemma removeLastSelectedObj_state m :
  List.length (selectedShapes m) <= _getMaxObjSelected (mode m) ->
  let m' := state_of (removeLastSelectedObj m) in
  removeLastSelectedObj m = Ok tt m' /\
  selectedShapes m' = removelast (selectedShapes m) /\
  mode m' = mode m /\
  contextEnabled m' = contextEnabled m /\
  (selectedShapes m = [] -> cleared m' = cleared m) /\
  (forall rest a, selectedShapes m = rest ++ [a] -> cleared m' = a :: cleared m) /\
  responseData m' = None /\ style_display (panel m') = display_none /\ scene m' = [].
Proof.
  intro Hlen. cbv zeta.
  pose proof (removeLastSelectedObj_contextEnabled m) as Hce.
  destruct (removeLastSelectedObj_returns m Hlen)
    as (m2 & H & Hs & Hmd & Hc0 & Hc1 & Hn).
  rewrite H in Hce |- *. simpl state_of in *.
  split; [reflexivity|]. split; [exact Hs|]. split; [exact Hmd|].
  split; [exact Hce|]. split; [exact Hc0|].
  split; [intros rest a E; apply (Hc1 rest a E)|].
  repeat split.
Qed.

(** X24: With the distance context enabled and at most two shapes selected,
    [handleResetSelection] returns with the distance selection empty, the
    highlight of every shape that was selected cleared (the last selected
    first) and the measurement hidden; the context stays enabled and the
    size measurement is not touched. *)
Theorem handleResetSelection_empties (t : Tools.Tools) :
  contextEnabled (Tools.distanceMeasurement t) = true ->
  mode (Tools.distanceMeasurement t) = DistanceMeasurement ->
  List.length (selectedShapes (Tools.distanceMeasurement t)) <= 2 ->
  let d := Tools.distanceMeasurement t in
  let d' := Tools.distanceMeasurement (Tools.handleResetSelection t) in
  returned ((removeLastSelectedObj ;;; removeLastSelectedObj) d) = true /\
  selectedShapes d' = [] /\
  cleared d' = selectedShapes d ++ cleared d /\
  contextEnabled d' = true /\
  responseData d' = None /\ style_display (panel d') = display_none /\
  scene d' = [] /\
  Tools.sizeMeasurement (Tools.handleResetSelection t) = Tools.sizeMeasurement t.
Proof.
  intros Hce Hmd Hlen. cbv zeta.
  unfold Tools.handleResetSelection. rewrite Hce.
  unfold Tools.on_distance. cbn [Tools.distanceMeasurement Tools.sizeMeasurement].
  set (d := Tools.distanceMeasurement t) in *.
  destruct (removeLastSelectedObj_state d) as (H1 & Hs1 & Hm1 & Hc1 & Hz1 & Hl1 & _).
  { rewrite Hmd. exact Hlen. }
  set (d1 := state_of (removeLastSelectedObj d)) in *.
  assert (Hlen1 : List.length (selectedShapes d1) <= _getMaxObjSelected (mode d1)).
  { rewrite Hs1, Hm1, Hmd, length_removelast_nat. simpl. lia. }
  destruct (removeLastSelectedObj_state d1 Hlen1)
    as (H2 & Hs2 & Hm2 & Hc2 & Hz2 & Hl2 & Hr & Hp & Hsc).
  set (d2 := state_of (removeLastSelectedObj d1)) in *.
  assert (Hrun : (removeLastSelectedObj ;;; removeLastSelectedObj) d = Ok tt d2).
  { unfold bind. rewrite H1. exact H2. }
  rewrite Hrun. simpl state_of. simpl returned.
  split; [reflexivity|].
  assert (Hcases : selectedShapes d2 = [] /\
                   cleared d2 = selectedShapes d ++ cleared d).
  { rewrite Hs2.
    destruct (selectedShapes d) as [|x [|y [|z l]]] eqn:El; simpl in Hlen; try lia.
    - rewrite Hs1. split; [reflexivity|].
      rewrite Hz2 by (rewrite Hs1; reflexivity). rewrite Hz1 by reflexivity.
      reflexivity.
    - rewrite Hs1. split; [reflexivity|].
      rewrite Hz2 by (rewrite Hs1; reflexivity).
      rewrite (Hl1 [] x eq_refl). reflexivity.
    - rewrite Hs1. split; [reflexivity|].
      rewrite (Hl2 [] x) by (rewrite Hs1; reflexivity).
      rewrite (Hl1 [x] y eq_refl). reflexivity. }
  destruct Hcases as [Hsel Hcl].
  split; [exact Hsel|]. split; [exact Hcl|].
  split; [rewrite Hc2, Hc1; exact Hce|].
  split; [exact Hr|]. split; [exact Hp|]. split; [exact Hsc | reflexivity].
Qed.

Lemma handleResetSelection_empties_witness :
  let t := Tools.handleSelectedObj (Tools.handleSelectedObj sample_tools 4) 7 in
  selectedShapes (Tools.distanceMeasurement t) = [4; 7] /\
  selectedShapes (Tools.distanceMeasurement (Tools.handleResetSelection t)) = [] /\
  cleared (Tools.distanceMeasurement (Tools.handleResetSelection t)) = [4; 7].
Proof.
  cbv zeta.
  assert (Hsel : selectedShapes
                   (Tools.distanceMeasurement
                      (Tools.handleSelectedObj (Tools.handleSelectedObj sample_tools 4) 7))
                 = [4; 7]) by reflexivity.
  split; [exact Hsel|].
  destruct (handleResetSelection_empties
              (Tools.handleSelectedObj (Tools.handleSelectedObj sample_tools 4) 7))
    as (_ & H1 & H2 & _).
  - reflexivity.
  - reflexivity.
  - rewrite Hsel. simpl. lia.
  - split; [exact H1|]. rewrite H2, Hsel. reflexivity.
Defined.

(** X25: With the distance context enabled, selecting a shape that is not yet
    selected while there is room for it and then removing the last
    selection gives the selection back as it was; the highlight of the
    shape is cleared, the context stays enabled, and the size measurement
    is not touched by either call. *)
Theorem select_then_remove_last (t : Tools.Tools) (o : ObjectGroup) :
  contextEnabled (Tools.distanceMeasurement t) = true ->
  ~ In o (selectedShapes (Tools.distanceMeasurement t)) ->
  List.length (selectedShapes (Tools.distanceMeasurement t))
    < _getMaxObjSelected (mode (Tools.distanceMeasurement t)) ->
  let d := Tools.distanceMeasurement t in
  let t1 := Tools.handleSelectedObj t o in
  let t2 := Tools.handleRemoveLastSelection t1 in
  selectedShapes (Tools.distanceMeasurement t1) = selectedShapes d ++ [o] /\
  selectedShapes (Tools.distanceMeasurement t2) = selectedShapes d /\
  cleared (Tools.distanceMeasurement t2) = o :: cleared d /\
  contextEnabled (Tools.distanceMeasurement t2) = true /\
  Tools.sizeMeasurement t2 = Tools.sizeMeasurement t.
Proof.
  intros Hce Hnew Hroom. cbv zeta.
  unfold Tools.handleSelectedObj. rewrite Hce.
  unfold Tools.handleRemoveLastSelection, Tools.on_distance.
  cbn [Tools.distanceMeasurement Tools.sizeMeasurement].
  set (d := Tools.distanceMeasurement t) in *.
  pose proof (handleSelection_contextEnabled o d) as Hce1.
  destruct (handleSelection_selection o d) as [Hs1 Hm1].
  assert (Hnf : Nat.eqb (List.length (selectedShapes d)) (_getMaxObjSelected (mode d))
                = false) by (apply Nat.eqb_neq; lia).
  assert (Hcl1 : cleared (state_of (handleSelection o d)) = cleared d).
  { rewrite MeasureFacts.handleSelection_eq, Hnf.
    rewrite (updateMeasurement_frame cleared _ render_cleared) by reflexivity.
    reflexivity. }
  rewrite Hnf in Hs1. unfold toggle in Hs1.
  assert (Hinc : includes (selectedShapes d) o = false).
  { destruct (includes (selectedShapes d) o) eqn:E; [|reflexivity].
    apply MeasureFacts.includes_In in E. contradiction. }
  rewrite Hinc in Hs1.
  set (d1 := state_of (handleSelection o d)) in *.
  rewrite Hce1, Hce.
  cbn [Tools.distanceMeasurement Tools.sizeMeasurement].
  destruct (removeLastSelectedObj_state d1) as (_ & Hs2 & _ & Hc2 & _ & Hl2 & _).
  { rewrite Hs1, Hm1, length_app. simpl. lia. }
  split; [exact Hs1|].
  split; [rewrite Hs2, Hs1; apply removelast_last|].
  split; [rewrite (Hl2 _ o Hs1), Hcl1; reflexivity|].
  split; [rewrite Hc2, Hce1; exact Hce | reflexivity].
Qed.

Lemma select_then_remove_last_witness :
  let t2 := Tools.handleRemoveLastSelection (Tools.handleSelectedObj sample_tools 4) in
  selectedShapes (Tools.distanceMeasurement (Tools.handleSelectedObj sample_tools 4))
  = [4] /\
  selectedShapes (Tools.distanceMeasurement t2) = [] /\
  cleared (Tools.distanceMeasurement t2) = [4] /\
  contextEnabled (Tools.distanceMeasurement t2) = true /\
  Tools.sizeMeasurement t2 = Tools.sizeMeasurement sample_tools.
Proof.
  apply (select_then_remove_last sample_tools 4).
  - reflexivity.
  - simpl. tauto.
  - simpl. lia.
Defined.

End MeasureMore.

(** ** The arrows *)

Module ArrowFacts.
Import JSNum NumFacts Three VectorFacts Measure Arrows.
#[local] Open Scope R_scope.










End ArrowFacts.

(** ** Grid: labels and helper positions *)

Module GridLabelFacts.
Import JSNum NumFacts Three Grid GridPlanes GridLabels.
#[local] Open Scope R_scope.

Lemma labels_stuck fuel : forall r h,
  r <= h -> labels fuel (Fin r) (Fin h) (Fin 0) = None.
Proof.
  induction fuel as [|fuel IH]; intros r h Hr; simpl.
  - rewrite Rleb_true by exact Hr. reflexivity.
  - rewrite Rleb_true by exact Hr. rewrite IH by lra. reflexivity.
Qed.

(** X28: For a bounding box without extent (a single point, or nothing at all)
    the tick is 0 and the loop of the [Grid] constructor that places the
    tick labels does not end: no number of turns reaches its exit. *)
Theorem labels_zero_extent_never_end (ticks : option num) :
  niceTick_of (constructor_axis (Fin 0) ticks) = Fin 0 /\
  axis_size (constructor_axis (Fin 0) ticks) = Fin (0 * 1.05 + - (- 0 * 1.05)) /\
  forall fuel, constructor_labels fuel (constructor_axis (Fin 0) ticks) = None.
Proof.
  assert (E : constructor_axis (Fin 0) ticks
              = (Fin (- 0 * 1.05), Fin (0 * 1.05), Fin 0)).
  { unfold constructor_axis, niceBounds. cbv zeta.
    change (mul (neg (Fin 0)) (Fin 1.05)) with (Fin (- 0 * 1.05)).
    change (mul (Fin 0) (Fin 1.05)) with (Fin (0 * 1.05)).
    change (sub (Fin (0 * 1.05)) (Fin (- 0 * 1.05)))
      with (Fin (0 * 1.05 + - (- 0 * 1.05))).
    cbn [is_zero]. rewrite Reqb_true by lra. reflexivity. }
  rewrite E. split; [reflexivity|]. split; [reflexivity|].
  intro fuel. unfold constructor_labels, axis_size, niceTick_of.
  cbn [snd sub neg add]. rewrite !div_fin by lra.
  apply labels_stuck. lra.
Qed.


End GridLabelFacts.

(** ** The camera in doubles *)

Module DoublesFacts.
Import PrimFloat Doubles.
#[local] Open Scope float_scope.

Lemma camera_with_camera_d f c : camera (with_camera f c) = f (camera c).
Proof. unfold camera, with_camera; destruct (ortho c); reflexivity. Qed.

Lemma target_with_camera_d f c : target (with_camera f c) = target c.
Proof. unfold with_camera; destruct (ortho c); reflexivity. Qed.

Lemma ortho_with_camera_d f c : ortho (with_camera f c) = ortho c.
Proof. unfold with_camera; destruct (ortho c); reflexivity. Qed.

Lemma distance_with_camera_d f c :
  camera_distance (with_camera f c) = camera_distance c.
Proof. unfold with_camera; destruct (ortho c); reflexivity. Qed.

Lemma Vector3_of_toArray_d v : Vector3_of_list (toArray v) = v.
Proof. destruct v; reflexivity. Qed.

Lemma set_frame_d (c : Camera) (f : ThreeCamera -> ThreeCamera) :
  target (with_camera f c) = target c /\
  ortho (with_camera f c) = ortho c /\
  camera_distance (with_camera f c) = camera_distance c.
Proof.
  rewrite target_with_camera_d, ortho_with_camera_d, distance_with_camera_d.
  repeat split.
Qed.

(** *** [setPosition] *)

Lemma setPosition_relative_d c p :
  getPosition (setPosition c (PosVector3 p) true)
  = v_add (multiplyScalar (normalize p) (camera_distance c)) (target c).
Proof.
  unfold setPosition, setupCamera, getPosition.
  rewrite Vector3_of_toArray_d, camera_with_camera_d. reflexivity.
Qed.

(** X8: [setPosition(p, true)] puts the camera at
    [target + normalize(p) * camera_distance], each operation being the one
    on doubles, for a vector and for an array of three numbers alike, and
    changes nothing else: the target, the camera distance, the mode, the
    quaternion and the zoom property stay. So the zero direction leaves the
    camera on the target, and so does a direction whose squared length
    overflows; the direction (3, 0, 4) at camera distance 5 from the origin
    gives (3.0000000000000004, 0, 4). *)
Theorem setPosition_relative_places :
  (forall (c : Camera) (p : Vector3),
      getPosition (setPosition c (PosVector3 p) true)
      = v_add (multiplyScalar (normalize p) (camera_distance c)) (target c)) /\
  (forall (c : Camera) (x y z : float),
      getPosition (setPosition c (PosArray [x; y; z]) true)
      = v_add (multiplyScalar (normalize (V3 x y z)) (camera_distance c)) (target c)) /\
  (forall (c : Camera) (arg : PositionArg) (relative : bool),
      target (setPosition c arg relative) = target c /\
      camera_distance (setPosition c arg relative) = camera_distance c /\
      ortho (setPosition c arg relative) = ortho c /\
      getQuaternion (setPosition c arg relative) = getQuaternion c /\
      zoom (camera (setPosition c arg relative)) = zoom (camera c)) /\
  getPosition (setPosition (orthographic_at (V3 1 1 1) (V3 1 (-2) 3) 1)
                 (PosVector3 (V3 0 0 0)) true) = V3 1 (-2) 3 /\
  getPosition (setPosition (orthographic_at (V3 1 1 1) (V3 1 (-2) 3) 1)
                 (PosVector3 (V3 0x1p+700 0 0)) true) = V3 1 (-2) 3 /\
  getPosition (setPosition (orthographic_at (V3 1 1 1) (V3 0 0 0) 1)
                 (PosVector3 (V3 3 0 4)) true) = V3 0x1.8000000000001p+1 0 4.
Proof.
  split; [exact setPosition_relative_d|].
  split; [intros c x y z; unfold setPosition; cbn [List.length Nat.eqb];
          apply (setPosition_relative_d c (V3 x y z))|].
  split.
  - intros c arg relative. unfold setPosition, setupCamera, getQuaternion.
    destruct arg as [a|v|]; [destruct (Nat.eqb _ _)| |];
      rewrite ?target_with_camera_d, ?distance_with_camera_d,
        ?ortho_with_camera_d, ?camera_with_camera_d; repeat split.
  - repeat split; vm_compute; reflexivity.
Qed.

(** *** [switchCamera] *)

Lemma switchCamera_unfold_d c flag :
  switchCamera c flag =
  with_camera (set_quaternion (getQuaternion c))
    (setZoom (with_camera (set_position (getPosition c)) (set_ortho flag c))
             (getZoom c)).
Proof.
  unfold switchCamera, setPosition, setQuaternion, setupCamera.
  rewrite Vector3_of_toArray_d. reflexivity.
Qed.

Lemma switchCamera_frame_d c flag :
  getQuaternion (switchCamera c flag) = getQuaternion c /\
  ortho (switchCamera c flag) = flag /\
  target (switchCamera c flag) = target c /\
  camera_distance (switchCamera c flag) = camera_distance c.
Proof.
  destruct c as [[tx ty tz] o u cd [[px py pz] qp zp up_p] [[ox oy oz] qo zo up_o]].
  destruct o, flag; repeat split.
Qed.

Lemma switchCamera_to_ortho_d c :
  getPosition (switchCamera c true) = getPosition c /\
  getZoom (switchCamera c true) = getZoom c.
Proof.
  destruct c as [[tx ty tz] o u cd [[px py pz] qp zp up_p] [[ox oy oz] qo zo up_o]].
  destruct o; split; reflexivity.
Qed.

Lemma switchCamera_to_persp_d c :
  getPosition (switchCamera c false)
  = v_add (setLength (v_sub (getPosition c) (target c))
                     (camera_distance c / getZoom c)) (target c) /\
  getZoom (switchCamera c false)
  = camera_distance c / length (v_sub (getPosition (switchCamera c false)) (target c)).
Proof.
  destruct c as [[tx ty tz] o u cd [[px py pz] qp zp up_p] [[ox oy oz] qo zo up_o]].
  destruct o; split; reflexivity.
Qed.

Lemma orthographic_at_moves :
  getPosition (switchCamera (orthographic_at (V3 10 0 0) (V3 0 0 0) 2) false)
  <> getPosition (orthographic_at (V3 10 0 0) (V3 0 0 0) 2).
Proof.
  intro E. apply (f_equal (fun p => vx p =? 10)) in E. vm_compute in E.
  discriminate E.
Qed.

(** C9, as stated, fails on the reported zoom. The orthographic camera at
    (1, 1, 1) with zoom 7 that looks at the origin, built through the
    constructor, [setPosition] and [setZoom], reports 6.999999999999999
    after [switchCamera(false)]; the orthographic camera right after
    construction reports 1 before the switch and [Infinity] after it. *)
Lemma switchCamera_zoom_drifts :
  (exists c0,
      constructor lookAt_identity 800 600 1 [0; 0; 0] true "Z" = Some c0 /\
      setZoom (setPosition c0 (PosArray [1; 1; 1]) false) 7
      = orthographic_at (V3 1 1 1) (V3 0 0 0) 7 /\
      getZoom c0 = 1 /\
      getZoom (switchCamera c0 false) = infinity) /\
  getZoom (orthographic_at (V3 1 1 1) (V3 0 0 0) 7) = 7 /\
  getZoom (switchCamera (orthographic_at (V3 1 1 1) (V3 0 0 0) 7) false)
  = 0x1.bffffffffffffp+2 /\
  getZoom (switchCamera (orthographic_at (V3 1 1 1) (V3 0 0 0) 7) false)
  <> getZoom (orthographic_at (V3 1 1 1) (V3 0 0 0) 7).
Proof.
  split; [|split; [|split]].
  - eexists. split; [reflexivity|]. repeat split; vm_compute; reflexivity.
  - reflexivity.
  - vm_compute. reflexivity.
  - intro E. apply (f_equal (fun z => z =? 7)) in E. vm_compute in E.
    discriminate E.
Qed.

(** C9 (amended): [switchCamera] keeps the quaternion, the target and the
    camera distance, and sets the mode. Switching to the orthographic camera
    keeps the position and the reported zoom. Switching to the perspective
    camera with the position [p] and the reported zoom [z] moves the camera
    to [target + (p - target).setLength(camera_distance / z)], and the zoom
    reported afterwards is [camera_distance] divided by the length of the
    new offset, each operation being the one on doubles. The orthographic
    camera at (10, 0, 0) with zoom 2, camera distance 5 and the target at
    the origin is moved to (2.5, 0, 0). *)
Theorem switchCamera_effect :
  (forall (c : Camera) (flag : bool),
      getQuaternion (switchCamera c flag) = getQuaternion c /\
      ortho (switchCamera c flag) = flag /\
      target (switchCamera c flag) = target c /\
      camera_distance (switchCamera c flag) = camera_distance c) /\
  (forall c : Camera,
      getPosition (switchCamera c true) = getPosition c /\
      getZoom (switchCamera c true) = getZoom c) /\
  (forall c : Camera,
      getPosition (switchCamera c false)
      = v_add (setLength (v_sub (getPosition c) (target c))
                         (camera_distance c / getZoom c)) (target c) /\
      getZoom (switchCamera c false)
      = camera_distance c
        / length (v_sub (getPosition (switchCamera c false)) (target c))) /\
  getPosition (switchCamera (orthographic_at (V3 10 0 0) (V3 0 0 0) 2) false)
  = V3 2.5 0 0 /\
  (exists c : Camera,
      ortho c = true /\
      getPosition (switchCamera c false) <> getPosition c).
Proof.
  split; [exact switchCamera_frame_d|].
  split; [exact switchCamera_to_ortho_d|].
  split; [exact switchCamera_to_persp_d|].
  split; [vm_compute; reflexivity|].
  exists (orthographic_at (V3 10 0 0) (V3 0 0 0) 2).
  split; [reflexivity | exact orthographic_at_moves].
Qed.

(** X9: Switching to the orthographic camera writes the position, the
    quaternion and the reported zoom of the current camera to the
    orthographic camera and leaves the perspective camera as it was; done
    twice it is as done once, and on a camera that is orthographic already
    it changes nothing. Switching to the perspective camera leaves the
    orthographic camera as it was. *)
Theorem switchCamera_to_orthographic (c : Camera) :
  pCamera (switchCamera c true) = pCamera c /\
  oCamera (switchCamera c true)
  = {| position := getPosition c; quaternion := getQuaternion c;
       zoom := getZoom c; cam_up := cam_up (oCamera c) |} /\
  switchCamera (switchCamera c true) true = switchCamera c true /\
  (ortho c = true -> switchCamera c true = c) /\
  oCamera (switchCamera c false) = oCamera c.
Proof.
  destruct c as [[tx ty tz] o u cd [[px py pz] qp zp up_p] [[ox oy oz] qo zo up_o]].
  destruct o; repeat split; try reflexivity; discriminate.
Qed.

Lemma switchCamera_to_orthographic_witness :
  pCamera (switchCamera (orthographic_at (V3 1 1 1) (V3 0 0 0) 7) true)
  = pCamera (orthographic_at (V3 1 1 1) (V3 0 0 0) 7) /\
  oCamera (switchCamera (orthographic_at (V3 1 1 1) (V3 0 0 0) 7) true)
  = {| position := getPosition (orthographic_at (V3 1 1 1) (V3 0 0 0) 7);
       quaternion := getQuaternion (orthographic_at (V3 1 1 1) (V3 0 0 0) 7);
       zoom := getZoom (orthographic_at (V3 1 1 1) (V3 0 0 0) 7);
       cam_up := cam_up (oCamera (orthographic_at (V3 1 1 1) (V3 0 0 0) 7)) |} /\
  switchCamera (switchCamera (orthographic_at (V3 1 1 1) (V3 0 0 0) 7) true) true
  = switchCamera (orthographic_at (V3 1 1 1) (V3 0 0 0) 7) true /\
  (ortho (orthographic_at (V3 1 1 1) (V3 0 0 0) 7) = true ->
   switchCamera (orthographic_at (V3 1 1 1) (V3 0 0 0) 7) true
   = orthographic_at (V3 1 1 1) (V3 0 0 0) 7) /\
  oCamera (switchCamera (orthographic_at (V3 1 1 1) (V3 0 0 0) 7) false)
  = oCamera (orthographic_at (V3 1 1 1) (V3 0 0 0) 7).
Proof.
  exact (switchCamera_to_orthographic (orthographic_at (V3 1 1 1) (V3 0 0 0) 7)).
Defined.

(** *** [presetCamera] *)


Section WithLibrary.

Variable lookAt : Vector3 -> Vector3 -> Vector3 -> Quaternion.
Variables Math_sin Math_cos : float -> float.




End WithLibrary.



End DoublesFacts.

(** ** The grid ticks in doubles *)

Module GridDoublesFacts.
Import PrimFloat GridDoubles.
#[local] Open Scope float_scope.

Section WithMath.

Variables Math_log10 Math_floor Math_ceil : float -> float.
Variable pow : float -> float -> float.



End WithMath.

End GridDoublesFacts.
